(** * mobilealerts: the historic sensor platform (sensorhistory.py)

    A shallow embedding of [custom_components/mobilealerts/sensorhistory.py]:
    the URL builder, the table fetcher, the column locator, the row value
    extractor, the aggregator with its rounding rule, the throttled update of
    the data fetcher, the sensor entity and the platform setup.

    Python values are modelled as the interpreter has them: [float] is IEEE
    binary64 (Rocq's primitive floats and their [spec_float] reading), [int]
    is [Z], [str] is [string] with one [ascii] for each character (its code
    point, so the strs of the model are those of code points below 256),
    exceptions are values of an error monad with their class, log lines and
    HTTP requests are events of a trace.  The clock, the time zone data and
    the answer of the network to one call are the fields of a [world]. *)

From Stdlib Require Import ZArith List String Ascii Bool Lia.
From Stdlib Require Import Floats.
From Stdlib Require Import DecimalString.
Import ListNotations.

Local Open Scope string_scope.
Local Open Scope Z_scope.

Set Implicit Arguments.

(* ================================================================= *)
(** ** Exceptions and the error monad *)

(** The exception classes this module can meet.  The first block is Python's
    built-in hierarchy, the second the one of the [requests] package, whose
    classes derive from [RequestException(IOError)] and from none of the
    built-in [ConnectionError] and [TimeoutError]. *)
Inductive exc_class : Type :=
| Exception
| ValueError
| IndexError
| KeyError
| AttributeError
| OverflowError
| TypeError
| ZeroDivisionError
| OSError
| ConnectionError
| ConnectionRefusedError
| ConnectionResetError
| TimeoutError
| RequestException
| requests_HTTPError
| requests_ConnectionError
| requests_Timeout
| requests_ConnectTimeout
| requests_ReadTimeout.

Definition exc_class_eqb (a b : exc_class) : bool :=
  match a, b with
  | Exception, Exception | ValueError, ValueError | IndexError, IndexError
  | KeyError, KeyError | AttributeError, AttributeError
  | OverflowError, OverflowError | TypeError, TypeError
  | ZeroDivisionError, ZeroDivisionError | OSError, OSError
  | ConnectionError, ConnectionError
  | ConnectionRefusedError, ConnectionRefusedError
  | ConnectionResetError, ConnectionResetError
  | TimeoutError, TimeoutError | RequestException, RequestException
  | requests_HTTPError, requests_HTTPError
  | requests_ConnectionError, requests_ConnectionError
  | requests_Timeout, requests_Timeout
  | requests_ConnectTimeout, requests_ConnectTimeout
  | requests_ReadTimeout, requests_ReadTimeout => true
  | _, _ => false
  end.

(** Method resolution order of each class (the class itself first). *)
Definition mro (c : exc_class) : list exc_class :=
  match c with
  | Exception => [Exception]
  | ValueError => [ValueError; Exception]
  | IndexError => [IndexError; Exception]
  | KeyError => [KeyError; Exception]
  | AttributeError => [AttributeError; Exception]
  | OverflowError => [OverflowError; Exception]
  | TypeError => [TypeError; Exception]
  | ZeroDivisionError => [ZeroDivisionError; Exception]
  | OSError => [OSError; Exception]
  | ConnectionError => [ConnectionError; OSError; Exception]
  | ConnectionRefusedError =>
      [ConnectionRefusedError; ConnectionError; OSError; Exception]
  | ConnectionResetError =>
      [ConnectionResetError; ConnectionError; OSError; Exception]
  | TimeoutError => [TimeoutError; OSError; Exception]
  | RequestException => [RequestException; OSError; Exception]
  | requests_HTTPError =>
      [requests_HTTPError; RequestException; OSError; Exception]
  | requests_ConnectionError =>
      [requests_ConnectionError; RequestException; OSError; Exception]
  | requests_Timeout =>
      [requests_Timeout; RequestException; OSError; Exception]
  | requests_ConnectTimeout =>
      [requests_ConnectTimeout; requests_ConnectionError; requests_Timeout;
       RequestException; OSError; Exception]
  | requests_ReadTimeout =>
      [requests_ReadTimeout; requests_Timeout; RequestException; OSError;
       Exception]
  end.

(** [issubclass c d]: what an [except d:] clause tests on a raised [c]. *)
Definition issubclass (c d : exc_class) : bool :=
  existsb (exc_class_eqb d) (mro c).

Record exn : Type := mk_exn { exn_class : exc_class; exn_msg : string }.

Inductive outcome (A : Type) : Type :=
| Ok (a : A)
| Raise (e : exn).
Arguments Ok {A} a.
Arguments Raise {A} e.

Definition obind {A B} (m : outcome A) (f : A -> outcome B) : outcome B :=
  match m with
  | Ok a => f a
  | Raise e => Raise e
  end.

Declare Scope outcome_scope.
Delimit Scope outcome_scope with outcome.
Notation "x <- m ;; k" := (obind m (fun x => k))
  (at level 61, m at next level, right associativity) : outcome_scope.
Notation "' p <- m ;; k" := (obind m (fun p => k))
  (at level 61, p pattern, m at next level, right associativity)
  : outcome_scope.

(** [list(map(f, xs))] for an [f] that may raise: the first failure wins. *)
Fixpoint map_outcome {A B} (f : A -> outcome B) (xs : list A)
  : outcome (list B) :=
  match xs with
  | [] => Ok []
  | x :: xs' =>
      match f x with
      | Raise e => Raise e
      | Ok y =>
          match map_outcome f xs' with
          | Raise e => Raise e
          | Ok ys => Ok (y :: ys)
          end
      end
  end.

(* ================================================================= *)
(** ** Python numbers *)

(** An aggregation result is a Python [int] or a Python [float]. *)
Inductive pynum : Type :=
| PyInt (z : Z)
| PyFloat (f : float).

(** [int -> float] conversion, correctly rounded. *)
Definition float_of_Z (z : Z) : float :=
  SF2Prim (binary_normalize prec emax z 0 false).

(** The binary64 number nearest to the fraction [n / d] ([d > 0]), ties to
    even: what [float] makes of the decimal literal with digits [n] and
    scale [d], and what the true division [n / d] of two ints gives. *)
Definition float_of_ratio (n : Z) (d : positive) : float :=
  match n with
  | Z0 => 0%float
  | Zpos p =>
      SF2Prim (SFdiv prec emax (S754_finite false p 0) (S754_finite false d 0))
  | Zneg p =>
      SF2Prim (SFdiv prec emax (S754_finite true p 0) (S754_finite false d 0))
  end.

(** [a > b] and [a < b] on floats. *)
Definition float_gt (a b : float) : bool := PrimFloat.ltb b a.
Definition float_lt (a b : float) : bool := PrimFloat.ltb a b.

(** The magnitude of a finite nonzero float [(-1)^s * m * 2^e] as a fraction
    of integers: [m * 2^e / 1] when [e >= 0], [m / 2^(-e)] otherwise. *)
Definition mag_num (m : positive) (e : Z) : Z :=
  if 0 <=? e then Z.pos m * 2 ^ e else Z.pos m.
Definition mag_den (e : Z) : Z :=
  if 0 <=? e then 1 else 2 ^ (- e).

Definition with_sign (s : bool) (z : Z) : Z := if s then - z else z.

(** [int(x)] on a float: truncation toward zero; NaN and the infinities
    raise. *)
Definition py_int (x : float) : outcome Z :=
  match Prim2SF x with
  | S754_nan =>
      Raise (mk_exn ValueError "cannot convert float NaN to integer")
  | S754_infinity _ =>
      Raise (mk_exn OverflowError "cannot convert float infinity to integer")
  | S754_zero _ => Ok 0
  | S754_finite s m e => Ok (with_sign s (mag_num m e / mag_den e))
  end.

(** Nearest integer to [n / d], ties to the even one ([0 <= n], [0 < d]). *)
Definition round_half_even (n d : Z) : Z :=
  let q := n / d in
  let r := n mod d in
  match 2 * r ?= d with
  | Lt => q
  | Gt => q + 1
  | Eq => if Z.even q then q else q + 1
  end.

(** The number of tenths nearest to the magnitude of [(-1)^s * m * 2^e]. *)
Definition tenths (m : positive) (e : Z) : Z :=
  round_half_even (10 * mag_num m e) (mag_den e).

(** [round(x, 1)] on a float: NaN, infinities and zeros round to themselves;
    a finite value is rounded to the nearest multiple of 1/10 (on its exact
    binary value, ties to even) and that decimal is read back as the nearest
    float, the sign kept. *)
Definition py_round1 (x : float) : float :=
  match Prim2SF x with
  | S754_finite s m e =>
      let t := tenths m e in
      if t =? 0 then (if s then (-0)%float else 0%float)
      else float_of_ratio (with_sign s t) 10
  | _ => x
  end.

(** One step of the compensated loop over floats that [sum] has from
    CPython 3.12 on (Neumaier's variant of Kahan's summation): the running
    sum [hi] and the running compensation [lo].

      double t = hi + x;
      if (fabs(hi) >= fabs(x)) lo += (hi - t) + x;
      else                     lo += (x - t) + hi;
      hi = t; *)
Definition cs_add (total : float * float) (x : float) : float * float :=
  let '(hi, lo) := total in
  let t := (hi + x)%float in
  if PrimFloat.leb (abs x) (abs hi)
  then (t, (lo + ((hi - t) + x))%float)
  else (t, (lo + ((x - t) + hi))%float).

(** The end of that loop: the compensation is added when it is finite and
    not zero. *)
Definition cs_to_double (total : float * float) : float :=
  let '(hi, lo) := total in
  match Prim2SF lo with
  | S754_finite _ _ _ => (hi + lo)%float
  | _ => hi
  end.

(** [sum(values)] for a list of floats.  The accumulator starts at the
    integer 0, to which the first float is added.  Up to CPython 3.11 the
    other floats are added to it from left to right; from CPython 3.12 on
    ([compensated]) they go through the compensated loop. *)
Definition py_sum (compensated : bool) (values : list float) : float :=
  if compensated then
    match values with
    | [] => 0%float
    | v :: rest => cs_to_double (fold_left cs_add rest ((0 + v)%float, 0%float))
    end
  else fold_left PrimFloat.add values 0%float.

(** [max(values)] and [min(values)]: the running extremum is replaced when
    the next item compares strictly greater (resp. smaller). *)
Definition py_max (values : list float) : outcome float :=
  match values with
  | [] => Raise (mk_exn ValueError "max() arg is an empty sequence")
  | v :: rest =>
      Ok (fold_left (fun m x => if float_gt x m then x else m) rest v)
  end.

Definition py_min (values : list float) : outcome float :=
  match values with
  | [] => Raise (mk_exn ValueError "min() arg is an empty sequence")
  | v :: rest =>
      Ok (fold_left (fun m x => if float_lt x m then x else m) rest v)
  end.

(** [values[0]] and [values[-1]]. *)
Definition py_first {A} (xs : list A) : outcome A :=
  match xs with
  | [] => Raise (mk_exn IndexError "list index out of range")
  | x :: _ => Ok x
  end.

Definition py_last {A} (xs : list A) : outcome A :=
  match xs with
  | [] => Raise (mk_exn IndexError "list index out of range")
  | x :: xs' => Ok (List.last xs' x)
  end.

(** [x / n] for a float [x] and an int [n]. *)
Definition py_truediv (x : float) (n : Z) : outcome float :=
  if n =? 0 then Raise (mk_exn ZeroDivisionError "float division by zero")
  else Ok (x / float_of_Z n)%float.

(* ================================================================= *)
(** ** Python strings, lists and dicts *)

(** [str(n)] for an int. *)
Definition py_str_of_int (z : Z) : string :=
  NilZero.string_of_int (Z.to_int z).

Definition hex_digit (n : nat) : ascii :=
  match n with
  | 0%nat => "0"%char | 1%nat => "1"%char | 2%nat => "2"%char
  | 3%nat => "3"%char | 4%nat => "4"%char | 5%nat => "5"%char
  | 6%nat => "6"%char | 7%nat => "7"%char | 8%nat => "8"%char
  | 9%nat => "9"%char | 10%nat => "a"%char | 11%nat => "b"%char
  | 12%nat => "c"%char | 13%nat => "d"%char | 14%nat => "e"%char
  | _ => "f"%char
  end.

Fixpoint str_contains (c : ascii) (s : string) : bool :=
  match s with
  | EmptyString => false
  | String a s' => Ascii.eqb a c || str_contains c s'
  end.

Definition dquote : ascii := ascii_of_nat 34.

(** [c.isprintable()] for a code point below 256: all but the control
    characters (U+0000 to U+001F and U+007F to U+009F), the no-break space
    U+00A0 and the soft hyphen U+00AD. *)
Definition is_printable (a : ascii) : bool :=
  let n := nat_of_ascii a in
  negb ((n <? 32) || ((127 <=? n) && (n <=? 160)) || (n =? 173))%nat.

(** One character of [repr(s)] inside the quote [q]: the backslash and the
    quote are escaped, tab, newline and carriage return have their letter,
    and the other characters that are not printable are written in
    hexadecimal. *)
Definition repr_char (q a : ascii) : string :=
  let n := nat_of_ascii a in
  if Ascii.eqb a "\"%char then "\\"
  else if Ascii.eqb a q then String "\"%char (String q EmptyString)
  else if (n =? 9)%nat then "\t"
  else if (n =? 10)%nat then "\n"
  else if (n =? 13)%nat then "\r"
  else if negb (is_printable a) then
    String "\"%char (String "x"%char
      (String (hex_digit (n / 16)) (String (hex_digit (n mod 16)) EmptyString)))
  else String a EmptyString.

Fixpoint repr_body (q : ascii) (s : string) : string :=
  match s with
  | EmptyString => EmptyString
  | String a s' => repr_char q a ++ repr_body q s'
  end.

(** [repr(s)] for a str: single quotes, unless the text has a single quote
    and no double quote. *)
Definition py_repr (s : string) : string :=
  let q := if str_contains "'"%char s && negb (str_contains dquote s)
           then dquote else "'"%char in
  String q (repr_body q s ++ String q EmptyString).

(** [str(xs)] for a list of str. *)
Definition py_list_repr (xs : list string) : string :=
  "[" ++ String.concat ", " (map py_repr xs) ++ "]".

(** [xs.index(x)]: the position of the first element equal to [x]. *)
Fixpoint list_index (x : string) (xs : list string) : option nat :=
  match xs with
  | [] => None
  | y :: ys =>
      if String.eqb y x then Some 0%nat
      else option_map S (list_index x ys)
  end.

(** [xs[i]] for a non-negative index. *)
Definition py_nth {A} (xs : list A) (i : nat) : outcome A :=
  match nth_error xs i with
  | Some x => Ok x
  | None => Raise (mk_exn IndexError "list index out of range")
  end.

(** [s[:stop]]: a negative [stop] counts from the end, and both ends are
    clamped to the string. *)
Definition py_slice_to (s : string) (stop : Z) : string :=
  let len := Z.of_nat (String.length s) in
  let stop' := if stop <? 0 then Z.max 0 (len + stop) else Z.min stop len in
  substring 0 (Z.to_nat stop') s.

(** The lower case of a code point below 256: the capital letters are A to
    Z and U+00C0 to U+00DE without the multiplication sign U+00D7, each 32
    below its small letter. *)
Definition lower_char (a : ascii) : ascii :=
  let n := nat_of_ascii a in
  if (((65 <=? n) && (n <=? 90))
      || ((192 <=? n) && (n <=? 222) && negb (n =? 215)))%nat
  then ascii_of_nat (n + 32) else a.

(** [s.lower()] *)
Fixpoint py_lower (s : string) : string :=
  match s with
  | EmptyString => EmptyString
  | String a s' => String (lower_char a) (py_lower s')
  end.

(** A dict with str keys, in insertion order. *)
Definition dict (V : Type) : Type := list (string * V).

Fixpoint dict_get {V} (d : dict V) (k : string) : option V :=
  match d with
  | [] => None
  | (k', v) :: d' => if String.eqb k' k then Some v else dict_get d' k
  end.

(** [d.update({k: v})]: an existing key keeps its place. *)
Fixpoint dict_update {V} (d : dict V) (k : string) (v : V) : dict V :=
  match d with
  | [] => [(k, v)]
  | (k', v') :: d' =>
      if String.eqb k' k then (k, v) :: d' else (k', v') :: dict_update d' k v
  end.

(* ================================================================= *)
(** ** Module constants *)

Definition CONF_MAXIMUM : string := "maximum".
Definition CONF_MINIMUM : string := "minimum".
Definition CONF_MEAN : string := "mean".
Definition CONF_DIFFERENCE : string := "difference".

Definition ATTR_ATTRIBUTION : string := "attribution".

(** [ATTRIBUTION.format(source)]. *)
Definition ATTRIBUTION (source : string) : string :=
  "Data provided by " ++ source.

(** One hour, in microseconds. *)
Definition MIN_TIME_BETWEEN_UPDATES : Z := 3600 * 1000000.

Definition DEVICE_CLASS : dict string :=
  [ ("temperature", "Temperature");
    ("wind_speed", "Wind speed");
    ("humidity", "Humidity");
    ("pressure", "Pressure");
    ("rain", "Rain");
    ("snow", "Snow") ].

Definition METHOD_TYPES : list string :=
  [CONF_MAXIMUM; CONF_MINIMUM; CONF_MEAN; CONF_DIFFERENCE].

(* ================================================================= *)
(** ** The parsed HTML table *)

(** The [.contents] of a [th] or [td] element, for a cell that holds text
    only: its text nodes, in order.  Cells with child elements are outside
    the model. *)
Definition contents : Type := list string.

(** The first [<table>] of the page as the module reads it: the [th] cells
    under [thead] and, for each [tr] under [tbody], its [td] cells.  A
    missing [thead] or [tbody] is [None]. *)
Record Table : Type := mk_Table {
  thead : option (list contents);
  tbody : option (list (list contents))
}.

Definition contents0 (c : contents) : outcome string :=
  py_first c.

Definition find_all_of {A} (section : option (list A)) : outcome (list A) :=
  match section with
  | Some xs => Ok xs
  | None =>
      Raise (mk_exn AttributeError
               "'NoneType' object has no attribute 'find_all'")
  end.

Local Open Scope outcome_scope.

(** [MobileAlertsData.get_position] *)
Definition get_position (data_table : Table) (column_name : string)
  : outcome nat :=
  ths <- find_all_of (thead data_table) ;;
  columns <- map_outcome contents0 ths ;;
  match list_index column_name columns with
  | Some col_no => Ok col_no
  | None =>
      Raise (mk_exn Exception
               ("Column " ++ column_name ++ " not found in sensor data "
                ++ py_list_repr columns))
  end.

(* ================================================================= *)
(** ** Time *)

(** The fields of an aware [datetime], as microseconds of wall-clock time
    counted from 1970-01-01T00:00:00 on the same wall clock, with the
    [fold] flag.  The [tzinfo] is named by the time zone string. *)
Record datetime : Type := mk_datetime { wall : Z; fold : bool }.

(** 0001-01-01T00:00:00 and 9999-12-31T23:59:59.999999. *)
Definition datetime_min : Z := -62135596800 * 1000000.
Definition datetime_max : Z := 253402300799 * 1000000 + 999999.

(** [timedelta(seconds=s)], in microseconds: the number of days has to fit
    a C int, and then to have at most nine digits. *)
Definition timedelta_seconds (s : Z) : outcome Z :=
  let days := s / 86400 in
  if (days <? - 2 ^ 31) || (2 ^ 31 - 1 <? days) then
    Raise (mk_exn OverflowError "Python int too large to convert to C int")
  else if (days <? -999999999) || (999999999 <? days) then
    Raise (mk_exn OverflowError
             ("days=" ++ py_str_of_int days
              ++ "; must have magnitude <= 999999999"))
  else Ok (s * 1000000).

(** [d - delta]: arithmetic on the wall-clock fields, the [tzinfo] kept and
    [fold] reset; the result has to fall in the years 1 to 9999. *)
Definition datetime_sub (d : datetime) (delta : Z) : outcome datetime :=
  let w := wall d - delta in
  if (w <? datetime_min) || (datetime_max <? w) then
    Raise (mk_exn OverflowError "date value out of range")
  else Ok (mk_datetime w false).

(** What the host and the network give to one call of the module. *)
Inductive http_result : Type :=
| HttpRaise (e : exn)
| HttpResponse (status_code : Z) (text : string).

Record world : Type := mk_world {
  (** [utcnow()] as the throttle guard reads it, microseconds since the
      epoch *)
  utcnow_before : Z;
  (** [dt.now(dt.get_time_zone(tz))] *)
  now_in : string -> datetime;
  (** [d.utcoffset()] of a datetime in the named zone, in microseconds *)
  utcoffset : string -> datetime -> Z;
  (** [requests.get(url, headers=headers)] *)
  requests_get : string -> dict string -> http_result;
  (** [utcnow()] when the throttled body has returned *)
  utcnow_after : Z
}.

(** [d.timestamp()] for an aware datetime, [(d - epoch).total_seconds()]:
    the int of microseconds since the epoch divided by the int 10^6, a
    true division of two ints, which gives the binary64 number nearest to
    the quotient. *)
Definition timestamp (w : world) (tz : string) (d : datetime) : float :=
  float_of_ratio (wall d - utcoffset w tz d) 1000000.

(** [int(d.timestamp())] *)
Definition int_timestamp (w : world) (tz : string) (d : datetime)
  : outcome Z :=
  py_int (timestamp w tz d).

(** A URL parameter value: a str or an int, formatted by [format]. *)
Inductive param : Type :=
| ParamStr (s : string)
| ParamInt (z : Z).

Definition format_param (p : param) : string :=
  match p with
  | ParamStr s => s
  | ParamInt z => py_str_of_int z
  end.

Definition base_url : string :=
  "https://measurements.mobile-alerts.eu/Home/MeasurementDetails".

(** The parameters of the history request, in the order of insertion. *)
Definition history_params (w : world) (time_zone device_id : string)
  (duration : Z) : outcome (dict param) :=
  let params :=
    [ ("vendorid", ParamStr "bb8e868c-e5fd-4130-8d72-b08d1013c98e");
      ("appbundle", ParamStr "eu.mobile_alerts.mobilealerts") ] in
  let params := dict_update params "deviceid" (ParamStr device_id) in
  let now := now_in w time_zone in
  delta <- timedelta_seconds (duration * 60 * 60) ;;
  start_of_period <- datetime_sub now delta ;;
  fromepoch <- int_timestamp w time_zone start_of_period ;;
  let params := dict_update params "fromepoch" (ParamInt fromepoch) in
  toepoch <- int_timestamp w time_zone now ;;
  let params := dict_update params "toepoch" (ParamInt toepoch) in
  Ok params.

(** [MobileAlertsData.get_device_history_url] *)
Definition get_device_history_url (w : world) (time_zone device_id : string)
  (duration : Z) : outcome string :=
  params <- history_params w time_zone device_id duration ;;
  let all_params :=
    String.concat "&"
      (map (fun kv => fst kv ++ "=" ++ format_param (snd kv)) params) in
  Ok (base_url ++ "?" ++ all_params).

(* ================================================================= *)
(** ** Effects: log lines and HTTP requests *)

Inductive event : Type :=
| LogWarning (msg : string)
| HttpGet (url : string) (headers : dict string).

(** A computation: the events it emitted, then its result or the exception
    it raised. *)
Definition io (A : Type) : Type := (list event * outcome A)%type.

Definition io_ret {A} (a : A) : io A := ([], Ok a).
Definition io_raise {A} (e : exn) : io A := ([], Raise e).
Definition io_lift {A} (m : outcome A) : io A := ([], m).
Definition io_emit (ev : event) : io unit := ([ev], Ok tt).

Definition io_bind {A B} (m : io A) (f : A -> io B) : io B :=
  match snd m with
  | Ok a => ((fst m ++ fst (f a))%list, snd (f a))
  | Raise e => (fst m, Raise e)
  end.

Declare Scope io_scope.
Delimit Scope io_scope with io.
Notation "x <- m ;; k" := (io_bind m (fun x => k))
  (at level 61, m at next level, right associativity) : io_scope.
Notation "' p <- m ;; k" := (io_bind m (fun p => k))
  (at level 61, p pattern, m at next level, right associativity) : io_scope.
Notation "m ;;; k" := (io_bind m (fun _ => k))
  (at level 61, right associativity) : io_scope.

(** The requests a computation issued. *)
Fixpoint requests_of (t : list event) : list string :=
  match t with
  | [] => []
  | HttpGet url _ :: t' => url :: requests_of t'
  | LogWarning _ :: t' => requests_of t'
  end.

Fixpoint warnings_of (t : list event) : list string :=
  match t with
  | [] => []
  | LogWarning msg :: t' => msg :: warnings_of t'
  | HttpGet _ _ :: t' => warnings_of t'
  end.

(* ================================================================= *)
(** ** The objects of the module and of the host *)

(** What a sensor state can hold: a number or a str. *)
Inductive pyscalar : Type :=
| Num (n : pynum)
| Str (s : string).

(** [MobileAlertsData]: the attributes set by [__init__], and the time of
    the last completed call that the [Throttle] decorator keeps on the
    object ([None] until the first one).  [unit'] is the attribute
    [unit]. *)
Record MobileAlertsData : Type := mk_MobileAlertsData {
  _device_id : string;
  _device_class : option string;
  _duration : Z;
  _method : option string;
  _time_zone : string;
  unit' : option string;
  data : option pynum;
  _throttle : option Z
}.

Definition set_reading (self : MobileAlertsData) (obs : pynum)
  (u : string) : MobileAlertsData :=
  {| _device_id := _device_id self;
     _device_class := _device_class self;
     _duration := _duration self;
     _method := _method self;
     _time_zone := _time_zone self;
     unit' := Some u;
     data := Some obs;
     _throttle := _throttle self |}.

Definition set_throttle (self : MobileAlertsData) (t : Z)
  : MobileAlertsData :=
  {| _device_id := _device_id self;
     _device_class := _device_class self;
     _duration := _duration self;
     _method := _method self;
     _time_zone := _time_zone self;
     unit' := unit' self;
     data := data self;
     _throttle := Some t |}.

(** A state of the host's state machine, and the host. *)
Record State : Type := mk_State { attributes : dict string }.

Record HomeAssistant : Type := mk_HomeAssistant {
  time_zone : string;
  states : dict State
}.

(** [hass.states.get(entity_id)] of the host (not part of this
    repository): the state machine keeps its states under lower-case ids
    and looks up [entity_id.lower()], which raises on [None]. *)
Definition states_get (hass : HomeAssistant) (entity_id : option string)
  : outcome (option State) :=
  match entity_id with
  | Some id => Ok (dict_get (states hass) (py_lower id))
  | None =>
      Raise (mk_exn AttributeError
               "'NoneType' object has no attribute 'lower'")
  end.

(** [MobileAlertsData.__init__] *)
Definition MobileAlertsData_init (hass : HomeAssistant)
  (device_id : string) (device_class : option string)
  (method : option string) (duration : Z) : MobileAlertsData :=
  {| _device_id := device_id;
     _device_class := device_class;
     _duration := duration;
     _method := method;
     _time_zone := time_zone hass;
     unit' := None;
     data := None;
     _throttle := None |}.

(** [MobileAlertsWeather]; [_sensor_class] is the attribute
    [_device_class] of the entity. *)
Record MobileAlertsWeather : Type := mk_MobileAlertsWeather {
  _name : string;
  _mad : option MobileAlertsData;
  _sensor_class : option string;
  _weather : option string;
  _state : option pyscalar;
  _unit_of_measurement : option string;
  _attributes : dict string
}.

(** [MobileAlertsWeather.__init__] *)
Definition MobileAlertsWeather_init (name : string)
  (mad : option MobileAlertsData) (device_class weather : option string)
  : MobileAlertsWeather :=
  let source :=
    match weather with
    | None => "MobileAlerts"
    | Some wthr => wthr
    end in
  {| _name := name;
     _mad := mad;
     _sensor_class := device_class;
     _weather := weather;
     _state := None;
     _unit_of_measurement := Some "";
     _attributes := [(ATTR_ATTRIBUTION, ATTRIBUTION source)] |}.

(** The class methods [current] and [historic]. *)
Definition current (name device_class : string) (weather : option string)
  : MobileAlertsWeather :=
  MobileAlertsWeather_init name None (Some device_class) weather.

Definition historic (name : string) (mad : MobileAlertsData)
  : MobileAlertsWeather :=
  MobileAlertsWeather_init name (Some mad) None None.

(** The validated platform configuration ([PLATFORM_SCHEMA]): the optional
    keys without a default are [None] when absent. *)
Record config : Type := mk_config {
  conf_name : string;
  conf_device_id : string;
  conf_device_class : option string;
  conf_mode : string;
  conf_devices : list string;
  conf_method : option string;
  conf_duration : Z;
  conf_weather : option string
}.

Definition MODE_TYPES : list string := ["historic"; "current"].

(** What [PLATFORM_SCHEMA] accepts. *)
Definition PLATFORM_SCHEMA (cfg : config) : Prop :=
  match conf_device_class cfg with
  | Some key => dict_get DEVICE_CLASS key <> None
  | None => True
  end
  /\ In (conf_mode cfg) MODE_TYPES
  /\ match conf_method cfg with
     | Some method => In method METHOD_TYPES
     | None => True
     end
  /\ 0 <= conf_duration cfg.

(** One call of [async_add_entities]: the entities and the
    update-before-add flag. *)
Definition add_entities_call : Type := (list MobileAlertsWeather * bool)%type.

(** [async_setup_platform]: the calls of [async_add_entities] it makes, in
    order, or the exception it raises (before any call). *)
Definition async_setup_platform (hass : HomeAssistant) (cfg : config)
  : outcome (list add_entities_call) :=
  let name := conf_name cfg in
  let device_class := conf_device_class cfg in
  let device_id := conf_device_id cfg in
  if negb (String.eqb device_id "") then
    let method := conf_method cfg in
    let duration := conf_duration cfg in
    let mad := MobileAlertsData_init hass device_id device_class method
                 duration in
    Ok [([historic name mad], true)]
  else
    let ma_weather := conf_weather cfg in
    (state <- states_get hass ma_weather ;;
     match state with
     | None =>
         Raise (mk_exn Exception
                  ("weather Entity "
                   ++ match ma_weather with
                      | Some wthr => wthr
                      | None => "None"
                      end
                   ++ " not found"))
     | Some _ =>
         Ok (map (fun device_class =>
                    let sensor_name := py_lower name ++ "_" ++ device_class in
                    ([current sensor_name device_class ma_weather], false))
               (conf_devices cfg))
     end)%outcome.

(** The guard of the host's [Throttle] decorator,
    [not last or utcnow() - last > min_time]: the method is due when it
    never completed before, or when more than [min_time] has passed since
    it last did. *)
Definition throttle_due (min_time : Z) (last : option Z) (utcnow : Z)
  : bool :=
  match last with
  | None => true
  | Some t => min_time <? utcnow - t
  end.

(** The [Throttle(min_time)] decorator of the host
    ([homeassistant.util.Throttle], not part of this repository), on a
    method of an object on which it keeps the time of the last completed
    call.  Its wrapper reads

      force = kwargs.pop("no_throttle", False) or not throttle[1]
      if force or utcnow() - throttle[1] > self.min_time:
          result = method(...)
          throttle[1] = utcnow()
          return result
      return throttled_value()

    so the time is recorded once the method has returned, and not when it
    raised; a throttled call returns without running the method.  The
    module never passes [no_throttle], and the lock of the wrapper is
    always free in a single thread. *)
Definition Throttle {S : Type} (min_time : Z) (last : S -> option Z)
  (set_last : S -> Z -> S) (method : world -> S -> io S)
  (w : world) (self : S) : io S :=
  if throttle_due min_time (last self) (utcnow_before w) then
    io_bind (method w self) (fun self' =>
      io_ret (set_last self' (utcnow_after w)))
  else io_ret self.

(* ================================================================= *)
(** ** Collaborators used in the examples

    [float], the decorated-value parser of the package
    ([extract_start_stop], [extract_value_units]) and the HTML parser are
    parameters of the development below.  The instances of this section
    serve the examples. *)

Definition is_digit (a : ascii) : bool :=
  let n := nat_of_ascii a in ((48 <=? n) && (n <=? 57))%nat.

Definition digit_value (a : ascii) : Z := Z.of_nat (nat_of_ascii a) - 48.

(** Digits with at most one point: the digits read as an integer, the power
    of ten under them and their count. *)
Fixpoint scan_decimal (s : string) (seen_dot : bool) (num : Z)
  (den : positive) (nd : nat) : option (Z * positive * nat) :=
  match s with
  | EmptyString => Some (num, den, nd)
  | String a s' =>
      if is_digit a then
        scan_decimal s' seen_dot (10 * num + digit_value a)
          (if seen_dot then (10 * den)%positive else den) (S nd)
      else if Ascii.eqb a "."%char && negb seen_dot then
        scan_decimal s' true num den nd
      else None
  end.

Fixpoint lstrip (s : string) : string :=
  match s with
  | String a s' => if Ascii.eqb a " "%char then lstrip s' else s
  | EmptyString => EmptyString
  end.

Fixpoint string_rev (s acc : string) : string :=
  match s with
  | EmptyString => acc
  | String a s' => string_rev s' (String a acc)
  end.

Definition strip (s : string) : string :=
  string_rev (lstrip (string_rev (lstrip s) EmptyString)) EmptyString.

(** [float(s)] on plain decimal literals: blanks around, a sign, digits
    with at most one point.  Everything else that [float] accepts
    (exponents, [inf], [nan], underscores) is refused by this fragment. *)
Definition float_of_decimal_string (s : string) : outcome float :=
  let bad :=
    Raise (mk_exn ValueError
             ("could not convert string to float: " ++ py_repr s)) in
  let t := strip s in
  let '(neg, body) :=
    match t with
    | String a t' =>
        if Ascii.eqb a "-"%char then (true, t')
        else if Ascii.eqb a "+"%char then (false, t')
        else (false, t)
    | EmptyString => (false, t)
    end in
  match scan_decimal body false 0 1 0 with
  | Some (num, den, S _) =>
      if num =? 0 then Ok (if neg then (-0)%float else 0%float)
      else Ok (float_of_ratio (if neg then - num else num) den)
  | _ => bad
  end.

(** The length of the longest prefix made of a sign, digits and points. *)
Fixpoint numeric_prefix (s : string) : nat :=
  match s with
  | String a s' =>
      if is_digit a || Ascii.eqb a "."%char || Ascii.eqb a "-"%char
         || Ascii.eqb a "+"%char
      then S (numeric_prefix s')
      else 0%nat
  | EmptyString => 0%nat
  end.

(** Modelled from the spec: [extract_start_stop] of the package's
    [__init__], which is not part of the sources at hand.  "Given a
    decorated value string, return the index span belonging to the unit
    suffix": here the number of characters after the reading and the number
    of characters of the unit label, both counted from the end. *)
Definition trailing_unit_span (s : string) : outcome (Z * Z) :=
  let p := numeric_prefix s in
  let suffix := substring p (String.length s - p) s in
  Ok (Z.of_nat (String.length suffix),
      Z.of_nat (String.length (lstrip suffix))).

(** Modelled from the spec: [extract_value_units] of the package's
    [__init__], which is not part of the sources at hand: the reading of a
    decorated value string and its unit label. *)
Definition trailing_unit_value (v : option string)
  : outcome (pyscalar * string) :=
  match v with
  | None => Raise (mk_exn TypeError "expected string or bytes-like object")
  | Some s =>
      let p := numeric_prefix s in
      match float_of_decimal_string (substring 0 p s) with
      | Ok x =>
          Ok (Num (PyFloat x),
              lstrip (substring p (String.length s - p) s))
      | Raise e => Raise e
      end
  end.

(* ================================================================= *)
(** ** The data fetcher *)

(** The headers of the history request. *)
Definition request_headers : dict string := [("User-Agent", "Mozilla/5.0")].

(** What the module calls and does not define: the built-in [float] on a
    str; whether the built-in [sum] of the interpreter compensates the
    rounding errors of float additions (CPython 3.12 and later do); the
    decorated-value parser of the package ([extract_start_stop] and
    [extract_value_units], imported from the package's [__init__], which is
    not part of the sources at hand); and the HTML parser,
    [bs4.BeautifulSoup(text, "html.parser").find_all('table')]. *)
Class Collaborators : Type := {
  py_float : string -> outcome float;
  sum_compensated : bool;
  extract_start_stop : string -> outcome (Z * Z);
  extract_value_units : option string -> outcome (pyscalar * string);
  soup_tables : string -> list Table
}.

Section DataFetcher.

Context {collaborators : Collaborators}.

(** The type of a measurement: a float when [is_numeric], else a str. *)
Definition measurement (is_numeric : bool) : Type :=
  if is_numeric then float else string.

(** [MobileAlertsData.get_measurements] *)
Definition get_measurements (data_table : Table) (column_name : string)
  (is_numeric : bool) : outcome (list (measurement is_numeric) * string) :=
  col <- get_position data_table column_name ;;
  trs <- find_all_of (tbody data_table) ;;
  measurements <-
    map_outcome (fun x => td <- py_nth x col ;; contents0 td) trs ;;
  match measurements with
  | [] => Ok ([], "")
  | first :: _ =>
      ' (reading_from_end, unit_from_end) <- extract_start_stop first ;;
      ' (first_value, unit) <- extract_value_units (Some first) ;;
      measurements' <-
        (if is_numeric return outcome (list (measurement is_numeric)) then
           map_outcome
             (fun s => py_float (py_slice_to s (- reading_from_end)))
             measurements
         else
           Ok (map (fun s => py_slice_to s (- reading_from_end))
                 measurements)) ;;
      Ok (measurements', unit)
  end.

Local Open Scope io_scope.

(** [MobileAlertsData.get_results_table] *)
Definition get_results_table (w : world) (self : MobileAlertsData)
  (device_id : string) (duration : Z) : io (option Table) :=
  url <- io_lift
           (get_device_history_url w (_time_zone self) device_id duration) ;;
  let headers := [("User-Agent", "Mozilla/5.0")] in
  io_emit (HttpGet url headers) ;;;
  match requests_get w url headers with
  | HttpRaise e =>
      if issubclass (exn_class e) ConnectionError then
        io_emit (LogWarning ("Unable to connect to MA URL : " ++ url)) ;;;
        io_ret None
      else if issubclass (exn_class e) TimeoutError then
        io_emit (LogWarning "Timeout connecting to MA URL") ;;;
        io_ret None
      else io_raise e
  | HttpResponse status_code text =>
      if negb (status_code =? 200) then
        io_raise
          (mk_exn Exception
             ("requests getting data: " ++ py_str_of_int status_code
              ++ ", " ++ url))
      else
        match soup_tables text with
        | [] =>
            io_emit (LogWarning ("No data returned : " ++ url)) ;;;
            io_ret None
        | data_table :: _ => io_ret (Some data_table)
        end
  end.

(** Lines 148-158 of [get_reading]: the result before rounding, for a
    non-empty list of values.  A method that is none of the four leaves the
    integer 0. *)
Definition aggregate (method : option string) (values : list float)
  : outcome pynum :=
  let chosen m := match method with
                  | Some s => String.eqb s m
                  | None => false
                  end in
  (if chosen CONF_MAXIMUM then
     r <- py_max values ;; Ok (PyFloat r)
   else if chosen CONF_MINIMUM then
     r <- py_min values ;; Ok (PyFloat r)
   else if chosen CONF_MEAN then
     r <- py_truediv (py_sum sum_compensated values)
            (Z.of_nat (List.length values)) ;;
     Ok (PyFloat r)
   else if chosen CONF_DIFFERENCE then
     end_ <- py_first values ;;
     start <- py_last values ;;
     Ok (PyFloat (end_ - start)%float)
   else Ok (PyInt 0))%outcome.

(** Lines 159-162 of [get_reading]: [int(result)] when [result > 100], else
    [round(result, 1)]. *)
Definition round_result (result : pynum) : outcome pynum :=
  match result with
  | PyInt z =>
      (* [int(z)] is [z], and [round(z, 1)] of an int is that int *)
      if 100 <? z then Ok (PyInt z) else Ok (PyInt z)
  | PyFloat x =>
      if float_gt x 100 then (z <- py_int x ;; Ok (PyInt z))%outcome
      else Ok (PyFloat (py_round1 x))
  end.

(** [DEVICE_CLASS[key]] *)
Definition device_class_column (key : option string) : outcome string :=
  match key with
  | Some k =>
      match dict_get DEVICE_CLASS k with
      | Some column_name => Ok column_name
      | None => Raise (mk_exn KeyError (py_repr k))
      end
  | None => Raise (mk_exn KeyError "None")
  end.

(** [MobileAlertsData.get_reading]: the observation ([None] when there is
    no table) and its unit. *)
Definition get_reading (w : world) (self : MobileAlertsData)
  : io (option pynum * string) :=
  data_table <- get_results_table w self (_device_id self) (_duration self) ;;
  match data_table with
  | None => io_ret (None, "")
  | Some data_table =>
      io_lift
        (column_name <- device_class_column (_device_class self) ;;
         ' (values, unit) <- get_measurements data_table column_name true ;;
         if (List.length values =? 0)%nat then Ok (Some (PyInt 0), "")
         else
           result <- aggregate (_method self) values ;;
           result <- round_result result ;;
           Ok (Some result, unit))%outcome
  end.

(** The body of [MobileAlertsData.update]. *)
Definition update_body (w : world) (self : MobileAlertsData)
  : io MobileAlertsData :=
  ' (obs, unit) <- get_reading w self ;;
  match obs with
  | None =>
      io_emit (LogWarning "Failed to fetch data from OWM") ;;;
      io_ret self
  | Some obs => io_ret (set_reading self obs unit)
  end.

(** [MobileAlertsData.update], under [@Throttle(MIN_TIME_BETWEEN_UPDATES)] *)
Definition update (w : world) (self : MobileAlertsData)
  : io MobileAlertsData :=
  Throttle MIN_TIME_BETWEEN_UPDATES _throttle set_throttle update_body w self.

(** The fetcher after a call of [update]: a call that raised changed
    nothing. *)
Definition after_update (w : world) (self : MobileAlertsData)
  : MobileAlertsData :=
  match snd (update w self) with
  | Ok self' => self'
  | Raise _ => self
  end.

Definition set_state (self : MobileAlertsWeather)
  (mad : option MobileAlertsData) (state : option pyscalar)
  (u : option string) : MobileAlertsWeather :=
  {| _name := _name self;
     _mad := mad;
     _sensor_class := _sensor_class self;
     _weather := _weather self;
     _state := state;
     _unit_of_measurement := u;
     _attributes := _attributes self |}.

(** [MobileAlertsWeather.update] *)
Definition MobileAlertsWeather_update (w : world) (hass : HomeAssistant)
  (self : MobileAlertsWeather) : io MobileAlertsWeather :=
  match _weather self with
  | None =>
      match _mad self with
      | None =>
          io_raise (mk_exn AttributeError
                      "'NoneType' object has no attribute 'update'")
      | Some mad =>
          mad' <- update w mad ;;
          io_ret (set_state self (Some mad') (option_map Num (data mad'))
                    (unit' mad'))
      end
  | Some entity_id =>
      weather <- io_lift (states_get hass (Some entity_id)) ;;
      match weather with
      | None =>
          io_raise (mk_exn AttributeError
                      "'NoneType' object has no attribute 'attributes'")
      | Some weather =>
          let sensor_value :=
            match _sensor_class self with
            | Some key => dict_get (attributes weather) key
            | None => None
            end in
          ' (state, unit) <- io_lift (extract_value_units sensor_value) ;;
          io_ret (set_state self (_mad self) (Some state) (Some unit))
      end
  end.

End DataFetcher.

(** A series of invocations of [update] on one fetcher, one for each
    [world] in turn: all the events (requests and log lines) in order, and
    the fetcher at the end. *)
Fixpoint run_updates {collaborators : Collaborators} (ws : list world)
  (self : MobileAlertsData) : list event * MobileAlertsData :=
  match ws with
  | [] => ([], self)
  | w :: ws' =>
      let rest := run_updates ws' (after_update w self) in
      ((fst (update w self) ++ fst rest)%list, snd rest)
  end.

(* ================================================================= *)
(** ** What the claims speak of *)

(** [z] is the float [x] truncated toward zero: the magnitude [a] of [z]
    is the integer part of the magnitude [n / d] of [x]. *)
Definition truncation_of (x : float) (z : Z) : Prop :=
  match Prim2SF x with
  | S754_zero _ => z = 0
  | S754_finite s m e =>
      exists a, z = with_sign s a
                /\ a * mag_den e <= mag_num m e < (a + 1) * mag_den e
  | _ => False
  end.

(** [t] tenths is a decimal nearest to the magnitude of the finite float
    [(-1)^s * m * 2^e]: it is off by at most half a tenth. *)
Definition nearest_tenths (m : positive) (e : Z) (t : Z) : Prop :=
  0 <= t /\ Z.abs (2 * (10 * mag_num m e) - 2 * t * mag_den e) <= mag_den e.

(** [y] is [x] rounded to one decimal place. *)
Definition rounded_to_one_decimal (x y : float) : Prop :=
  match Prim2SF x with
  | S754_finite s m e =>
      exists t, nearest_tenths m e t
                /\ y = (if t =? 0 then (if s then (-0)%float else 0%float)
                        else float_of_ratio (with_sign s t) 10)
  | _ => y = x
  end.

(** [i] is the position of the first element of [names] equal to
    [target]. *)
Definition first_match (names : list string) (target : string) (i : nat)
  : Prop :=
  nth_error names i = Some target
  /\ forall j, (j < i)%nat -> nth_error names j <> Some target.

(** Two configurations that differ at most in the mode option. *)
Definition same_but_mode (c1 c2 : config) : Prop :=
  conf_name c1 = conf_name c2
  /\ conf_device_id c1 = conf_device_id c2
  /\ conf_device_class c1 = conf_device_class c2
  /\ conf_devices c1 = conf_devices c2
  /\ conf_method c1 = conf_method c2
  /\ conf_duration c1 = conf_duration c2
  /\ conf_weather c1 = conf_weather c2.

(** The URL of the history request for a window [from, to]. *)
Definition history_url (device_id : string) (from to : Z) : string :=
  base_url ++ "?vendorid=bb8e868c-e5fd-4130-8d72-b08d1013c98e"
  ++ "&appbundle=eu.mobile_alerts.mobilealerts"
  ++ "&deviceid=" ++ device_id
  ++ "&fromepoch=" ++ py_str_of_int from
  ++ "&toepoch=" ++ py_str_of_int to.

(** 2^34 seconds, in microseconds.  From that long before the epoch to
    that long after it (2514-05-30T01:53:04Z), the float of [timestamp()]
    keeps the whole seconds of the datetime: further away, the rounding to
    binary64 can reach the next second. *)
Definition seconds_limit : Z := 2 ^ 34 * 1000000.

(** What the two last steps of [binary_round_aux] make of a mantissa
    between 2^52 and 2^53: the mantissa 2^53 becomes 2^52, one exponent
    up. *)
Definition normal53 (s : bool) (m : Z) (e : Z) : spec_float :=
  if m <? 2 ^ 53 then S754_finite s (Z.to_pos m) e
  else S754_finite s (Z.to_pos (2 ^ 52)) (e + 1).

(** The comparison of two finite numbers of the same sign, as [SFcompare]
    makes it: exponents first, then mantissas. *)
Definition cmp_finite (m1 : positive) (e1 : Z) (m2 : positive) (e2 : Z)
  : comparison :=
  match e1 ?= e2 with
  | Eq => Pos.compare_cont Eq m1 m2
  | Lt => Lt
  | Gt => Gt
  end.

Definition cmp_finite_neg (m1 : positive) (e1 : Z) (m2 : positive) (e2 : Z)
  : comparison :=
  match e1 ?= e2 with
  | Eq => CompOpp (Pos.compare_cont Eq m1 m2)
  | Lt => Gt
  | Gt => Lt
  end.

(* ================================================================= *)
(** ** Example data *)

(** A stand-in for the HTML parser: every non-empty page holds
    [tables]. *)
Definition page_with (tables : list Table) (text : string) : list Table :=
  if String.eqb text "" then [] else tables.

(** The example collaborators, over a page that holds [tables], on an
    interpreter whose [sum] compensates. *)
Definition example_collaborators (tables : list Table) : Collaborators :=
  {| py_float := float_of_decimal_string;
     sum_compensated := true;
     extract_start_stop := trailing_unit_span;
     extract_value_units := trailing_unit_value;
     soup_tables := page_with tables |}.

(** The module with the example collaborators. *)
Definition ex_get_measurements :=
  @get_measurements (example_collaborators []).
Definition ex_aggregate := @aggregate (example_collaborators []).
Definition ex_get_reading (tables : list Table) :=
  @get_reading (example_collaborators tables).
Definition ex_update (tables : list Table) :=
  @update (example_collaborators tables).
Definition ex_after_update (tables : list Table) :=
  @after_update (example_collaborators tables).
Definition ex_entity_update (tables : list Table) :=
  @MobileAlertsWeather_update (example_collaborators tables).

(** A measurement grid, newest row first. *)
Definition station_table : Table :=
  {| thead := Some [["Time"]; ["Temperature"]; ["Humidity"]; ["Pressure"]];
     tbody :=
       Some [ [["01/01/2021 12:00"]; ["21.5 C"]; ["40%"]; ["1013.2 hPa"]];
              [["01/01/2021 11:00"]; ["19.0 C"]; ["45%"]; ["1012.8 hPa"]];
              [["01/01/2021 10:00"]; ["18.2 C"]; ["47%"]; ["1012.1 hPa"]] ] |}.

(** A grid with a header and no row. *)
Definition empty_body_table : Table :=
  {| thead := Some [["Time"]; ["Temperature"]; ["Humidity"]; ["Pressure"]];
     tbody := Some [] |}.

(** A rain gauge whose counter went back to zero. *)
Definition rain_table : Table :=
  {| thead := Some [["Time"]; ["Rain"]];
     tbody := Some [ [["01/01/2021 12:00"]; ["0.0 mm"]];
                     [["01/01/2021 11:00"]; ["150.456 mm"]] ] |}.

Definition ex_hass : HomeAssistant :=
  {| time_zone := "Europe/Berlin";
     states :=
       [("weather.station", mk_State [("temperature", "21.5 C")])] |}.

(** 2021-01-01T12:00:00Z, in microseconds. *)
Definition noon : Z := 1609502400 * 1000000.

(** A call at the UTC time [utc] in a zone one hour ahead of UTC, taking
    two seconds, with the given answer of the network. *)
Definition berlin_world (utc : Z) (response : http_result) : world :=
  {| utcnow_before := utc;
     now_in := fun _ => mk_datetime (utc + 3600 * 1000000) false;
     utcoffset := fun _ _ => 3600 * 1000000;
     requests_get := fun _ _ => response;
     utcnow_after := utc + 2 * 1000000 |}.

(** A call at 2021-01-01T00:00:00.5 in UTC. *)
Definition utc_world : world :=
  {| utcnow_before := 1609459200 * 1000000 + 500000;
     now_in := fun _ => mk_datetime (1609459200 * 1000000 + 500000) false;
     utcoffset := fun _ _ => 0;
     requests_get := fun _ _ => HttpResponse 200 "<table></table>";
     utcnow_after := 1609459200 * 1000000 + 600000 |}.

Definition vendor_page : http_result :=
  HttpResponse 200 "<html><table>...</table></html>".

Definition ex_fetcher (device_class method : string) : MobileAlertsData :=
  MobileAlertsData_init ex_hass "0123456789AB" (Some device_class)
    (Some method) 24.

(** The URL of a 24 hour window that ends at [noon]. *)
Definition noon_url : string :=
  history_url "0123456789AB" (1609502400 - 86400) 1609502400.

(** A fetcher that holds a reading made two hours before [noon]. *)
Definition cached_fetcher : MobileAlertsData :=
  set_throttle
    (set_reading (ex_fetcher "temperature" CONF_MAXIMUM) (PyFloat 21.5) "C")
    (noon - 2 * MIN_TIME_BETWEEN_UPDATES).

(** The historic sensor over it, showing that reading. *)
Definition cached_sensor : MobileAlertsWeather :=
  set_state (historic "MA" cached_fetcher) (Some cached_fetcher)
    (Some (Num (PyFloat 21.5))) (Some "C").

(** The fetcher after a first successful call at [noon]. *)
Definition fetched_at_noon : MobileAlertsData :=
  ex_after_update [station_table] (berlin_world noon vendor_page)
    (ex_fetcher "temperature" CONF_MAXIMUM).

(** Two results are different when a test tells them apart. *)
Ltac differ_by test :=
  let H := fresh "H" in
  intro H; apply (f_equal test) in H; vm_compute in H; discriminate H.

Definition is_int_reading (r : outcome (option pynum * string)) : bool :=
  match r with
  | Ok (Some (PyInt _), _) => true
  | _ => false
  end.

Definition is_negative (r : outcome pynum) : bool :=
  match r with
  | Ok (PyFloat x) => PrimFloat.ltb x 0
  | _ => false
  end.

Definition cached_number (d : option pynum) : Z :=
  match d with
  | Some (PyInt z) => z
  | _ => -1
  end.

(** 2021-03-28T12:00:00 in a zone that went from one to two hours ahead of
    UTC at 03:00 that morning (wall clock). *)
Definition dst_world : world :=
  {| utcnow_before := 1616925600 * 1000000;
     now_in := fun _ => mk_datetime (1616932800 * 1000000) false;
     utcoffset :=
       fun _ d =>
         if wall d <? 1616900400 * 1000000 then 3600 * 1000000
         else 7200 * 1000000;
     requests_get := fun _ _ => vendor_page;
     utcnow_after := 1616925602 * 1000000 |}.

(** The header of three columns with a fourth cell that has no content. *)
Definition gap_header_table : Table :=
  {| thead := Some [["Time"]; ["Temperature"]; ["Humidity"]; []];
     tbody := None |}.

(** 2514-05-30T02:00:00.999999 UTC, seven minutes after 2^34 seconds. *)
Definition late_world : world :=
  {| utcnow_before := 17179869600 * 1000000 + 999999;
     now_in := fun _ => mk_datetime (17179869600 * 1000000 + 999999) false;
     utcoffset := fun _ _ => 0;
     requests_get := fun _ _ => HttpResponse 200 "<table></table>";
     utcnow_after := 17179869601 * 1000000 |}.

(** Four temperatures. *)
Definition four_readings : list float :=
  [21%float; float_of_ratio 211 10; float_of_ratio 213 10;
   float_of_ratio 212 10].

(** A grid whose second header cell has no content. *)
Definition broken_header_table : Table :=
  {| thead := Some [["Time"]; []; ["Humidity"]];
     tbody := Some [ [["01/01/2021 12:00"]; ["21.5 C"]; ["40%"]] ] |}.

(** A grid whose second row lacks the temperature cell. *)
Definition short_row_table : Table :=
  {| thead := Some [["Time"]; ["Temperature"]];
     tbody := Some [ [["01/01/2021 12:00"]; ["21.5 C"]];
                     [["01/01/2021 11:00"]] ] |}.

(** A pressure column whose first cell reads as infinity. *)
Definition inf_table : Table :=
  {| thead := Some [["Time"]; ["Pressure"]];
     tbody := Some [ [["01/01/2021 12:00"]; ["inf hPa"]];
                     [["01/01/2021 11:00"]; ["1012.8 hPa"]] ] |}.

(** Collaborators for that column: [float] reads "inf" as well, and the
    suffix parser strips the four characters of " hPa". *)
Definition inf_collaborators : Collaborators :=
  {| py_float :=
       fun s => if String.eqb s "inf" then Ok infinity
                else float_of_decimal_string s;
     sum_compensated := true;
     extract_start_stop := fun _ => Ok (4, 3);
     extract_value_units := fun _ => Ok (Num (PyFloat infinity), "hPa");
     soup_tables := page_with [inf_table] |}.

(** The usual call, and the module over the grid. *)
Definition noon_world : world := berlin_world noon vendor_page.
Definition station : Collaborators := example_collaborators [station_table].

(** The fetcher [cached_fetcher] after a call at [noon] over the grid. *)
Definition fetched_cached : MobileAlertsData :=
  @after_update station noon_world cached_fetcher.

(** A current sensor of the temperature of the weather entity. *)
Definition current_sensor : MobileAlertsWeather :=
  current "ma_temperature" "temperature" (Some "weather.station").

(** A configuration of two current sensors. *)
Definition current_config : config :=
  mk_config "MA" "" None "current" ["temperature"; "humidity"] None 24
    (Some "weather.station").

(** A configuration of one historic sensor, the same with other options of
    the current mode, and a host in the same time zone without entities. *)
Definition historic_config : config :=
  mk_config "MA" "0123456789AB" (Some "temperature") "historic" []
    (Some CONF_MAXIMUM) 24 None.
Definition historic_config' : config :=
  mk_config "MA" "0123456789AB" (Some "temperature") "current"
    ["humidity"] (Some CONF_MAXIMUM) 24 (Some "weather.station").
Definition bare_hass : HomeAssistant :=
  {| time_zone := "Europe/Berlin"; states := [] |}.

(** The configuration [current_config] with options of the historic mode,
    and a host in another time zone whose weather entity has other
    attributes. *)
Definition current_config' : config :=
  mk_config "MA" "" (Some "rain") "historic" ["temperature"; "humidity"]
    (Some CONF_MEAN) 48 (Some "weather.station").
Definition other_hass : HomeAssistant :=
  {| time_zone := "UTC";
     states := [("weather.station", mk_State [("humidity", "40 %")])] |}.

(** The names of the sensors that the calls of [async_add_entities]
    add. *)
Definition added_names (calls : list add_entities_call) : list string :=
  map _name (List.concat (map fst calls)).

(** The exception of an index out of range. *)
Definition index_error : exn := mk_exn IndexError "list index out of range".

Section Properties.

#[local] Set Default Proof Using "Type".

Context {collaborators : Collaborators}.

Local Open Scope io_scope.

(* ================================================================= *)
(** ** The order of binary64 numbers *)

Lemma SFltb_irrefl (a : spec_float) : SFltb a a = false.
Proof.
  unfold SFltb, SFcompare.
  destruct a as [s| s | | s m e]; try destruct s; try reflexivity;
    rewrite Z.compare_refl, ?Pos.compare_cont_refl; reflexivity.
Qed.

Lemma cmp_finite_spec m1 e1 m2 e2 :
  CompareSpec (e1 = e2 /\ m1 = m2)
    (e1 < e2 \/ (e1 = e2 /\ (m1 < m2)%positive))
    (e2 < e1 \/ (e1 = e2 /\ (m2 < m1)%positive))
    (cmp_finite m1 e1 m2 e2).
Proof.
  unfold cmp_finite.
  destruct (Z.compare_spec e1 e2); try (constructor; lia).
  change (Pos.compare_cont Eq m1 m2) with (Pos.compare m1 m2).
  destruct (Pos.compare_spec m1 m2); constructor; lia.
Qed.

Lemma cmp_finite_neg_spec m1 e1 m2 e2 :
  CompareSpec (e1 = e2 /\ m1 = m2)
    (e2 < e1 \/ (e1 = e2 /\ (m2 < m1)%positive))
    (e1 < e2 \/ (e1 = e2 /\ (m1 < m2)%positive))
    (cmp_finite_neg m1 e1 m2 e2).
Proof.
  unfold cmp_finite_neg.
  destruct (Z.compare_spec e1 e2); try (constructor; lia).
  change (Pos.compare_cont Eq m1 m2) with (Pos.compare m1 m2).
  destruct (Pos.compare_spec m1 m2); constructor; lia.
Qed.

Lemma SFltb_trans (a b c : spec_float) :
  SFltb a b = true -> SFltb b c = true -> SFltb a c = true.
Proof.
  unfold SFltb, SFcompare.
  destruct a as [sa | sa | | sa ma ea], b as [sb | sb | | sb mb eb],
    c as [sc | sc | | sc mc ec];
    try destruct sa; try destruct sb; try destruct sc;
    try discriminate; try reflexivity.
  - fold (cmp_finite_neg ma ea mb eb); fold (cmp_finite_neg mb eb mc ec);
    fold (cmp_finite_neg ma ea mc ec).
    destruct (cmp_finite_neg_spec ma ea mb eb),
      (cmp_finite_neg_spec mb eb mc ec), (cmp_finite_neg_spec ma ea mc ec);
      try discriminate; try reflexivity; intros; exfalso; lia.
  - fold (cmp_finite ma ea mb eb); fold (cmp_finite mb eb mc ec);
    fold (cmp_finite ma ea mc ec).
    destruct (cmp_finite_spec ma ea mb eb), (cmp_finite_spec mb eb mc ec),
      (cmp_finite_spec ma ea mc ec);
      try discriminate; try reflexivity; intros; exfalso; lia.
Qed.

Lemma float_ltb_irrefl (a : float) : PrimFloat.ltb a a = false.
Proof. rewrite ltb_spec. apply SFltb_irrefl. Qed.

Lemma float_ltb_trans (a b c : float) :
  PrimFloat.ltb a b = true -> PrimFloat.ltb b c = true ->
  PrimFloat.ltb a c = true.
Proof. rewrite !ltb_spec. apply SFltb_trans. Qed.

(* ================================================================= *)
(** ** The aggregator *)

Lemma fold_max_spec (rest seen : list float) (m0 : float) :
  In m0 seen ->
  (forall x, In x seen -> float_gt x m0 = false) ->
  let r := fold_left (fun m x => if float_gt x m then x else m) rest m0 in
  In r (seen ++ rest)%list
  /\ forall x, In x (seen ++ rest)%list -> float_gt x r = false.
Proof.
  revert seen m0.
  induction rest as [| y rest IH]; intros seen m0 Hin Hmax; simpl.
  - rewrite app_nil_r. split; assumption.
  - replace (seen ++ y :: rest)%list with ((seen ++ [y]) ++ rest)%list
      by (rewrite <- app_assoc; reflexivity).
    apply IH.
    + destruct (float_gt y m0); apply in_or_app; [right | left];
        simpl; auto.
    + intros x Hx. apply in_app_or in Hx.
      destruct (float_gt y m0) eqn:Hy.
      * destruct Hx as [Hx | [<- | []]].
        -- unfold float_gt in *.
           destruct (PrimFloat.ltb y x) eqn:Hyx; [| reflexivity].
           specialize (Hmax x Hx).
           rewrite (float_ltb_trans Hy Hyx) in Hmax. discriminate.
        -- apply float_ltb_irrefl.
      * destruct Hx as [Hx | [<- | []]]; auto.
Qed.

Lemma fold_min_spec (rest seen : list float) (m0 : float) :
  In m0 seen ->
  (forall x, In x seen -> float_lt x m0 = false) ->
  let r := fold_left (fun m x => if float_lt x m then x else m) rest m0 in
  In r (seen ++ rest)%list
  /\ forall x, In x (seen ++ rest)%list -> float_lt x r = false.
Proof.
  revert seen m0.
  induction rest as [| y rest IH]; intros seen m0 Hin Hmin; simpl.
  - rewrite app_nil_r. split; assumption.
  - replace (seen ++ y :: rest)%list with ((seen ++ [y]) ++ rest)%list
      by (rewrite <- app_assoc; reflexivity).
    apply IH.
    + destruct (float_lt y m0); apply in_or_app; [right | left];
        simpl; auto.
    + intros x Hx. apply in_app_or in Hx.
      destruct (float_lt y m0) eqn:Hy.
      * destruct Hx as [Hx | [<- | []]].
        -- unfold float_lt in *.
           destruct (PrimFloat.ltb x y) eqn:Hxy; [| reflexivity].
           specialize (Hmin x Hx).
           rewrite (float_ltb_trans Hxy Hy) in Hmin. discriminate.
        -- apply float_ltb_irrefl.
      * destruct Hx as [Hx | [<- | []]]; auto.
Qed.

Lemma py_max_spec (v : float) (rest : list float) :
  exists r, py_max (v :: rest) = Ok r
            /\ In r (v :: rest)
            /\ forall x, In x (v :: rest) -> float_gt x r = false.
Proof.
  eexists. split; [reflexivity |].
  apply (@fold_max_spec rest [v] v).
  - left; reflexivity.
  - intros x [<- | []]. apply float_ltb_irrefl.
Qed.

Lemma py_min_spec (v : float) (rest : list float) :
  exists r, py_min (v :: rest) = Ok r
            /\ In r (v :: rest)
            /\ forall x, In x (v :: rest) -> float_lt x r = false.
Proof.
  eexists. split; [reflexivity |].
  apply (@fold_min_spec rest [v] v).
  - left; reflexivity.
  - intros x [<- | []]. apply float_ltb_irrefl.
Qed.

(* ================================================================= *)
(** ** Truncation and rounding *)

Lemma mag_den_pos (e : Z) : 0 < mag_den e.
Proof.
  unfold mag_den. destruct (0 <=? e) eqn:He; [lia |].
  apply Z.leb_gt in He. apply Z.pow_pos_nonneg; lia.
Qed.

Lemma mag_num_pos (m : positive) (e : Z) : 0 < mag_num m e.
Proof.
  unfold mag_num. destruct (0 <=? e) eqn:He; [| lia].
  apply Z.leb_le in He.
  apply Z.mul_pos_pos; [lia | apply Z.pow_pos_nonneg; lia].
Qed.

Lemma py_int_truncation (x : float) (z : Z) :
  py_int x = Ok z -> truncation_of x z.
Proof.
  unfold py_int, truncation_of.
  destruct (Prim2SF x) as [s | s | | s m e]; try discriminate.
  - intros H; injection H as <-; reflexivity.
  - intros H; injection H as <-.
    exists (mag_num m e / mag_den e). split; [reflexivity |].
    pose proof (mag_den_pos e) as Hd.
    pose proof (Z.mul_div_le (mag_num m e) (mag_den e) Hd).
    pose proof (Z.mul_succ_div_gt (mag_num m e) (mag_den e) Hd).
    lia.
Qed.

Lemma round_half_even_nearest (n d : Z) :
  0 <= n -> 0 < d ->
  0 <= round_half_even n d
  /\ Z.abs (2 * n - 2 * round_half_even n d * d) <= d.
Proof.
  intros Hn Hd. unfold round_half_even.
  pose proof (Z.div_mod n d ltac:(lia)) as Hdm.
  pose proof (Z.mod_pos_bound n d Hd) as Hr.
  pose proof (Z.div_pos n d Hn Hd) as Hq.
  remember (n / d) as q. remember (n mod d) as r.
  assert (Hn' : 2 * n = 2 * (q * d) + 2 * r) by lia.
  destruct (Z.compare_spec (2 * r) d) as [He | Hl | Hg];
    [destruct (Z.even q) |..]; (split; [lia |]);
    rewrite Hn'; apply Z.abs_le; lia.
Qed.

Lemma py_round1_rounds (x : float) :
  rounded_to_one_decimal x (py_round1 x).
Proof.
  unfold rounded_to_one_decimal, py_round1.
  destruct (Prim2SF x) as [s | s | | s m e]; try reflexivity.
  exists (tenths m e). split; [| reflexivity].
  unfold nearest_tenths, tenths.
  pose proof (mag_num_pos m e). pose proof (mag_den_pos e).
  apply round_half_even_nearest; lia.
Qed.

(** C2, as amended.  For every non-empty list of floats the aggregator
    computes, before rounding: for "maximum" an element of the list that no
    element exceeds; for "minimum" an element that no element is below; for
    "mean" the [sum] of the values, as the interpreter computes it, divided
    by their number; for "difference" values[0] - values[-1].  For
    values = [10.0, 20.0, 30.0] these are 30.0, 10.0, 20.0 and -20.0
    (10.0 - 30.0), in this order, on every interpreter. *)
Theorem aggregate_nonempty (v : float) (rest : list float) :
  let values := v :: rest in
  (exists r, aggregate (Some CONF_MAXIMUM) values = Ok (PyFloat r)
             /\ In r values
             /\ forall x, In x values -> float_gt x r = false)
  /\ (exists r, aggregate (Some CONF_MINIMUM) values = Ok (PyFloat r)
                /\ In r values
                /\ forall x, In x values -> float_lt x r = false)
  /\ aggregate (Some CONF_MEAN) values
     = Ok (PyFloat (py_sum sum_compensated values
                    / float_of_Z (Z.of_nat (List.length values)))%float)
  /\ aggregate (Some CONF_DIFFERENCE) values
     = Ok (PyFloat (v - List.last rest v)%float)
  /\ (aggregate (Some CONF_MAXIMUM) [10; 20; 30]%float = Ok (PyFloat 30)
      /\ aggregate (Some CONF_MINIMUM) [10; 20; 30]%float = Ok (PyFloat 10)
      /\ aggregate (Some CONF_MEAN) [10; 20; 30]%float = Ok (PyFloat 20)
      /\ aggregate (Some CONF_DIFFERENCE) [10; 20; 30]%float
         = Ok (PyFloat (-20))).
Proof.
  intros values. split; [| split; [| split; [| split]]].
  - destruct (py_max_spec v rest) as (r & Hr & Hin & Hmax).
    exists r. unfold aggregate. simpl String.eqb. cbv iota.
    fold values. unfold values at 1. rewrite Hr. auto.
  - destruct (py_min_spec v rest) as (r & Hr & Hin & Hmin).
    exists r. unfold aggregate. simpl String.eqb. cbv iota.
    fold values. unfold values at 1. rewrite Hr. auto.
  - unfold aggregate. simpl String.eqb. cbv iota.
    unfold py_truediv.
    destruct (Z.of_nat (List.length values) =? 0) eqn:Hlen.
    + apply Z.eqb_eq in Hlen. simpl in Hlen. lia.
    + reflexivity.
  - reflexivity.
  - unfold aggregate. simpl String.eqb. cbv iota.
    destruct sum_compensated; repeat split; vm_compute; reflexivity.
Qed.

(* ================================================================= *)
(** ** The reading *)

Lemma io_bind_ok {A B} (t : list event) (a : A) (f : A -> io B) :
  io_bind (t, Ok a) f = ((t ++ fst (f a))%list, snd (f a)).
Proof. reflexivity. Qed.

(** [get_reading] once the table is fetched and the column extracted. *)
Lemma get_reading_values (w : world) (self : MobileAlertsData)
  (t : list event) (tbl : Table) (col : string) (values : list float)
  (unit : string) :
  get_results_table w self (_device_id self) (_duration self)
  = (t, Ok (Some tbl)) ->
  device_class_column (_device_class self) = Ok col ->
  get_measurements tbl col true = Ok (values, unit) ->
  get_reading w self
  = (t,
     if (List.length values =? 0)%nat then Ok (Some (PyInt 0), "")
     else (result <- aggregate (_method self) values ;;
           result <- round_result result ;;
           Ok (Some result, unit))%outcome).
Proof.
  intros Htbl Hcol Hval. unfold get_reading.
  rewrite Htbl, io_bind_ok. unfold io_lift. simpl fst. simpl snd.
  rewrite app_nil_r, Hcol. simpl obind at 1. rewrite Hval. reflexivity.
Qed.

Lemma get_reading_no_table (w : world) (self : MobileAlertsData)
  (t : list event) :
  get_results_table w self (_device_id self) (_duration self)
  = (t, Ok None) ->
  get_reading w self = (t, Ok (None, "")).
Proof.
  intros Htbl. unfold get_reading.
  rewrite Htbl, io_bind_ok. simpl. rewrite app_nil_r. reflexivity.
Qed.

(** C1, as amended.  When the aggregation result is a float [r], the value
    returned is [int(r)], [r] truncated toward zero, if [r > 100] (a signed
    comparison; an infinite [r] makes [int] raise), and otherwise, which
    includes every negative result whatever its magnitude, [round(r, 1)],
    [r] rounded to one decimal place.  So 150.456 gives 150, 42.345 gives
    42.3 and -150.456 gives -150.5. *)
Theorem get_reading_rounding (w : world) (self : MobileAlertsData)
  (t : list event) (tbl : Table) (col : string) (values : list float)
  (unit : string) (r : float) :
  get_results_table w self (_device_id self) (_duration self)
  = (t, Ok (Some tbl)) ->
  device_class_column (_device_class self) = Ok col ->
  get_measurements tbl col true = Ok (values, unit) ->
  values <> [] ->
  aggregate (_method self) values = Ok (PyFloat r) ->
  (if float_gt r 100 then
     get_reading w self
     = (t, (z <- py_int r ;; Ok (Some (PyInt z), unit))%outcome)
     /\ (forall z, py_int r = Ok z -> truncation_of r z)
   else
     get_reading w self = (t, Ok (Some (PyFloat (py_round1 r)), unit))
     /\ rounded_to_one_decimal r (py_round1 r))
  /\ round_result (PyFloat (float_of_ratio 150456 1000)) = Ok (PyInt 150)
  /\ round_result (PyFloat (float_of_ratio 42345 1000))
     = Ok (PyFloat (float_of_ratio 423 10))
  /\ round_result (PyFloat (float_of_ratio (-150456) 1000))
     = Ok (PyFloat (float_of_ratio (-1505) 10)).
Proof.
  intros Htbl Hcol Hval Hne Hagg.
  split; [| repeat split; vm_compute; reflexivity].
  rewrite (get_reading_values _ _ Htbl Hcol Hval).
  destruct values as [| v rest]; [congruence |].
  simpl Nat.eqb. cbv iota. rewrite Hagg. cbn [obind round_result].
  destruct (float_gt r 100) eqn:Hgt.
  - split.
    + destruct (py_int r); reflexivity.
    + intros z. apply py_int_truncation.
  - split; [reflexivity | apply py_round1_rounds].
Qed.

(** C5.  When the table is there, its header has the column and its body
    has no row, the sequence of readings is empty and the reading is the
    integer 0 with the empty unit; nothing is raised, whatever the
    method. *)
Theorem get_reading_empty_column (w : world) (self : MobileAlertsData)
  (t : list event) (tbl : Table) (col : string) (i : nat) :
  get_results_table w self (_device_id self) (_duration self)
  = (t, Ok (Some tbl)) ->
  device_class_column (_device_class self) = Ok col ->
  get_position tbl col = Ok i ->
  tbody tbl = Some [] ->
  get_measurements tbl col true = Ok ([], "")
  /\ get_reading w self = (t, Ok (Some (PyInt 0), "")).
Proof.
  intros Htbl Hcol Hpos Hbody.
  assert (Hval : get_measurements tbl col true = Ok ([], "")).
  { unfold get_measurements. rewrite Hpos, Hbody. reflexivity. }
  split; [exact Hval |].
  rewrite (get_reading_values _ _ Htbl Hcol Hval). reflexivity.
Qed.

(* ================================================================= *)
(** ** The column locator *)

Lemma list_index_some (names : list string) (target : string) (i : nat) :
  list_index target names = Some i -> first_match names target i.
Proof.
  revert i. induction names as [| n names IH]; intros i; simpl.
  - discriminate.
  - destruct (String.eqb n target) eqn:Hn.
    + intros H; injection H as <-. apply String.eqb_eq in Hn. subst n.
      split; [reflexivity | intros j Hj; lia].
    + destruct (list_index target names) as [k |]; [| discriminate].
      intros H; injection H as <-.
      destruct (IH k eq_refl) as [Hk Hbefore].
      split; [exact Hk |].
      intros [| j] Hj; simpl.
      * intros H; injection H as ->. rewrite String.eqb_refl in Hn.
        discriminate.
      * apply Hbefore. lia.
Qed.

Lemma list_index_none (names : list string) (target : string) :
  list_index target names = None -> ~ In target names.
Proof.
  induction names as [| n names IH]; simpl; [intros _ [] |].
  destruct (String.eqb n target) eqn:Hn; [discriminate |].
  destruct (list_index target names); [discriminate |].
  intros _ [-> | Hin]; [| exact (IH eq_refl Hin)].
  rewrite String.eqb_refl in Hn. discriminate.
Qed.

(** C7, as amended.  For a header row whose cells all have content, the
    texts [names], the column locator returns the zero-based position of
    the first cell equal to the target; when no cell is equal to it, it
    raises an exception whose message names the target and lists all the
    header names.  "Temperature" is at 1 in Time, Temperature, Humidity,
    and "Pressure" is not found there. *)
Theorem get_position_first_match (tbl : Table) (ths : list contents)
  (names : list string) (target : string) :
  thead tbl = Some ths ->
  map_outcome contents0 ths = Ok names ->
  ((exists i, get_position tbl target = Ok i /\ first_match names target i)
   \/ (~ In target names
       /\ get_position tbl target
          = Raise (mk_exn Exception
                     ("Column " ++ target ++ " not found in sensor data "
                      ++ "[" ++ String.concat ", " (map py_repr names)
                      ++ "]"))))
  /\ (let header := mk_Table
                      (Some [["Time"]; ["Temperature"]; ["Humidity"]])
                      None in
      get_position header "Temperature" = Ok 1%nat
      /\ get_position header "Pressure"
         = Raise (mk_exn Exception
                    "Column Pressure not found in sensor data ['Time', 'Temperature', 'Humidity']")).
Proof.
  intros Hhead Hnames. split; [| split; reflexivity].
  unfold get_position. rewrite Hhead. simpl find_all_of.
  cbn [obind]. rewrite Hnames. cbn [obind].
  destruct (list_index target names) as [i |] eqn:Hi.
  - left. exists i. split; [reflexivity |].
    apply list_index_some, Hi.
  - right. split; [apply list_index_none, Hi | reflexivity].
Qed.

(* ================================================================= *)
(** ** The row value extractor *)

Lemma string_length_append (s t : string) :
  String.length (s ++ t) = (String.length s + String.length t)%nat.
Proof. induction s as [| a s IH]; simpl; [| rewrite IH]; reflexivity. Qed.

Lemma substring_prefix (s t : string) :
  substring 0 (String.length s) (s ++ t) = s.
Proof.
  induction s as [| a s IH]; simpl.
  - destruct t; reflexivity.
  - rewrite IH. reflexivity.
Qed.

(** Stripping [N > 0] trailing characters with [s[:-N]]. *)
Lemma py_slice_to_strips (s t : string) :
  (0 < String.length t)%nat ->
  py_slice_to (s ++ t) (- Z.of_nat (String.length t)) = s.
Proof.
  intros Hpos. unfold py_slice_to.
  rewrite string_length_append.
  destruct (- Z.of_nat (String.length t) <? 0) eqn:Hneg.
  - replace (Z.to_nat _) with (String.length s) by lia.
    apply substring_prefix.
  - apply Z.ltb_ge in Hneg. lia.
Qed.

Lemma map_outcome_map {A B C} (f : B -> outcome C) (g : A -> B)
  (xs : list A) :
  map_outcome f (map g xs) = map_outcome (fun x => f (g x)) xs.
Proof.
  induction xs as [| x xs IH]; simpl; [| rewrite IH]; reflexivity.
Qed.

Lemma map_outcome_ext_in {A B} (f g : A -> outcome B) (xs : list A) :
  (forall x, In x xs -> f x = g x) ->
  map_outcome f xs = map_outcome g xs.
Proof.
  induction xs as [| x xs IH]; simpl; intros Hext; [reflexivity |].
  rewrite (Hext x) by auto. rewrite IH by auto. reflexivity.
Qed.

(** C8.  Take a column of decorated cells: a number text followed by a
    unit suffix, every suffix of the same length [N] (a suffix has at least
    one character), and let the suffix parser report [N] on the first
    cell.  Then stripping [N] characters from every cell and parsing the
    rest as a float gives the series of the numbers, in row order, with the
    unit label that the parser reads on the first cell.  An empty table
    body gives ([], ""). *)
Theorem get_measurements_round_trip (tbl : Table) (column_name : string)
  (col : nat) (trs : list (list contents)) (cells : list (string * string))
  (series : list float) :
  get_position tbl column_name = Ok col ->
  tbody tbl = Some trs ->
  map_outcome (fun x => td <- py_nth x col ;; contents0 td)%outcome trs
  = Ok (map (fun c => fst c ++ snd c) cells) ->
  map_outcome py_float (map fst cells) = Ok series ->
  match cells with
  | [] => get_measurements tbl column_name true = Ok ([], "")
  | first :: _ =>
      forall (N : nat) (k : Z) (v : pyscalar) (unit : string),
        (1 <= N)%nat ->
        (forall c, In c cells -> String.length (snd c) = N) ->
        extract_start_stop (fst first ++ snd first) = Ok (Z.of_nat N, k) ->
        extract_value_units (Some (fst first ++ snd first))
        = Ok (v, unit) ->
        get_measurements tbl column_name true = Ok (series, unit)
  end.
Proof.
  intros Hpos Hbody Hcells Hseries.
  unfold get_measurements. rewrite Hpos, Hbody. simpl find_all_of.
  cbn [obind]. rewrite Hcells. cbn [obind].
  destruct cells as [| first cells']; [reflexivity |].
  intros N k v unit HN Hlen Hspan Hunit.
  cbn [map]. rewrite Hspan. cbn [obind]. rewrite Hunit. cbn [obind].
  change ((fst first ++ snd first)
          :: map (fun c => fst c ++ snd c) cells')
    with (map (fun c => fst c ++ snd c) (first :: cells')).
  rewrite map_outcome_map.
  rewrite (map_outcome_ext_in _ (fun c => py_float (fst c))).
  - rewrite <- map_outcome_map with (f := py_float) (g := fst).
    rewrite Hseries. reflexivity.
  - intros c Hc. rewrite <- (Hlen c Hc).
    rewrite py_slice_to_strips; [reflexivity |].
    rewrite (Hlen c Hc). lia.
Qed.

(* ================================================================= *)
(** ** The table fetcher *)

(** A failure that is a built-in [ConnectionError] is absorbed. *)
Lemma get_results_table_connection_error (w : world)
  (self : MobileAlertsData) (device_id : string) (duration : Z)
  (url : string) (e : exn) :
  get_device_history_url w (_time_zone self) device_id duration = Ok url ->
  requests_get w url request_headers = HttpRaise e ->
  issubclass (exn_class e) ConnectionError = true ->
  get_results_table w self device_id duration
  = ([HttpGet url request_headers;
      LogWarning ("Unable to connect to MA URL : " ++ url)], Ok None).
Proof.
  intros Hurl Hget Hsub. unfold get_results_table.
  rewrite Hurl. unfold io_lift. rewrite io_bind_ok.
  fold request_headers. rewrite Hget, Hsub. reflexivity.
Qed.

(** A failure that is a built-in [TimeoutError] is absorbed. *)
Lemma get_results_table_timeout_error (w : world)
  (self : MobileAlertsData) (device_id : string) (duration : Z)
  (url : string) (e : exn) :
  get_device_history_url w (_time_zone self) device_id duration = Ok url ->
  requests_get w url request_headers = HttpRaise e ->
  issubclass (exn_class e) TimeoutError = true ->
  get_results_table w self device_id duration
  = ([HttpGet url request_headers;
      LogWarning (if issubclass (exn_class e) ConnectionError
                  then "Unable to connect to MA URL : " ++ url
                  else "Timeout connecting to MA URL")], Ok None).
Proof.
  intros Hurl Hget Hsub. unfold get_results_table.
  rewrite Hurl. unfold io_lift. rewrite io_bind_ok.
  fold request_headers. rewrite Hget, Hsub.
  destruct (issubclass (exn_class e) ConnectionError); reflexivity.
Qed.

(** A status other than 200 raises, and is never the soft outcome. *)
Lemma get_results_table_bad_status (w : world) (self : MobileAlertsData)
  (device_id : string) (duration : Z) (url text : string) (status : Z) :
  get_device_history_url w (_time_zone self) device_id duration = Ok url ->
  requests_get w url request_headers = HttpResponse status text ->
  status <> 200 ->
  get_results_table w self device_id duration
  = ([HttpGet url request_headers],
     Raise (mk_exn Exception
              ("requests getting data: " ++ py_str_of_int status ++ ", "
               ++ url))).
Proof.
  intros Hurl Hget Hstatus. unfold get_results_table.
  rewrite Hurl. unfold io_lift. rewrite io_bind_ok.
  fold request_headers. rewrite Hget.
  apply Z.eqb_neq in Hstatus. rewrite Hstatus. reflexivity.
Qed.

(** A page without a table is the soft outcome. *)
Lemma get_results_table_no_table (w : world) (self : MobileAlertsData)
  (device_id : string) (duration : Z) (url text : string) :
  get_device_history_url w (_time_zone self) device_id duration = Ok url ->
  requests_get w url request_headers = HttpResponse 200 text ->
  soup_tables text = [] ->
  get_results_table w self device_id duration
  = ([HttpGet url request_headers;
      LogWarning ("No data returned : " ++ url)], Ok None).
Proof.
  intros Hurl Hget Hsoup. unfold get_results_table.
  rewrite Hurl. unfold io_lift. rewrite io_bind_ok.
  fold request_headers. rewrite Hget, Hsoup. reflexivity.
Qed.

(** No class of the [requests] package is a built-in [ConnectionError] or
    [TimeoutError]. *)
Lemma requests_exceptions_not_builtin (c : exc_class) :
  issubclass c RequestException = true ->
  issubclass c ConnectionError = false
  /\ issubclass c TimeoutError = false.
Proof. destruct c; simpl; intros H; try discriminate H; auto. Qed.

(** C3, on the failing input.  When [requests.get] signals a connection or
    timeout failure the way the [requests] package does, with an exception
    of its own hierarchy ([requests.exceptions.ConnectionError],
    [Timeout], [ConnectTimeout], [ReadTimeout]), neither [except] clause
    of the fetcher matches: the request was issued, no warning is logged
    and the exception is raised to the caller instead of the no-data
    result. *)
Theorem get_results_table_requests_failure (w : world)
  (self : MobileAlertsData) (device_id : string) (duration : Z)
  (url : string) (e : exn) :
  get_device_history_url w (_time_zone self) device_id duration = Ok url ->
  requests_get w url request_headers = HttpRaise e ->
  issubclass (exn_class e) RequestException = true ->
  get_results_table w self device_id duration
  = ([HttpGet url request_headers], Raise e)
  /\ warnings_of (fst (get_results_table w self device_id duration)) = []
  /\ snd (get_results_table w self device_id duration) <> Ok None.
Proof.
  intros Hurl Hget Hsub.
  destruct (requests_exceptions_not_builtin _ Hsub) as [Hconn Htime].
  assert (Heq : get_results_table w self device_id duration
                = ([HttpGet url request_headers], Raise e)).
  { unfold get_results_table.
    rewrite Hurl. unfold io_lift. rewrite io_bind_ok.
    fold request_headers. rewrite Hget, Hconn, Htime. reflexivity. }
  rewrite Heq. repeat split. discriminate.
Qed.

(* ================================================================= *)
(** ** The throttled update *)

Lemma update_due (w : world) (self : MobileAlertsData) :
  throttle_due MIN_TIME_BETWEEN_UPDATES (_throttle self) (utcnow_before w)
  = true ->
  update w self
  = io_bind (update_body w self)
      (fun self' => io_ret (set_throttle self' (utcnow_after w))).
Proof. intros Hdue. unfold update, Throttle. rewrite Hdue. reflexivity. Qed.

Lemma update_not_due (w : world) (self : MobileAlertsData) :
  throttle_due MIN_TIME_BETWEEN_UPDATES (_throttle self) (utcnow_before w)
  = false ->
  update w self = ([], Ok self).
Proof. intros Hdue. unfold update, Throttle. rewrite Hdue. reflexivity. Qed.

Lemma update_body_no_table (w : world) (self : MobileAlertsData)
  (t : list event) :
  get_results_table w self (_device_id self) (_duration self)
  = (t, Ok None) ->
  update_body w self
  = ((t ++ [LogWarning "Failed to fetch data from OWM"])%list, Ok self).
Proof.
  intros Htbl. unfold update_body.
  rewrite (get_reading_no_table _ _ Htbl). reflexivity.
Qed.

(** What the body leaves alone: the configuration of the fetcher and the
    throttle record. *)
Lemma update_body_frame (w : world) (self self' : MobileAlertsData)
  (t : list event) :
  update_body w self = (t, Ok self') ->
  _device_id self' = _device_id self
  /\ _duration self' = _duration self
  /\ _time_zone self' = _time_zone self
  /\ _throttle self' = _throttle self.
Proof.
  unfold update_body, io_bind.
  destruct (get_reading w self) as [t0 [[[obs |] u] | e]]; simpl;
    intros H; inversion H; subst; auto.
Qed.

Lemma requests_of_app (t1 t2 : list event) :
  requests_of (t1 ++ t2) = (requests_of t1 ++ requests_of t2)%list.
Proof.
  induction t1 as [| [msg | url hdrs] t1 IH]; simpl;
    [| | rewrite IH]; auto.
Qed.

(** A request of the first part of a computation is a request of the
    whole. *)
Lemma requests_of_bind {A B} (m : io A) (f : A -> io B) (url : string) :
  In url (requests_of (fst m)) ->
  In url (requests_of (fst (io_bind m f))).
Proof.
  intros Hin. unfold io_bind. destruct (snd m); simpl; [| exact Hin].
  rewrite requests_of_app. apply in_or_app. left. exact Hin.
Qed.

(** A fetch whose URL can be built issues its request. *)
Lemma get_results_table_requests (w : world) (self : MobileAlertsData)
  (device_id : string) (duration : Z) (url : string) :
  get_device_history_url w (_time_zone self) device_id duration = Ok url ->
  In url (requests_of (fst (get_results_table w self device_id duration))).
Proof.
  intros Hurl. unfold get_results_table.
  rewrite Hurl. unfold io_lift. rewrite io_bind_ok.
  cbn [fst app]. apply requests_of_bind. simpl. left. reflexivity.
Qed.

Lemma update_body_requests (w : world) (self : MobileAlertsData)
  (url : string) :
  get_device_history_url w (_time_zone self) (_device_id self)
    (_duration self) = Ok url ->
  In url (requests_of (fst (update_body w self))).
Proof.
  intros Hurl. unfold update_body. apply requests_of_bind.
  unfold get_reading. apply requests_of_bind.
  apply get_results_table_requests, Hurl.
Qed.

(** C4, as amended.  In an update cycle of a historic sensor whose fetch
    returns no table (an absorbed failure or a page without a table), the
    cached data and unit of the fetcher stay as they were and the sensor
    shows them again.  When the fetch returns a table whose column is
    empty and the call is not throttled, the cache is overwritten with the
    value 0 and the empty unit. *)
Theorem update_cache_without_table (w : world) (hass : HomeAssistant)
  (ent : MobileAlertsWeather) (mad : MobileAlertsData) (t : list event)
  (fetched : option Table) :
  _weather ent = None ->
  _mad ent = Some mad ->
  get_results_table w mad (_device_id mad) (_duration mad)
  = (t, Ok fetched) ->
  match fetched with
  | None =>
      exists t' mad' ent',
        update w mad = (t', Ok mad')
        /\ data mad' = data mad
        /\ unit' mad' = unit' mad
        /\ MobileAlertsWeather_update w hass ent = (t', Ok ent')
        /\ _mad ent' = Some mad'
        /\ _state ent' = option_map Num (data mad)
        /\ _unit_of_measurement ent' = unit' mad
  | Some tbl =>
      forall (col u : string),
        device_class_column (_device_class mad) = Ok col ->
        get_measurements tbl col true = Ok ([], u) ->
        throttle_due MIN_TIME_BETWEEN_UPDATES (_throttle mad)
          (utcnow_before w) = true ->
        exists mad',
          update w mad = (t, Ok mad')
          /\ data mad' = Some (PyInt 0)
          /\ unit' mad' = Some ""
  end.
Proof.
  intros Hweather Hmad Htbl. destruct fetched as [tbl |].
  - intros col u Hcol Hval Hdue.
    rewrite (update_due _ _ Hdue). unfold update_body.
    rewrite (get_reading_values _ _ Htbl Hcol Hval).
    eexists. unfold io_bind, io_ret. simpl. rewrite !app_nil_r.
    repeat split.
  - assert (Hupd : exists t' mad',
               update w mad = (t', Ok mad')
               /\ data mad' = data mad /\ unit' mad' = unit' mad).
    { destruct (throttle_due MIN_TIME_BETWEEN_UPDATES (_throttle mad)
                  (utcnow_before w)) eqn:Hdue.
      - rewrite (update_due _ _ Hdue), (update_body_no_table _ _ Htbl).
        do 2 eexists. rewrite io_bind_ok. simpl. repeat split.
      - rewrite (update_not_due _ _ Hdue).
        do 2 eexists. repeat split. }
    destruct Hupd as (t' & mad' & Hupd & Hdata & Hunit).
    exists t', mad'. eexists.
    unfold MobileAlertsWeather_update.
    rewrite Hweather, Hmad, Hupd, io_bind_ok. simpl.
    rewrite app_nil_r, Hdata, Hunit. repeat split; assumption.
Qed.

(** C9, as amended.  After an invocation of [update] that ran the fetch and
    returned, an invocation on the same fetcher no later than one hour
    after that return issues no request, emits nothing and leaves the
    fetcher as it is; an invocation more than one hour after that return
    runs the fetch again and, when the URL can be built, issues its
    request. *)
Theorem update_throttle_window (w1 w2 : world)
  (self self1 : MobileAlertsData) (t1 : list event) :
  throttle_due MIN_TIME_BETWEEN_UPDATES (_throttle self) (utcnow_before w1)
  = true ->
  update w1 self = (t1, Ok self1) ->
  (utcnow_before w2 - utcnow_after w1 <= MIN_TIME_BETWEEN_UPDATES ->
   update w2 self1 = ([], Ok self1)
   /\ requests_of (fst (update w2 self1)) = [])
  /\ (MIN_TIME_BETWEEN_UPDATES < utcnow_before w2 - utcnow_after w1 ->
      forall url,
        get_device_history_url w2 (_time_zone self) (_device_id self)
          (_duration self) = Ok url ->
        In url (requests_of (fst (update w2 self1)))).
Proof.
  intros Hdue Hfirst.
  rewrite (update_due _ _ Hdue) in Hfirst.
  destruct (update_body w1 self) as [t0 [s0 | e]] eqn:Hbody;
    [| discriminate Hfirst].
  rewrite io_bind_ok in Hfirst. simpl in Hfirst.
  injection Hfirst as _ <-.
  destruct (update_body_frame _ _ Hbody) as (Hid & Hdur & Htz & _).
  split.
  - intros Hwithin.
    assert (Hnot : throttle_due MIN_TIME_BETWEEN_UPDATES
                     (_throttle (set_throttle s0 (utcnow_after w1)))
                     (utcnow_before w2) = false).
    { simpl. apply Z.ltb_ge. exact Hwithin. }
    rewrite (update_not_due _ _ Hnot). split; reflexivity.
  - intros Hafter url Hurl.
    assert (Hyes : throttle_due MIN_TIME_BETWEEN_UPDATES
                     (_throttle (set_throttle s0 (utcnow_after w1)))
                     (utcnow_before w2) = true).
    { simpl. apply Z.ltb_lt. exact Hafter. }
    rewrite (update_due _ _ Hyes). apply requests_of_bind.
    apply update_body_requests. simpl.
    rewrite Hid, Hdur, Htz. exact Hurl.
Qed.

End Properties.

(* ================================================================= *)
(** ** The URL builder *)

(* ----------------------------------------------------------------- *)
(** *** The float of [timestamp()] and its whole seconds *)

Lemma digits2_pos_lower (m : positive) :
  2 ^ (Z.pos (digits2_pos m) - 1) <= Z.pos m.
Proof.
  induction m as [m IH | m IH |]; cbn [digits2_pos]; [| | simpl; lia].
  - rewrite Pos2Z.inj_succ.
    replace (Z.succ (Z.pos (digits2_pos m)) - 1)
      with (Z.succ (Z.pos (digits2_pos m) - 1)) by lia.
    rewrite Z.pow_succ_r by lia. lia.
  - rewrite Pos2Z.inj_succ.
    replace (Z.succ (Z.pos (digits2_pos m)) - 1)
      with (Z.succ (Z.pos (digits2_pos m) - 1)) by lia.
    rewrite Z.pow_succ_r by lia. lia.
Qed.

Lemma digits2_pos_upper (m : positive) :
  Z.pos m < 2 ^ Z.pos (digits2_pos m).
Proof.
  induction m as [m IH | m IH |]; cbn [digits2_pos]; [| | simpl; lia].
  - rewrite Pos2Z.inj_succ, Z.pow_succ_r by lia. lia.
  - rewrite Pos2Z.inj_succ, Z.pow_succ_r by lia. lia.
Qed.

(** The number of binary digits of a number between two consecutive powers
    of two. *)
Lemma digits2_pos_unique (m : positive) (d : Z) :
  2 ^ (d - 1) <= Z.pos m < 2 ^ d -> Z.pos (digits2_pos m) = d.
Proof.
  intros [Hlo Hhi].
  pose proof (digits2_pos_lower m) as Hl.
  pose proof (digits2_pos_upper m) as Hu.
  destruct (Z.lt_trichotomy (Z.pos (digits2_pos m)) d)
    as [Hlt | [Heq | Hgt]]; [exfalso | exact Heq | exfalso].
  - assert (2 ^ Z.pos (digits2_pos m) <= 2 ^ (d - 1))
      by (apply Z.pow_le_mono_r; lia). lia.
  - assert (0 <= d \/ d < 0) as [Hd | Hd] by lia.
    + assert (2 ^ d <= 2 ^ (Z.pos (digits2_pos m) - 1))
        by (apply Z.pow_le_mono_r; lia). lia.
    + rewrite (Z.pow_neg_r 2 d Hd) in Hhi. lia.
Qed.

Lemma loc_of_record_of_loc (m : Z) (l : location) :
  loc_of_shr_record (shr_record_of_loc m l) = l.
Proof. destruct l as [| []]; reflexivity. Qed.

(** A mantissa of 53 digits is not shifted. *)
Lemma shr_fexp_53 (m : positive) (e : Z) (l : location) :
  Z.pos (digits2_pos m) = 53 -> -1074 <= e ->
  shr_fexp prec emax (Z.pos m) e l = (shr_record_of_loc (Z.pos m) l, e).
Proof.
  intros Hd He. unfold shr_fexp, Zdigits2. rewrite Hd.
  unfold fexp, emin, prec, emax.
  replace (Z.max (53 + e - 53) (3 - 1024 - 53) - e) with 0 by lia.
  reflexivity.
Qed.

(** A mantissa of 54 digits is shifted by one. *)
Lemma shr_fexp_54 (m : positive) (e : Z) (l : location) :
  Z.pos (digits2_pos m) = 54 -> -1075 <= e ->
  shr_fexp prec emax (Z.pos m) e l
  = (shr_1 (shr_record_of_loc (Z.pos m) l), e + 1).
Proof.
  intros Hd He. unfold shr_fexp, Zdigits2. rewrite Hd.
  unfold fexp, emin, prec, emax.
  replace (Z.max (54 + e - 53) (3 - 1024 - 53) - e) with 1 by lia.
  reflexivity.
Qed.

Lemma renormalize_53 (s : bool) (m : Z) (e : Z) :
  2 ^ 52 <= m <= 2 ^ 53 -> -1074 <= e <= 970 ->
  (let '(mrs, e') := shr_fexp prec emax m e loc_Exact in
   match shr_m mrs with
   | Z0 => S754_zero s
   | Zpos m' =>
       if e' <=? emax - prec then S754_finite s m' e' else S754_infinity s
   | Zneg _ => S754_nan
   end) = normal53 s m e.
Proof.
  intros Hm He. unfold normal53.
  destruct m as [| m |]; try lia.
  destruct (Z.pos m <? 2 ^ 53) eqn:Hlt.
  - apply Z.ltb_lt in Hlt.
    rewrite shr_fexp_53; [| apply digits2_pos_unique; lia | lia].
    cbn [shr_record_of_loc shr_m Z.to_pos].
    replace (e <=? emax - prec) with true
      by (symmetry; apply Z.leb_le; unfold emax, prec; lia).
    reflexivity.
  - apply Z.ltb_ge in Hlt.
    assert (Heq : Z.pos m = 2 ^ 53) by lia.
    rewrite shr_fexp_54; [| apply digits2_pos_unique; lia | lia].
    injection Heq as ->.
    cbn [shr_record_of_loc shr_1 shr_m].
    replace (e + 1 <=? emax - prec) with true
      by (symmetry; apply Z.leb_le; unfold emax, prec; lia).
    reflexivity.
Qed.

(** [binary_round_aux] on a mantissa of 53 digits. *)
Lemma binary_round_aux_53 (s : bool) (q : positive) (e : Z) (l : location) :
  Z.pos (digits2_pos q) = 53 -> -1074 <= e <= 970 ->
  binary_round_aux prec emax s (Z.pos q) e l
  = normal53 s (round_nearest_even (Z.pos q) l) e.
Proof.
  intros Hd He. unfold binary_round_aux.
  rewrite shr_fexp_53 by (assumption || lia).
  rewrite loc_of_record_of_loc.
  replace (shr_m (shr_record_of_loc (Z.pos q) l)) with (Z.pos q)
    by (destruct l as [| []]; reflexivity).
  apply renormalize_53; [| lia].
  pose proof (digits2_pos_lower q). pose proof (digits2_pos_upper q).
  rewrite Hd in *. change (2 ^ (53 - 1)) with (2 ^ 52) in *.
  destruct l as [| []]; cbn [round_nearest_even];
    try destruct (Z.even (Z.pos q)); lia.
Qed.

(** [binary_round_aux] on a mantissa of 54 digits: one bit is shifted
    out. *)
Lemma binary_round_aux_54 (s : bool) (q : positive) (e : Z) (l : location) :
  Z.pos (digits2_pos q) = 54 -> -1075 <= e <= 969 ->
  let r1 := shr_1 (shr_record_of_loc (Z.pos q) l) in
  binary_round_aux prec emax s (Z.pos q) e l
  = normal53 s (round_nearest_even (shr_m r1) (loc_of_shr_record r1))
      (e + 1).
Proof.
  intros Hd He r1. unfold binary_round_aux.
  rewrite shr_fexp_54 by (assumption || lia). fold r1.
  apply renormalize_53; [| lia].
  pose proof (digits2_pos_lower q). pose proof (digits2_pos_upper q).
  rewrite Hd in *. change (2 ^ (54 - 1)) with (2 ^ 53) in *.
  change (2 ^ 54) with (2 * 2 ^ 53) in *.
  change (2 ^ 53) with (2 * 2 ^ 52) in *.
  unfold r1.
  destruct q as [q' | q' |]; [| | lia];
    destruct l as [| []];
    cbn [shr_record_of_loc shr_1 shr_m loc_of_shr_record orb
         round_nearest_even];
    try destruct (Z.even (Z.pos q')); lia.
Qed.

Lemma normal53_spec (s : bool) (m1 k1 : Z) :
  2 ^ 52 <= m1 <= 2 ^ 53 -> 2 <= k1 <= 1074 ->
  exists m k,
    normal53 s m1 (- k1) = S754_finite s m (- k)
    /\ 1 <= k <= 1074
    /\ Z.pos (digits2_pos m) = 53
    /\ Z.pos m / 2 ^ k = m1 / 2 ^ k1.
Proof.
  intros Hm Hk. unfold normal53.
  destruct (m1 <? 2 ^ 53) eqn:Hlt.
  - apply Z.ltb_lt in Hlt.
    exists (Z.to_pos m1), k1.
    assert (Hpos : Z.pos (Z.to_pos m1) = m1) by (apply Z2Pos.id; lia).
    repeat split; try lia.
    + apply digits2_pos_unique. rewrite Hpos. lia.
    + rewrite Hpos. reflexivity.
  - apply Z.ltb_ge in Hlt.
    assert (Heq : m1 = 2 ^ 53) by lia. subst m1.
    exists (Z.to_pos (2 ^ 52)), (k1 - 1).
    repeat split; try lia.
    + f_equal. lia.
    + replace (2 ^ k1) with (2 * 2 ^ (k1 - 1))
        by (rewrite <- Z.pow_succ_r by lia; f_equal; lia).
      change (2 ^ 53) with (2 * 2 ^ 52).
      change (Z.pos (Z.to_pos (2 ^ 52))) with (2 ^ 52).
      assert (0 < 2 ^ (k1 - 1)) by (apply Z.pow_pos_nonneg; lia).
      rewrite Z.div_mul_cancel_l by lia. reflexivity.
Qed.

(** An integer nearest to [p * P / D] has the integer part of [p / D] as
    its quotient by [P], when [P] is more than half of [D]. *)
Lemma trunc_nearest (p D P m : Z) :
  0 < D -> 0 <= p -> D < 2 * P ->
  Z.abs (2 * m * D - 2 * p * P) <= D ->
  m / P = p / D.
Proof.
  intros HD Hp HP Hnear.
  pose proof (Z.div_mod p D ltac:(lia)) as Hdm.
  pose proof (Z.mod_pos_bound p D HD) as Hb.
  set (a := p / D) in *. set (b := p mod D) in *.
  symmetry. apply (Z.div_unique m P a (m - a * P)); [left | lia].
  assert (Hbp : 0 <= b * P) by nia.
  assert (Hbp' : b * P <= (D - 1) * P) by nia.
  assert (HpP : p * P = D * (a * P) + b * P) by (rewrite Hdm; ring).
  apply Z.abs_le in Hnear.
  split.
  - destruct (Z.le_gt_cases (a * P) m) as [H | H]; [lia | exfalso].
    assert (2 * m * D <= 2 * (a * P - 1) * D) by nia. nia.
  - destruct (Z.le_gt_cases ((a + 1) * P) m) as [H | H]; [exfalso | lia].
    assert (2 * ((a + 1) * P) * D <= 2 * m * D) by nia. nia.
Qed.

(** The rounding of the quotient [q] with remainder [r] by 10^6. *)
Lemma round_quotient (q r : Z) :
  0 <= r < 1000000 ->
  let m := round_nearest_even q (new_location 1000000 r) in
  q <= m <= q + 1
  /\ Z.abs (2 * m * 1000000 - 2 * (q * 1000000 + r)) <= 1000000.
Proof.
  intros Hr m. unfold m, new_location.
  change (Z.even 1000000) with true. cbv iota.
  unfold new_location_even.
  destruct (r =? 0) eqn:H0.
  - apply Z.eqb_eq in H0. cbn [round_nearest_even].
    split; [lia |]. apply Z.abs_le. lia.
  - apply Z.eqb_neq in H0.
    destruct (Z.compare_spec (2 * r) 1000000) as [He | Hl | Hg];
      cbn [round_nearest_even]; try destruct (Z.even q);
      (split; [lia |]); apply Z.abs_le; lia.
Qed.

(** The same when the quotient has one digit too many: its last bit is
    shifted out before the rounding. *)
Lemma round_quotient_shifted (q : positive) (r : Z) :
  0 <= r < 1000000 -> 2 <= Z.pos q ->
  let r1 := shr_1 (shr_record_of_loc (Z.pos q) (new_location 1000000 r)) in
  let m := round_nearest_even (shr_m r1) (loc_of_shr_record r1) in
  Z.abs (2 * m * 1000000 - (Z.pos q * 1000000 + r)) <= 1000000.
Proof.
  intros Hr Hq r1 m. unfold m, r1, new_location.
  change (Z.even 1000000) with true. cbv iota.
  unfold new_location_even.
  destruct (r =? 0) eqn:H0.
  - apply Z.eqb_eq in H0.
    destruct q as [q' | q' |]; [| | lia];
      cbn [shr_record_of_loc shr_1 shr_m loc_of_shr_record orb
           round_nearest_even];
      try destruct (Z.even (Z.pos q')); apply Z.abs_le; lia.
  - apply Z.eqb_neq in H0.
    destruct q as [q' | q' |]; [| | lia];
      destruct (Z.compare_spec (2 * r) 1000000) as [He | Hl | Hg];
      cbn [shr_record_of_loc shr_1 shr_m loc_of_shr_record orb
           round_nearest_even];
      try destruct (Z.even (Z.pos q')); apply Z.abs_le; lia.
Qed.

Lemma SFdiv_core_micro (p : positive) :
  let d1 := Z.pos (digits2_pos p) in
  d1 <= 54 ->
  SFdiv_core_binary prec emax (Z.pos p) 0 1000000 0
  = (Z.pos p * 2 ^ (73 - d1) / 1000000, d1 - 73,
     new_location 1000000 ((Z.pos p * 2 ^ (73 - d1)) mod 1000000)).
Proof.
  intros d1 Hd. unfold SFdiv_core_binary.
  change (Zdigits2 (Z.pos p)) with d1.
  change (Zdigits2 1000000) with 20.
  unfold fexp, emin, prec, emax.
  replace (Z.min (Z.max (d1 + 0 - (20 + 0) - 53) (3 - 1024 - 53)) (0 - 0))
    with (d1 - 73) by lia.
  replace (0 - 0 - (d1 - 73)) with (73 - d1) by lia.
  assert (Hs : 0 < 73 - d1) by lia.
  destruct (73 - d1) as [| sp |] eqn:Es; try lia.
  rewrite Z.shiftl_mul_pow2 by lia.
  unfold Z.div, Z.modulo.
  destruct (Z.div_eucl (Z.pos p * 2 ^ Z.pos sp) 1000000) as [q r].
  reflexivity.
Qed.

(** The division of less than 2^34 * 10^6 microseconds by 10^6: a normal
    number whose integer part is that of the exact quotient. *)
Lemma SFdiv_micro (s : bool) (p : positive) :
  Z.pos p < seconds_limit ->
  exists m k,
    SFdiv prec emax (S754_finite s p 0) (S754_finite false 1000000 0)
    = S754_finite s m (- k)
    /\ 1 <= k <= 1074
    /\ Z.pos (digits2_pos m) = 53
    /\ Z.pos m / 2 ^ k = Z.pos p / 1000000.
Proof.
  unfold seconds_limit. intros Hp.
  pose proof (digits2_pos_lower p) as Hlo.
  pose proof (digits2_pos_upper p) as Hhi.
  set (d1 := Z.pos (digits2_pos p)) in *.
  assert (Hd1 : 1 <= d1 <= 54).
  { split; [unfold d1; lia |].
    destruct (Z.le_gt_cases d1 54) as [H | H]; [exact H | exfalso].
    assert (2 ^ 54 <= 2 ^ (d1 - 1)) by (apply Z.pow_le_mono_r; lia).
    change (2 ^ 34) with 17179869184 in Hp.
    change (2 ^ 54) with 18014398509481984 in *. lia. }
  unfold SFdiv.
  rewrite (SFdiv_core_micro p) by (fold d1; lia). fold d1.
  replace (xorb s false) with s by (destruct s; reflexivity).
  set (P := 2 ^ (73 - d1)).
  assert (HP : 0 < P) by (apply Z.pow_pos_nonneg; lia).
  assert (HpP : 2 ^ 72 <= Z.pos p * P < 2 ^ 73).
  { assert (E1 : 2 ^ (d1 - 1) * P = 2 ^ 72)
      by (unfold P; rewrite <- Z.pow_add_r by lia; f_equal; lia).
    assert (E2 : 2 ^ d1 * P = 2 ^ 73)
      by (unfold P; rewrite <- Z.pow_add_r by lia; f_equal; lia).
    rewrite <- E1, <- E2. split; [nia | nia]. }
  pose proof (Z.div_mod (Z.pos p * P) 1000000 ltac:(lia)) as Hdm.
  pose proof (Z.mod_pos_bound (Z.pos p * P) 1000000 ltac:(lia)) as Hr.
  set (q := Z.pos p * P / 1000000) in *.
  set (r := (Z.pos p * P) mod 1000000) in *.
  change (2 ^ 72) with 4722366482869645213696 in HpP.
  change (2 ^ 73) with 9444732965739290427392 in HpP.
  assert (Hq : 2 ^ 52 <= q < 2 ^ 54).
  { change (2 ^ 52) with 4503599627370496.
    change (2 ^ 54) with 18014398509481984. lia. }
  assert (HqP : q < 2 ^ 34 * P).
  { change (2 ^ 34) with 17179869184 in *. nia. }
  destruct q as [| qp |] eqn:Eq; try lia.
  destruct (Z.lt_ge_cases (Z.pos qp) (2 ^ 53)) as [H53 | H54].
  - (* 53 digits *)
    assert (Hk : 19 <= 73 - d1).
    { destruct (Z.le_gt_cases 19 (73 - d1)) as [H | H]; [exact H | exfalso].
      assert (P <= 2 ^ 18) by (apply Z.pow_le_mono_r; lia).
      change (2 ^ 52) with (2 ^ 34 * 2 ^ 18) in Hq. nia. }
    rewrite binary_round_aux_53;
      [| apply digits2_pos_unique; lia | lia].
    destruct (round_quotient (Z.pos qp) Hr) as [Hm Hnear].
    set (m1 := round_nearest_even (Z.pos qp) (new_location 1000000 r)) in *.
    replace (d1 - 73) with (- (73 - d1)) by lia.
    destruct (@normal53_spec s m1 (73 - d1))
      as (m & k & Hres & Hkr & Hdig & Hval); [lia | lia |].
    exists m, k. repeat split; try assumption; try lia.
    rewrite Hval.
    assert (Hhalf : 1000000 < 2 * P).
    { assert (H : 2 ^ 19 <= P) by (apply Z.pow_le_mono_r; lia).
      change (2 ^ 19) with 524288 in H. lia. }
    apply trunc_nearest; try lia.
  - (* 54 digits *)
    assert (Hk : 20 <= 73 - d1).
    { destruct (Z.le_gt_cases 20 (73 - d1)) as [H | H]; [exact H | exfalso].
      assert (P <= 2 ^ 19) by (apply Z.pow_le_mono_r; lia).
      change (2 ^ 53) with (2 ^ 34 * 2 ^ 19) in H54. nia. }
    rewrite binary_round_aux_54;
      [| apply digits2_pos_unique; lia | lia].
    assert (H2 : 2 <= Z.pos qp)
      by (change (2 ^ 53) with 9007199254740992 in H54; lia).
    pose proof (@round_quotient_shifted qp r Hr H2) as Hnear.
    cbv zeta in Hnear.
    set (r1 := shr_1 (shr_record_of_loc (Z.pos qp)
                        (new_location 1000000 r))) in *.
    set (m1 := round_nearest_even (shr_m r1) (loc_of_shr_record r1)) in *.
    replace (d1 - 73 + 1) with (- (72 - d1)) by lia.
    assert (Hm1 : 2 ^ 52 <= m1 <= 2 ^ 53).
    { apply Z.abs_le in Hnear.
      change (2 ^ 52) with 4503599627370496.
      change (2 ^ 53) with 9007199254740992 in *.
      change (2 ^ 54) with 18014398509481984 in *. lia. }
    destruct (@normal53_spec s m1 (72 - d1))
      as (m & k & Hres & Hkr & Hdig & Hval); [lia | lia |].
    exists m, k. repeat split; try assumption; try lia.
    rewrite Hval.
    assert (HP1 : P = 2 * 2 ^ (72 - d1)).
    { unfold P. rewrite <- Z.pow_succ_r by lia. f_equal. lia. }
    assert (Hhalf : 1000000 < 2 * 2 ^ (72 - d1)).
    { assert (H : 2 ^ 19 <= 2 ^ (72 - d1))
        by (apply Z.pow_le_mono_r; lia).
      change (2 ^ 19) with 524288 in H. lia. }
    apply trunc_nearest; try lia.
Qed.

(** [int(n / 10**6)] for an int [n] of microseconds within the limit: the
    whole seconds, toward zero. *)
Lemma py_int_seconds (u : Z) :
  - seconds_limit < u < seconds_limit ->
  py_int (float_of_ratio u 1000000) = Ok (Z.quot u 1000000).
Proof.
  intros Hu.
  assert (Hvalid : forall s m k, 1 <= k <= 1074 ->
            Z.pos (digits2_pos m) = 53 ->
            valid_binary (S754_finite s m (- k)) = true).
  { intros s m k Hk Hd. unfold valid_binary.
    cbn [SpecFloat.valid_binary]. unfold bounded.
    apply andb_true_iff. split.
    - unfold canonical_mantissa. rewrite Hd. apply Z.eqb_eq.
      unfold fexp, emin, prec, emax. lia.
    - apply Z.leb_le. unfold emax, prec. lia. }
  assert (Hmag : forall m k, 1 <= k ->
            mag_num m (- k) / mag_den (- k) = Z.pos m / 2 ^ k).
  { intros m k Hk. unfold mag_num, mag_den.
    replace (0 <=? - k) with false by (symmetry; apply Z.leb_gt; lia).
    rewrite Z.opp_involutive. reflexivity. }
  destruct u as [| p | p].
  - reflexivity.
  - destruct (@SFdiv_micro false p) as (m & k & Hres & Hk & Hd & Hval);
      [lia |].
    unfold float_of_ratio, py_int.
    rewrite Hres, (Prim2SF_SF2Prim _ (Hvalid false m k Hk Hd)).
    cbn [with_sign]. rewrite Hmag, Hval by lia.
    rewrite Z.quot_div_nonneg by lia. reflexivity.
  - destruct (@SFdiv_micro true p) as (m & k & Hres & Hk & Hd & Hval);
      [lia |].
    unfold float_of_ratio, py_int.
    rewrite Hres, (Prim2SF_SF2Prim _ (Hvalid true m k Hk Hd)).
    cbn [with_sign]. rewrite Hmag, Hval by lia.
    change (Z.neg p) with (- Z.pos p).
    rewrite Z.quot_opp_l, Z.quot_div_nonneg by lia. reflexivity.
Qed.

Lemma int_timestamp_seconds (w : world) (tz : string) (d : datetime) :
  - seconds_limit < wall d - utcoffset w tz d < seconds_limit ->
  int_timestamp w tz d = Ok (Z.quot (wall d - utcoffset w tz d) 1000000).
Proof. apply py_int_seconds. Qed.

Lemma timedelta_seconds_ok (s : Z) :
  -999999999 * 86400 <= s < 1000000000 * 86400 ->
  timedelta_seconds s = Ok (s * 1000000).
Proof.
  intros Hs. unfold timedelta_seconds.
  assert (H0 : (s / 86400 <? - 2 ^ 31) || (2 ^ 31 - 1 <? s / 86400) = false).
  { apply orb_false_iff. split; apply Z.ltb_ge.
    - apply Z.div_le_lower_bound; [lia |].
      change (2 ^ 31) with 2147483648. lia.
    - apply Z.lt_succ_r. apply Z.div_lt_upper_bound; [lia |].
      change (2 ^ 31) with 2147483648. lia. }
  rewrite H0.
  assert (H1 : (s / 86400 <? -999999999) = false).
  { apply Z.ltb_ge. apply Z.div_le_lower_bound; lia. }
  assert (H2 : (999999999 <? s / 86400) = false).
  { apply Z.ltb_ge. apply Z.lt_succ_r.
    apply Z.div_lt_upper_bound; lia. }
  rewrite H1, H2. reflexivity.
Qed.

Lemma datetime_sub_ok (d : datetime) (delta : Z) :
  datetime_min <= wall d - delta <= datetime_max ->
  datetime_sub d delta = Ok (mk_datetime (wall d - delta) false).
Proof.
  intros Hr. unfold datetime_sub.
  assert (H1 : (wall d - delta <? datetime_min) = false)
    by (apply Z.ltb_ge; lia).
  assert (H2 : (datetime_max <? wall d - delta) = false)
    by (apply Z.ltb_ge; lia).
  rewrite H1, H2. reflexivity.
Qed.

(** The URL, once the window is known. *)
Lemma get_device_history_url_eq (w : world) (tz device_id : string)
  (duration delta : Z) (start : datetime) (from to : Z) :
  timedelta_seconds (duration * 60 * 60) = Ok delta ->
  datetime_sub (now_in w tz) delta = Ok start ->
  int_timestamp w tz start = Ok from ->
  int_timestamp w tz (now_in w tz) = Ok to ->
  get_device_history_url w tz device_id duration
  = Ok (history_url device_id from to).
Proof.
  intros Hdelta Hstart Hfrom Hto.
  unfold get_device_history_url, history_params.
  rewrite Hdelta. cbn [obind]. rewrite Hstart. cbn [obind].
  rewrite Hfrom. cbn [obind]. rewrite Hto. reflexivity.
Qed.

(** C6, as amended.  For a non-negative duration and a reference time
    [now] such that the start of the window is not before the Unix epoch,
    [now] is less than 2^34 seconds after it (before 2514-05-30T01:53:04Z)
    and the time zone has the same UTC offset at both ends of the window,
    the builder returns the URL with the fixed vendor and application
    identifiers, the device id and the integer Unix seconds [fromepoch] and
    [toepoch] of the window, and toepoch - fromepoch = duration * 3600. *)
Theorem history_url_window (w : world) (tz device_id : string)
  (duration : Z) :
  let now := now_in w tz in
  let start := mk_datetime (wall now - duration * 3600 * 1000000) false in
  0 <= duration ->
  wall now <= datetime_max ->
  - (86400 * 1000000) < utcoffset w tz now < 86400 * 1000000 ->
  utcoffset w tz start = utcoffset w tz now ->
  0 <= wall start - utcoffset w tz start ->
  wall now - utcoffset w tz now < seconds_limit ->
  exists from to : Z,
    get_device_history_url w tz device_id duration
    = Ok (history_url device_id from to)
    /\ from = (wall start - utcoffset w tz start) / 1000000
    /\ to = (wall now - utcoffset w tz now) / 1000000
    /\ to - from = duration * 3600.
Proof.
  intros now start Hdur Hmax Hoff Hsame Hepoch Hlimit.
  assert (Hw : wall start = wall now - duration * 3600 * 1000000)
    by reflexivity.
  rewrite Hsame in Hepoch.
  unfold datetime_max in Hmax.
  assert (Hdelta : timedelta_seconds (duration * 60 * 60)
                   = Ok (duration * 60 * 60 * 1000000)).
  { apply timedelta_seconds_ok. lia. }
  assert (Hstart : datetime_sub now (duration * 60 * 60 * 1000000)
                   = Ok start).
  { rewrite datetime_sub_ok.
    - unfold start. do 2 f_equal. lia.
    - unfold datetime_min, datetime_max. lia. }
  assert (Hlim : 0 < seconds_limit) by reflexivity.
  exists ((wall start - utcoffset w tz start) / 1000000),
    ((wall now - utcoffset w tz now) / 1000000).
  split.
  { apply get_device_history_url_eq
      with (delta := duration * 60 * 60 * 1000000) (start := start);
      try assumption.
    - rewrite int_timestamp_seconds by (rewrite ?Hsame; lia).
      rewrite Z.quot_div_nonneg by (rewrite ?Hsame; lia). reflexivity.
    - fold now. rewrite int_timestamp_seconds by lia.
      rewrite Z.quot_div_nonneg by lia. reflexivity. }
  rewrite Hsame. repeat split.
  replace (wall start - utcoffset w tz now)
    with ((wall now - utcoffset w tz now)
          + (- (duration * 3600)) * 1000000) by lia.
  rewrite Z.div_add by lia. lia.
Qed.

(* ================================================================= *)
(** ** The platform setup *)

(** C10.  Two valid configurations that differ only in the mode option set
    up the same entities: the same calls of [async_add_entities], or the
    same exception.  The device id alone selects the kind of sensor: a
    non-empty id gives one historic sensor over a data fetcher, an empty id
    gives current sensors only, one for each listed device class. *)
Theorem setup_ignores_mode (hass : HomeAssistant) (c1 c2 : config) :
  same_but_mode c1 c2 ->
  async_setup_platform hass c1 = async_setup_platform hass c2
  /\ (conf_device_id c1 <> "" ->
      async_setup_platform hass c1
      = Ok [([historic (conf_name c1)
                (MobileAlertsData_init hass (conf_device_id c1)
                   (conf_device_class c1) (conf_method c1)
                   (conf_duration c1))], true)])
  /\ (conf_device_id c1 = "" ->
      forall calls, async_setup_platform hass c1 = Ok calls ->
        List.length calls = List.length (conf_devices c1)
        /\ forall ents flag ent,
             In (ents, flag) calls -> In ent ents ->
             _mad ent = None /\ _weather ent = conf_weather c1
             /\ _weather ent <> None /\ flag = false).
Proof.
  intros (Hname & Hid & Hclass & Hdevs & Hmeth & Hdur & Hwthr).
  split; [| split].
  - unfold async_setup_platform.
    rewrite Hname, Hid, Hclass, Hdevs, Hmeth, Hdur, Hwthr. reflexivity.
  - intros Hne. unfold async_setup_platform.
    destruct (String.eqb (conf_device_id c1) "") eqn:He.
    + apply String.eqb_eq in He. contradiction.
    + reflexivity.
  - intros He calls. unfold async_setup_platform.
    rewrite He. simpl.
    destruct (states_get hass (conf_weather c1)) as [[st |] | e] eqn:Hst;
      cbn [obind]; [| discriminate | discriminate].
    intros H; injection H as <-. split.
    + apply length_map.
    + intros ents flag ent Hin Hent.
      apply in_map_iff in Hin. destruct Hin as (dc & Heq & _).
      injection Heq as <- <-. destruct Hent as [<- | []].
      simpl. repeat split.
      destruct (conf_weather c1); [discriminate | discriminate Hst].
Qed.

(* ================================================================= *)
(** ** Counterexamples and witnesses *)

(** C1, counterexample.  The rain gauge went back to zero: the difference
    is -150.456, of magnitude above 100, its truncation is -150, and the
    reading is -150.5. *)
Lemma negative_result_counterexample :
  let big := float_of_ratio 150456 1000 in
  let r := float_of_ratio (-150456) 1000 in
  let reading :=
    ex_get_reading [rain_table] (berlin_world noon vendor_page)
      (ex_fetcher "rain" CONF_DIFFERENCE) in
  ex_aggregate (Some CONF_DIFFERENCE) [0%float; big] = Ok (PyFloat r)
  /\ float_gt (PrimFloat.abs r) 100 = true
  /\ py_int r = Ok (-150)
  /\ reading
     = ([HttpGet noon_url request_headers],
        Ok (Some (PyFloat (float_of_ratio (-1505) 10)), "mm"))
  /\ snd reading <> Ok (Some (PyInt (-150)), "mm").
Proof.
  repeat split; try (vm_compute; reflexivity).
  differ_by is_int_reading.
Qed.

(** C1, witness: the maximum of the pressure column, 1013.2, is above 100
    and is truncated to 1013. *)
Lemma get_reading_rounding_witness :
  ex_get_reading [station_table] (berlin_world noon vendor_page)
    (ex_fetcher "pressure" CONF_MAXIMUM)
  = ([HttpGet noon_url request_headers], Ok (Some (PyInt 1013), "hPa")).
Proof.
  refine
    (proj1 (proj1
       (@get_reading_rounding (example_collaborators [station_table])
          (berlin_world noon vendor_page)
          (ex_fetcher "pressure" CONF_MAXIMUM)
          [HttpGet noon_url request_headers] station_table "Pressure"
          [float_of_ratio 10132 10; float_of_ratio 10128 10;
           float_of_ratio 10121 10]
          "hPa" (float_of_ratio 10132 10) _ _ _ _ _)));
    try (vm_compute; reflexivity).
  discriminate.
Defined.

(** C2, counterexample.  For [10.0, 20.0, 30.0] the difference
    values[0] - values[-1] is -20.0 and not 20.0. *)
Lemma difference_sign_counterexample :
  ex_aggregate (Some CONF_DIFFERENCE) [10; 20; 30]%float
  = Ok (PyFloat (-20))
  /\ ex_aggregate (Some CONF_DIFFERENCE) [10; 20; 30]%float
     <> Ok (PyFloat 20).
Proof.
  split; [vm_compute; reflexivity |].
  differ_by is_negative.
Qed.

(** The mean depends on the interpreter: for 21.0, 21.1, 21.3, 21.2 the
    plain loop of [sum] gives the mean 21.150000000000002, which is read as
    21.2, and the compensated loop gives 21.15, which is read as 21.1. *)
Lemma mean_depends_on_interpreter :
  (py_sum false four_readings / 4)%float
  = float_of_ratio 21150000000000002 1000000000000000
  /\ (py_sum true four_readings / 4)%float = float_of_ratio 2115 100
  /\ py_round1 (py_sum false four_readings / 4) = float_of_ratio 212 10
  /\ py_round1 (py_sum true four_readings / 4) = float_of_ratio 211 10.
Proof. repeat split; vm_compute; reflexivity. Qed.

(** C3, witness: the connection failure of [requests] goes through. *)
Lemma get_results_table_requests_failure_witness :
  let e := mk_exn requests_ConnectionError "Max retries exceeded with url" in
  let w := berlin_world noon (HttpRaise e) in
  let self := ex_fetcher "temperature" CONF_MAXIMUM in
  @get_results_table (example_collaborators [station_table]) w self "0123456789AB" 24
  = ([HttpGet noon_url request_headers], Raise e).
Proof.
  intros e w self.
  refine
    (proj1
       (@get_results_table_requests_failure
          (example_collaborators [station_table]) w
          self "0123456789AB" 24 noon_url e _ _ _));
    vm_compute; reflexivity.
Defined.

(** C4, counterexample.  A page whose table has no row: the cached 21.5 C
    is replaced by 0 and the empty unit, and the sensor shows 0. *)
Lemma empty_column_overwrites_cache :
  let w := berlin_world noon vendor_page in
  let after := ex_after_update [empty_body_table] w cached_fetcher in
  data cached_fetcher = Some (PyFloat 21.5)
  /\ unit' cached_fetcher = Some "C"
  /\ data after = Some (PyInt 0)
  /\ unit' after = Some ""
  /\ data after <> data cached_fetcher
  /\ unit' after <> unit' cached_fetcher
  /\ exists t ent,
       ex_entity_update [empty_body_table] w ex_hass cached_sensor
       = (t, Ok ent)
       /\ _state ent = Some (Num (PyInt 0))
       /\ _unit_of_measurement ent = Some "".
Proof.
  repeat split; try (vm_compute; reflexivity).
  - differ_by cached_number.
  - vm_compute. discriminate.
  - do 2 eexists. vm_compute. repeat split.
Qed.

(** C4, witness: a page without a table leaves the cached 21.5 C. *)
Lemma update_cache_without_table_witness :
  let w := berlin_world noon (HttpResponse 200 "") in
  exists t' mad' ent',
    ex_update [station_table] w cached_fetcher = (t', Ok mad')
    /\ data mad' = data cached_fetcher
    /\ unit' mad' = unit' cached_fetcher
    /\ ex_entity_update [station_table] w ex_hass cached_sensor
       = (t', Ok ent')
    /\ _mad ent' = Some mad'
    /\ _state ent' = option_map Num (data cached_fetcher)
    /\ _unit_of_measurement ent' = unit' cached_fetcher.
Proof.
  intros w.
  refine
    (@update_cache_without_table (example_collaborators [station_table]) w ex_hass
       cached_sensor cached_fetcher
       [HttpGet noon_url request_headers;
        LogWarning ("No data returned : " ++ noon_url)]
       None _ _ _);
    vm_compute; reflexivity.
Defined.

(** C5, witness: a table with a header and no row reads as 0. *)
Lemma get_reading_empty_column_witness :
  ex_get_measurements empty_body_table "Temperature" true = Ok ([], "")
  /\ ex_get_reading [empty_body_table] (berlin_world noon vendor_page)
       (ex_fetcher "temperature" CONF_MEAN)
     = ([HttpGet noon_url request_headers], Ok (Some (PyInt 0), "")).
Proof.
  refine
    (@get_reading_empty_column (example_collaborators [empty_body_table])
       (berlin_world noon vendor_page) (ex_fetcher "temperature" CONF_MEAN)
       [HttpGet noon_url request_headers] empty_body_table "Temperature"
       1%nat _ _ _ _);
    vm_compute; reflexivity.
Defined.

(** C6, counterexample.  At 2021-01-01T00:00:00.5 UTC with a duration of
    500000 hours the window starts before the epoch, at -190540799.5
    seconds; [int] truncates toward zero, to -190540799, and the two
    parameters are 1799999999 seconds apart, one less than
    500000 * 3600.  The two timestamps are the floats -190540799.5 and
    1609459200.5. *)
Lemma pre_epoch_window_counterexample :
  get_device_history_url utc_world "UTC" "0123456789AB" 500000
  = Ok (history_url "0123456789AB" (-190540799) 1609459200)
  /\ 1609459200 - (-190540799) <> 500000 * 3600
  /\ py_int (float_of_ratio (-190540799500000) 1000000) = Ok (-190540799)
  /\ py_int (float_of_ratio 1609459200500000 1000000) = Ok 1609459200.
Proof.
  split; [vm_compute; reflexivity |].
  split; [lia |].
  split; vm_compute; reflexivity.
Qed.

(** Beyond 2^34 seconds the claim fails as well: at
    2514-05-30T02:00:00.999999 UTC the nearest float to 17179869600.999999
    is 17179869601.0, and the last hour is 3601 seconds long. *)
Lemma late_window_example :
  timestamp late_world "UTC" (now_in late_world "UTC")
  = float_of_Z 17179869601
  /\ get_device_history_url late_world "UTC" "0123456789AB" 1
     = Ok (history_url "0123456789AB" 17179866000 17179869601)
  /\ 17179869601 - 17179866000 = 3601.
Proof. repeat split; vm_compute; reflexivity. Qed.

(** C6, witness: the last 24 hours before [noon], one hour ahead of
    UTC. *)
Lemma history_url_window_witness :
  exists from to : Z,
    get_device_history_url (berlin_world noon vendor_page) "Europe/Berlin"
      "0123456789AB" 24
    = Ok (history_url "0123456789AB" from to)
    /\ from = 1609416000
    /\ to = 1609502400
    /\ to - from = 24 * 3600.
Proof.
  refine
    (@history_url_window (berlin_world noon vendor_page) "Europe/Berlin"
       "0123456789AB" 24 _ _ _ _ _ _);
    vm_compute; try reflexivity; try (split; reflexivity);
    intro H; discriminate H.
Defined.

(** C7, counterexample.  A header row whose last cell has no content:
    "Temperature" is the text of the cell at 1 and "Pressure" is the text
    of no cell, and for both the locator raises [IndexError], neither
    returning 1 nor raising the exception that lists the header names. *)
Lemma empty_header_cell_counterexample :
  thead gap_header_table
  = Some [["Time"]; ["Temperature"]; ["Humidity"]; []]
  /\ get_position gap_header_table "Temperature"
     = Raise (mk_exn IndexError "list index out of range")
  /\ get_position gap_header_table "Temperature" <> Ok 1%nat
  /\ get_position gap_header_table "Pressure"
     = Raise (mk_exn IndexError "list index out of range")
  /\ exn_class (mk_exn IndexError "list index out of range") <> Exception.
Proof. repeat split; discriminate. Qed.

(** C7, witness: "Humidity" is at 2 in the header of the grid. *)
Lemma get_position_first_match_witness :
  (exists i, get_position station_table "Humidity" = Ok i
             /\ first_match ["Time"; "Temperature"; "Humidity"; "Pressure"]
                  "Humidity" i)
  \/ (~ In "Humidity" ["Time"; "Temperature"; "Humidity"; "Pressure"]
      /\ get_position station_table "Humidity"
         = Raise (mk_exn Exception
                    ("Column " ++ "Humidity" ++ " not found in sensor data "
                     ++ "["
                     ++ String.concat ", "
                          (map py_repr
                             ["Time"; "Temperature"; "Humidity"; "Pressure"])
                     ++ "]"))).
Proof.
  refine
    (proj1
       (@get_position_first_match station_table
          [["Time"]; ["Temperature"]; ["Humidity"]; ["Pressure"]]
          ["Time"; "Temperature"; "Humidity"; "Pressure"] "Humidity" _ _));
    reflexivity.
Defined.

(** C8, witness: the temperature column of the grid, with its suffix of
    two characters. *)
Lemma get_measurements_round_trip_witness :
  ex_get_measurements station_table "Temperature" true
  = Ok ([21.5%float; 19%float; float_of_ratio 182 10], "C").
Proof.
  refine
    (@get_measurements_round_trip (example_collaborators []) station_table "Temperature" 1%nat
       [ [["01/01/2021 12:00"]; ["21.5 C"]; ["40%"]; ["1013.2 hPa"]];
         [["01/01/2021 11:00"]; ["19.0 C"]; ["45%"]; ["1012.8 hPa"]];
         [["01/01/2021 10:00"]; ["18.2 C"]; ["47%"]; ["1012.1 hPa"]] ]
       [("21.5", " C"); ("19.0", " C"); ("18.2", " C")]
       [21.5%float; 19%float; float_of_ratio 182 10] _ _ _ _
       2%nat 1 (Num (PyFloat 21.5)) "C" _ _ _ _);
    try (vm_compute; reflexivity).
  - lia.
  - intros c [<- | [<- | [<- | []]]]; reflexivity.
Defined.

(** C9, counterexample.  The first invocation issues its request, gets the
    status 500 and raises; the fetcher records no time, and an invocation
    one minute later issues a request again. *)
Lemma failed_update_is_not_throttled :
  let self := ex_fetcher "temperature" CONF_MAXIMUM in
  let w1 := berlin_world noon (HttpResponse 500 "") in
  let w2 := berlin_world (noon + 60 * 1000000) vendor_page in
  let self1 := ex_after_update [station_table] w1 self in
  requests_of (fst (ex_update [station_table] w1 self)) = [noon_url]
  /\ (exists e, snd (ex_update [station_table] w1 self) = Raise e)
  /\ utcnow_before w2 - utcnow_before w1 <= MIN_TIME_BETWEEN_UPDATES
  /\ requests_of (fst (ex_update [station_table] w2 self1))
     = [history_url "0123456789AB" (1609502460 - 86400) 1609502460]
  /\ requests_of (fst (ex_update [station_table] w2 self1)) <> [].
Proof.
  repeat split; try (vm_compute; reflexivity).
  - eexists. vm_compute. reflexivity.
  - vm_compute. intro H; discriminate H.
  - vm_compute. intro H; discriminate H.
Qed.

(** C9, witness: after the call at [noon], a call thirty minutes later is
    throttled and a call sixty-one minutes later fetches again. *)
Lemma update_throttle_window_witness :
  let self := ex_fetcher "temperature" CONF_MAXIMUM in
  let w1 := berlin_world noon vendor_page in
  let w2 := berlin_world (noon + 30 * 60 * 1000000) vendor_page in
  let w3 := berlin_world (noon + 61 * 60 * 1000000) vendor_page in
  (ex_update [station_table] w2 fetched_at_noon = ([], Ok fetched_at_noon)
   /\ requests_of (fst (ex_update [station_table] w2 fetched_at_noon)) = [])
  /\ In (history_url "0123456789AB" (1609506060 - 86400) 1609506060)
       (requests_of (fst (ex_update [station_table] w3 fetched_at_noon))).
Proof.
  intros self w1 w2 w3. split.
  - refine
      (proj1
         (@update_throttle_window (example_collaborators [station_table]) w1 w2 self
            fetched_at_noon [HttpGet noon_url request_headers] _ _) _);
      vm_compute; try reflexivity; intro H; discriminate H.
  - refine
      (proj2
         (@update_throttle_window (example_collaborators [station_table]) w1 w3 self
            fetched_at_noon [HttpGet noon_url request_headers] _ _) _ _ _);
      vm_compute; reflexivity.
Defined.

(** C10, witness: a valid historic configuration, read with either
    mode. *)
Lemma setup_ignores_mode_witness :
  let c1 := mk_config "MA" "0123456789AB" (Some "temperature") "historic" []
              (Some CONF_MAXIMUM) 24 None in
  let c2 := mk_config "MA" "0123456789AB" (Some "temperature") "current" []
              (Some CONF_MAXIMUM) 24 None in
  PLATFORM_SCHEMA c1 /\ PLATFORM_SCHEMA c2
  /\ async_setup_platform ex_hass c1 = async_setup_platform ex_hass c2.
Proof.
  intros c1 c2. split; [| split].
  - unfold PLATFORM_SCHEMA; simpl. repeat split; auto; [discriminate | lia].
  - unfold PLATFORM_SCHEMA; simpl. repeat split; auto; [discriminate | lia].
  - refine (proj1 (@setup_ignores_mode ex_hass c1 c2 _)).
    repeat split.
Defined.

(* ================================================================= *)
(** ** Further properties of the fetcher *)

Section Fetching.

#[local] Set Default Proof Using "Type".

Context {collaborators : Collaborators}.

Local Open Scope io_scope.

Lemma requests_of_io_bind {A B} (m : io A) (f : A -> io B) :
  requests_of (fst (io_bind m f))
  = (requests_of (fst m)
     ++ match snd m with
        | Ok a => requests_of (fst (f a))
        | Raise _ => []
        end)%list.
Proof.
  unfold io_bind. destruct (snd m); simpl.
  - apply requests_of_app.
  - rewrite app_nil_r. reflexivity.
Qed.

(** A continuation that issues no request adds none. *)
Lemma requests_of_quiet {A B} (m : io A) (f : A -> io B) :
  (forall a, requests_of (fst (f a)) = []) ->
  requests_of (fst (io_bind m f)) = requests_of (fst m).
Proof.
  intros Hquiet. rewrite requests_of_io_bind.
  destruct (snd m); rewrite ?Hquiet, app_nil_r; reflexivity.
Qed.

Lemma warnings_of_app (t1 t2 : list event) :
  warnings_of (t1 ++ t2) = (warnings_of t1 ++ warnings_of t2)%list.
Proof.
  induction t1 as [| [msg | url hdrs] t1 IH]; simpl;
    [| rewrite IH |]; auto.
Qed.

(** The requests of one fetch. *)
Lemma get_results_table_requests_eq (w : world) (self : MobileAlertsData)
  (device_id : string) (duration : Z) :
  requests_of (fst (get_results_table w self device_id duration))
  = match get_device_history_url w (_time_zone self) device_id duration with
    | Ok url => [url]
    | Raise _ => []
    end.
Proof.
  unfold get_results_table.
  destruct (get_device_history_url w (_time_zone self) device_id duration)
    as [url | e]; [| reflexivity].
  unfold io_lift. rewrite io_bind_ok. cbn [fst app].
  rewrite requests_of_io_bind. cbn [io_emit fst snd requests_of app].
  destruct (requests_get w url [("User-Agent", "Mozilla/5.0")])
    as [e | status text].
  - destruct (issubclass (exn_class e) ConnectionError); [reflexivity |].
    destruct (issubclass (exn_class e) TimeoutError); reflexivity.
  - destruct (negb (status =? 200)); [reflexivity |].
    destruct (soup_tables text); reflexivity.
Qed.

(** The fetch, case by case, once its URL is built. *)
Lemma get_results_table_cases (w : world) (self : MobileAlertsData)
  (device_id : string) (duration : Z) (url : string) :
  get_device_history_url w (_time_zone self) device_id duration = Ok url ->
  get_results_table w self device_id duration
  = match requests_get w url request_headers with
    | HttpRaise e =>
        if issubclass (exn_class e) ConnectionError then
          ([HttpGet url request_headers;
            LogWarning ("Unable to connect to MA URL : " ++ url)], Ok None)
        else if issubclass (exn_class e) TimeoutError then
          ([HttpGet url request_headers;
            LogWarning "Timeout connecting to MA URL"], Ok None)
        else ([HttpGet url request_headers], Raise e)
    | HttpResponse status text =>
        if status =? 200 then
          match soup_tables text with
          | [] =>
              ([HttpGet url request_headers;
                LogWarning ("No data returned : " ++ url)], Ok None)
          | tbl :: _ => ([HttpGet url request_headers], Ok (Some tbl))
          end
        else
          ([HttpGet url request_headers],
           Raise (mk_exn Exception
                    ("requests getting data: " ++ py_str_of_int status
                     ++ ", " ++ url)))
    end.
Proof.
  intros Hurl. unfold get_results_table.
  rewrite Hurl. unfold io_lift. rewrite io_bind_ok.
  fold request_headers.
  destruct (requests_get w url request_headers) as [e | status text].
  - destruct (issubclass (exn_class e) ConnectionError); [reflexivity |].
    destruct (issubclass (exn_class e) TimeoutError); reflexivity.
  - destruct (status =? 200); [| reflexivity].
    destruct (soup_tables text); reflexivity.
Qed.

(** The fetch gives the no-data result [None] exactly when [requests.get]
    raised a built-in [ConnectionError] or [TimeoutError] (or a subclass),
    or answered 200 with a page without a table; and a warning is logged
    exactly in these cases. *)
Theorem fetch_no_data_iff (w : world) (self : MobileAlertsData)
  (device_id : string) (duration : Z) (url : string) :
  get_device_history_url w (_time_zone self) device_id duration = Ok url ->
  (snd (get_results_table w self device_id duration) = Ok None
   <-> (exists e,
          requests_get w url request_headers = HttpRaise e
          /\ (issubclass (exn_class e) ConnectionError = true
              \/ issubclass (exn_class e) TimeoutError = true))
       \/ (exists text,
             requests_get w url request_headers = HttpResponse 200 text
             /\ soup_tables text = []))
  /\ (snd (get_results_table w self device_id duration) = Ok None
      <-> warnings_of (fst (get_results_table w self device_id duration))
          <> []).
Proof.
  intros Hurl.
  rewrite get_results_table_cases with (url := url) by exact Hurl.
  destruct (requests_get w url request_headers) as [e | status text].
  - destruct (issubclass (exn_class e) ConnectionError) eqn:Hconn;
      [| destruct (issubclass (exn_class e) TimeoutError) eqn:Htime];
      cbn [fst snd warnings_of].
    + split; split; try discriminate; try reflexivity.
      intros _. left. exists e. auto.
    + split; split; try discriminate; try reflexivity.
      intros _. left. exists e. auto.
    + split; split; try discriminate.
      * intros [(e' & He & [H | H]) | (text & He & _)];
          [injection He as <- | injection He as <- | discriminate He];
          congruence.
      * intros H. contradiction H. reflexivity.
  - destruct (status =? 200) eqn:Hst.
    + apply Z.eqb_eq in Hst. subst status.
      destruct (soup_tables text) as [| tbl rest] eqn:Hsoup;
        cbn [fst snd warnings_of].
      * split; split; try discriminate; try reflexivity.
        intros _. right. exists text. auto.
      * split; split; try discriminate.
        -- intros [(e' & He & _) | (text' & He & Hs)];
             [discriminate He |].
           injection He as <-. congruence.
        -- intros H. contradiction H. reflexivity.
    + apply Z.eqb_neq in Hst. cbn [fst snd warnings_of].
      split; split; try discriminate.
      * intros [(e' & He & _) | (text' & He & Hs)]; [discriminate He |].
        injection He as -> _. contradiction.
      * intros H. contradiction H. reflexivity.
Qed.

(** The fetch returns a table exactly when [requests.get] answered 200
    with a page that has one, and it is the first table of the page. *)
Theorem fetch_table_iff (w : world) (self : MobileAlertsData)
  (device_id : string) (duration : Z) (url : string) (tbl : Table) :
  get_device_history_url w (_time_zone self) device_id duration = Ok url ->
  (snd (get_results_table w self device_id duration) = Ok (Some tbl)
   <-> exists text rest,
         requests_get w url request_headers = HttpResponse 200 text
         /\ soup_tables text = tbl :: rest).
Proof.
  intros Hurl.
  rewrite get_results_table_cases with (url := url) by exact Hurl.
  destruct (requests_get w url request_headers) as [e | status text].
  - split.
    + destruct (issubclass (exn_class e) ConnectionError);
        [| destruct (issubclass (exn_class e) TimeoutError)]; discriminate.
    + intros (text & rest & He & _). discriminate He.
  - destruct (status =? 200) eqn:Hst.
    + apply Z.eqb_eq in Hst. subst status.
      destruct (soup_tables text) as [| tbl0 rest0] eqn:Hsoup; split.
      * discriminate.
      * intros (text' & rest & He & Hs). injection He as <-. congruence.
      * intros H. injection H as <-. exists text, rest0. auto.
      * intros (text' & rest & He & Hs). injection He as <-.
        rewrite Hsoup in Hs. injection Hs as <- _. reflexivity.
    + split; [discriminate |].
      intros (text' & rest & He & _). injection He as -> _.
      apply Z.eqb_neq in Hst. contradiction.
Qed.

(** The fetch raises exactly in two cases: [requests.get] raised an
    exception that is no built-in [ConnectionError] or [TimeoutError], and
    this exception goes through unchanged; or the status is not 200 (be it
    another 2xx), and the exception is an [Exception] whose message holds
    the status and the URL. *)
Theorem fetch_raises_iff (w : world) (self : MobileAlertsData)
  (device_id : string) (duration : Z) (url : string) (e : exn) :
  get_device_history_url w (_time_zone self) device_id duration = Ok url ->
  (snd (get_results_table w self device_id duration) = Raise e
   <-> (requests_get w url request_headers = HttpRaise e
        /\ issubclass (exn_class e) ConnectionError = false
        /\ issubclass (exn_class e) TimeoutError = false)
       \/ (exists status text,
             requests_get w url request_headers = HttpResponse status text
             /\ status <> 200
             /\ e = mk_exn Exception
                      ("requests getting data: " ++ py_str_of_int status
                       ++ ", " ++ url))).
Proof.
  intros Hurl.
  rewrite get_results_table_cases with (url := url) by exact Hurl.
  destruct (requests_get w url request_headers) as [e0 | status text].
  - destruct (issubclass (exn_class e0) ConnectionError) eqn:Hconn;
      [| destruct (issubclass (exn_class e0) TimeoutError) eqn:Htime];
      cbn [snd]; split.
    all: try discriminate.
    all: try (intros [(He & Hc & Ht) | (status & text & He & _)];
              [injection He as <-; congruence | discriminate He]).
    intros H. injection H as <-. left. auto.
  - destruct (status =? 200) eqn:Hst.
    + apply Z.eqb_eq in Hst. subst status.
      destruct (soup_tables text); cbn [snd]; split; try discriminate.
      all: intros [(He & _) | (status & text' & He & Hne & _)];
        [discriminate He | injection He as <- _; contradiction].
    + cbn [snd]. apply Z.eqb_neq in Hst. split.
      * intros H. injection H as <-. right. exists status, text. auto.
      * intros [(He & _) | (status' & text' & He & _ & ->)];
          [discriminate He |].
        injection He as <- <-. reflexivity.
Qed.

(** No retry: one invocation of [update] issues at most one request.  It
    issues none when the call is throttled or when the URL cannot be built,
    and otherwise exactly one, to the history URL of the fetcher, whatever
    the network answers and whatever the page holds. *)
Theorem update_issues_one_request (w : world) (self : MobileAlertsData) :
  requests_of (fst (update w self))
  = if throttle_due MIN_TIME_BETWEEN_UPDATES (_throttle self)
         (utcnow_before w)
    then match get_device_history_url w (_time_zone self) (_device_id self)
                 (_duration self) with
         | Ok url => [url]
         | Raise _ => []
         end
    else [].
Proof.
  unfold update, Throttle.
  destruct (throttle_due MIN_TIME_BETWEEN_UPDATES (_throttle self)
              (utcnow_before w)); [| reflexivity].
  rewrite requests_of_quiet by reflexivity.
  unfold update_body.
  rewrite requests_of_quiet by (intros [[obs |] unit]; reflexivity).
  unfold get_reading.
  rewrite requests_of_quiet by (intros [tbl |]; reflexivity).
  apply get_results_table_requests_eq.
Qed.

(* ================================================================= *)
(** ** Further properties of the reading *)

(** [get_reading] once the table is fetched. *)
Lemma get_reading_with_table (w : world) (self : MobileAlertsData)
  (t : list event) (tbl : Table) :
  get_results_table w self (_device_id self) (_duration self)
  = (t, Ok (Some tbl)) ->
  get_reading w self
  = (t,
     (column_name <- device_class_column (_device_class self) ;;
      ' (values, unit) <- get_measurements tbl column_name true ;;
      if (List.length values =? 0)%nat then Ok (Some (PyInt 0), "")
      else
        result <- aggregate (_method self) values ;;
        result <- round_result result ;;
        Ok (Some result, unit))%outcome).
Proof.
  intros Htbl. unfold get_reading.
  rewrite Htbl, io_bind_ok. unfold io_lift. cbn [fst snd].
  rewrite app_nil_r. reflexivity.
Qed.

(** The observation is [None] exactly when the fetch returned no table:
    with a table, [get_reading] returns a number or raises. *)
Theorem reading_none_iff_no_table (w : world) (self : MobileAlertsData)
  (t : list event) (u : string) :
  get_reading w self = (t, Ok (None, u))
  <-> get_results_table w self (_device_id self) (_duration self)
      = (t, Ok None)
      /\ u = "".
Proof.
  split.
  - destruct (get_results_table w self (_device_id self) (_duration self))
      as [t0 [[tbl |] | e]] eqn:Hfetch.
    + rewrite (get_reading_with_table _ _ Hfetch).
      destruct (device_class_column (_device_class self)) as [col | e];
        [| discriminate]. cbn [obind].
      destruct (get_measurements tbl col true) as [[values unit] | e];
        [| discriminate]. cbn [obind].
      destruct (List.length values =? 0)%nat; [discriminate |].
      destruct (aggregate (_method self) values) as [r | e];
        [| discriminate]. cbn [obind].
      destruct (round_result r); discriminate.
    + rewrite (get_reading_no_table _ _ Hfetch).
      intros H. injection H as <- <-. auto.
    + unfold get_reading. rewrite Hfetch. discriminate.
  - intros [Hfetch ->]. apply get_reading_no_table, Hfetch.
Qed.

(** An invocation of [update] that returns either leaves the cached value
    and unit as they are or stores a value and a unit together: a cached
    reading is never cleared. *)
Theorem update_never_clears_cache (w : world)
  (self self' : MobileAlertsData) (t : list event) :
  update w self = (t, Ok self') ->
  (data self' = data self /\ unit' self' = unit' self)
  \/ (exists obs u,
        snd (get_reading w self) = Ok (Some obs, u)
        /\ data self' = Some obs /\ unit' self' = Some u).
Proof.
  unfold update, Throttle.
  destruct (throttle_due MIN_TIME_BETWEEN_UPDATES (_throttle self)
              (utcnow_before w)).
  - unfold update_body, io_bind.
    destruct (get_reading w self) as [t0 [[[obs |] u] | e]];
      cbn [fst snd io_ret io_emit]; intros H; inversion H; subst.
    + right. exists obs, u. auto.
    + left. auto.
  - intros H. inversion H; subst. left. auto.
Qed.

(** For a non-empty list of values the aggregation does not raise. *)
Lemma aggregate_total (method : option string) (values : list float) :
  values <> [] -> exists r, aggregate method values = Ok r.
Proof.
  intros Hne. destruct values as [| v rest]; [congruence |].
  unfold aggregate.
  destruct method as [m |]; [| eexists; reflexivity].
  destruct (String.eqb m CONF_MAXIMUM); [eexists; reflexivity |].
  destruct (String.eqb m CONF_MINIMUM); [eexists; reflexivity |].
  destruct (String.eqb m CONF_MEAN).
  - unfold py_truediv.
    destruct (Z.of_nat (List.length (v :: rest)) =? 0) eqn:Hlen.
    + apply Z.eqb_eq in Hlen. simpl in Hlen. lia.
    + eexists; reflexivity.
  - destruct (String.eqb m CONF_DIFFERENCE); eexists; reflexivity.
Qed.

(** The numbers above 100, in their [spec_float] reading: +infinity, and
    the positive finite numbers with a larger exponent than 100, or the
    same exponent and a larger mantissa. *)
Lemma float_gt_100 (r : float) :
  float_gt r 100 = true ->
  match Prim2SF r with
  | S754_infinity false => True
  | S754_finite false m e =>
      -46 < e \/ (e = -46 /\ (7036874417766400 < m)%positive)
  | _ => False
  end.
Proof.
  unfold float_gt. rewrite ltb_spec.
  replace (Prim2SF 100) with (S754_finite false 7036874417766400 (-46))
    by (vm_compute; reflexivity).
  unfold SFltb, SFcompare.
  destruct (Prim2SF r) as [s | s | | s m e]; try destruct s;
    try discriminate; auto.
  fold (cmp_finite 7036874417766400 (-46) m e).
  destruct (cmp_finite_spec 7036874417766400 (-46) m e);
    try discriminate; intros _; lia.
Qed.

(** Once the values are extracted, the only exception that [get_reading]
    can raise is the [OverflowError] of [int] on a result of +infinity:
    a NaN or a negative infinity is returned as it is. *)
Theorem reading_raises_only_on_infinity (w : world)
  (self : MobileAlertsData) (t : list event) (tbl : Table) (col : string)
  (values : list float) (unit : string) (e : exn) :
  get_results_table w self (_device_id self) (_duration self)
  = (t, Ok (Some tbl)) ->
  device_class_column (_device_class self) = Ok col ->
  get_measurements tbl col true = Ok (values, unit) ->
  get_reading w self = (t, Raise e) ->
  aggregate (_method self) values = Ok (PyFloat infinity)
  /\ e = mk_exn OverflowError "cannot convert float infinity to integer".
Proof.
  intros Htbl Hcol Hval.
  rewrite (get_reading_values _ _ Htbl Hcol Hval).
  destruct values as [| v rest]; [discriminate |].
  cbn [List.length Nat.eqb].
  destruct (@aggregate_total (_method self) (v :: rest)) as [r Hr];
    [discriminate |].
  rewrite Hr. cbn [obind].
  destruct r as [z | r]; cbn [round_result].
  - destruct (100 <? z); discriminate.
  - destruct (float_gt r 100) eqn:Hgt; [| discriminate].
    apply float_gt_100 in Hgt. unfold py_int.
    destruct (Prim2SF r) as [s | s | | s m ex] eqn:Hsf;
      try contradiction; try discriminate.
    destruct s; [contradiction |].
    cbn [obind]. intros H. injection H as <-. split; [| reflexivity].
    do 2 f_equal.
    rewrite <- (SF2Prim_Prim2SF r), Hsf. reflexivity.
Qed.

(** A historic sensor whose device class is absent from the configuration
    (the schema allows it) or is no key of [DEVICE_CLASS] cannot read a
    table: whenever the fetch returns one, [get_reading] raises [KeyError],
    and so does a call of [update] that is not throttled. *)
Theorem reading_unknown_device_class (w : world) (self : MobileAlertsData)
  (t : list event) (tbl : Table) :
  get_results_table w self (_device_id self) (_duration self)
  = (t, Ok (Some tbl)) ->
  match _device_class self with
  | Some k => dict_get DEVICE_CLASS k = None
  | None => True
  end ->
  exists e,
    exn_class e = KeyError
    /\ get_reading w self = (t, Raise e)
    /\ (throttle_due MIN_TIME_BETWEEN_UPDATES (_throttle self)
          (utcnow_before w) = true ->
        update w self = (t, Raise e)).
Proof.
  intros Htbl Hclass.
  assert (Hcol : exists e, exn_class e = KeyError
                           /\ device_class_column (_device_class self)
                              = Raise e).
  { unfold device_class_column.
    destruct (_device_class self) as [k |].
    - rewrite Hclass. exists (mk_exn KeyError (py_repr k)).
      split; reflexivity.
    - exists (mk_exn KeyError "None"). split; reflexivity. }
  destruct Hcol as (e & He & Hcol). exists e.
  assert (Hread : get_reading w self = (t, Raise e)).
  { rewrite (get_reading_with_table _ _ Htbl), Hcol. reflexivity. }
  repeat split; [exact He | exact Hread |].
  intros Hdue. unfold update, Throttle. rewrite Hdue.
  unfold update_body. rewrite Hread. reflexivity.
Qed.

Lemma not_in_method_types (m : string) :
  ~ In m METHOD_TYPES ->
  String.eqb m CONF_MAXIMUM = false /\ String.eqb m CONF_MINIMUM = false
  /\ String.eqb m CONF_MEAN = false /\ String.eqb m CONF_DIFFERENCE = false.
Proof.
  intros Hnot. repeat split; apply String.eqb_neq; intros ->;
    apply Hnot; simpl; auto.
Qed.

(** When no method is configured (the schema gives it no default) or the
    method is none of the four, nothing is aggregated: the reading is the
    integer 0, with the unit of the column when it has rows. *)
Theorem reading_without_method (w : world) (self : MobileAlertsData)
  (t : list event) (tbl : Table) (col : string) (values : list float)
  (unit : string) :
  get_results_table w self (_device_id self) (_duration self)
  = (t, Ok (Some tbl)) ->
  device_class_column (_device_class self) = Ok col ->
  get_measurements tbl col true = Ok (values, unit) ->
  match _method self with
  | Some m => ~ In m METHOD_TYPES
  | None => True
  end ->
  get_reading w self
  = (t, Ok (Some (PyInt 0),
            if (List.length values =? 0)%nat then "" else unit)).
Proof.
  intros Htbl Hcol Hval Hmethod.
  rewrite (get_reading_values _ _ Htbl Hcol Hval).
  destruct (List.length values =? 0)%nat; [reflexivity |].
  assert (Hagg : aggregate (_method self) values = Ok (PyInt 0)).
  { unfold aggregate. destruct (_method self) as [m |]; [| reflexivity].
    destruct (not_in_method_types Hmethod) as (H1 & H2 & H3 & H4).
    rewrite H1, H2, H3, H4. reflexivity. }
  rewrite Hagg. reflexivity.
Qed.

(** The mantissa of a binary64 number above the subnormal range has 53
    bits. *)
Lemma normal_mantissa (r : float) (s : bool) (m : positive) (e : Z) :
  Prim2SF r = S754_finite s m e -> -1074 < e -> 2 ^ 52 <= Z.pos m.
Proof.
  intros Hsf He. pose proof (Prim2SF_valid r) as Hvalid.
  rewrite Hsf in Hvalid. cbn [SpecFloat.valid_binary] in Hvalid.
  unfold bounded, canonical_mantissa in Hvalid.
  apply andb_true_iff in Hvalid. destruct Hvalid as [Hcan _].
  apply Z.eqb_eq in Hcan. unfold fexp, SpecFloat.emin, prec, emax in Hcan.
  pose proof (digits2_pos_lower m) as Hdig.
  assert (Hd : Z.pos (digits2_pos m) = 53) by lia.
  rewrite Hd in Hdig. exact Hdig.
Qed.

(** The truncation of a float above 100 is at least 100. *)
Lemma py_int_above_100 (r : float) (z : Z) :
  float_gt r 100 = true -> py_int r = Ok z -> 100 <= z.
Proof.
  intros Hgt Hint. apply float_gt_100 in Hgt. unfold py_int in Hint.
  destruct (Prim2SF r) as [s | s | | s m e] eqn:Hsf; try contradiction;
    try (destruct s; [contradiction | discriminate]).
  destruct s; [contradiction |].
  injection Hint as <-. cbn [with_sign].
  unfold mag_num, mag_den.
  destruct (0 <=? e) eqn:He.
  - apply Z.leb_le in He. rewrite Z.div_1_r.
    pose proof (normal_mantissa _ Hsf ltac:(lia)) as Hm.
    assert (0 < 2 ^ e) by (apply Z.pow_pos_nonneg; lia).
    assert (2 ^ 52 = 4503599627370496) by reflexivity. nia.
  - apply Z.leb_gt in He.
    apply Z.div_le_lower_bound; [apply Z.pow_pos_nonneg; lia |].
    destruct Hgt as [Hlt | [-> Hm]].
    + pose proof (normal_mantissa _ Hsf ltac:(lia)) as Hm.
      assert (Hpow : 2 ^ (- e) <= 2 ^ 45)
        by (apply Z.pow_le_mono_r; lia).
      assert (2 ^ 52 = 128 * 2 ^ 45) by reflexivity.
      assert (0 < 2 ^ (- e)) by (apply Z.pow_pos_nonneg; lia).
      nia.
    + change (2 ^ (- -46)) with 70368744177664. lia.
Qed.

Lemma aggregate_int_is_zero (method : option string) (values : list float)
  (z : Z) :
  aggregate method values = Ok (PyInt z) -> z = 0.
Proof.
  unfold aggregate. destruct method as [m |].
  - destruct (String.eqb m CONF_MAXIMUM);
      [destruct (py_max values); discriminate |].
    destruct (String.eqb m CONF_MINIMUM);
      [destruct (py_min values); discriminate |].
    destruct (String.eqb m CONF_MEAN);
      [destruct (py_truediv _ _); discriminate |].
    destruct (String.eqb m CONF_DIFFERENCE).
    + destruct (py_first values); [| discriminate].
      destruct (py_last values); discriminate.
    + intros H; injection H as <-; reflexivity.
  - intros H; injection H as <-; reflexivity.
Qed.

(** An integer reading is the 0 of an empty column or of a missing method,
    or it is at least 100: a float result is returned as an integer only
    when it is above 100. *)
Theorem integer_reading_range (w : world) (self : MobileAlertsData)
  (t : list event) (z : Z) (u : string) :
  get_reading w self = (t, Ok (Some (PyInt z), u)) -> z = 0 \/ 100 <= z.
Proof.
  destruct (get_results_table w self (_device_id self) (_duration self))
    as [t0 [[tbl |] | e]] eqn:Hfetch.
  - rewrite (get_reading_with_table _ _ Hfetch).
    destruct (device_class_column (_device_class self)) as [col | e];
      [| discriminate]. cbn [obind].
    destruct (get_measurements tbl col true) as [[values unit] | e];
      [| discriminate]. cbn [obind].
    destruct (List.length values =? 0)%nat.
    { intros H. injection H as _ <- _. left. reflexivity. }
    destruct (aggregate (_method self) values) as [[z0 | r] | e] eqn:Hagg;
      [| | discriminate]; cbn [obind round_result].
    + apply aggregate_int_is_zero in Hagg. subst z0.
      cbn. intros H. injection H as _ <- _. left. reflexivity.
    + destruct (float_gt r 100) eqn:Hgt.
      * destruct (py_int r) as [z1 | e] eqn:Hint; [| discriminate].
        cbn [obind]. intros H. injection H as _ <- _. right.
        exact (py_int_above_100 Hgt Hint).
      * discriminate.
  - rewrite (get_reading_no_table _ _ Hfetch). discriminate.
  - unfold get_reading. rewrite Hfetch. discriminate.
Qed.

(* ================================================================= *)
(** ** Further properties of the table reading *)

Lemma map_outcome_length {A B} (f : A -> outcome B) (xs : list A)
  (ys : list B) :
  map_outcome f xs = Ok ys -> List.length ys = List.length xs.
Proof.
  revert ys. induction xs as [| x xs IH]; intros ys; simpl.
  - intros H; injection H as <-; reflexivity.
  - destruct (f x); [| discriminate].
    destruct (map_outcome f xs) as [ys' |]; [| discriminate].
    intros H; injection H as <-. simpl. rewrite (IH ys' eq_refl).
    reflexivity.
Qed.

Lemma map_outcome_nth {A B} (f : A -> outcome B) (xs : list A)
  (ys : list B) (i : nat) (y : B) :
  map_outcome f xs = Ok ys -> nth_error ys i = Some y ->
  exists x, nth_error xs i = Some x /\ f x = Ok y.
Proof.
  revert ys i. induction xs as [| x xs IH]; intros ys i; simpl.
  - intros H; injection H as <-. destruct i; discriminate.
  - destruct (f x) as [y0 |] eqn:Hx; [| discriminate].
    destruct (map_outcome f xs) as [ys' |]; [| discriminate].
    intros H; injection H as <-. destruct i as [| i]; simpl.
    + intros H; injection H as <-. exists x. auto.
    + apply IH. reflexivity.
Qed.

(** When every failure of [f] is the exception [e0] and [f] fails on an
    element, the whole map fails with [e0]. *)
Lemma map_outcome_raise {A B} (f : A -> outcome B) (xs : list A)
  (x0 : A) (e0 : exn) :
  (forall x e, f x = Raise e -> e = e0) ->
  In x0 xs -> f x0 = Raise e0 ->
  map_outcome f xs = Raise e0.
Proof.
  intros Hsame Hin Hx0. induction xs as [| x xs IH]; [contradiction |].
  simpl. destruct (f x) as [y | e] eqn:Hx.
  - destruct Hin as [-> | Hin]; [congruence |].
    rewrite (IH Hin). reflexivity.
  - rewrite (Hsame x e Hx). reflexivity.
Qed.

Lemma contents0_raise (c : contents) (e : exn) :
  contents0 c = Raise e -> e = index_error.
Proof. destruct c; [| discriminate]. intros H; injection H as <-; auto. Qed.

Lemma cell_of_row_raise (col : nat) (x : list contents) (e : exn) :
  (td <- py_nth x col ;; contents0 td)%outcome = Raise e -> e = index_error.
Proof.
  unfold py_nth. destruct (nth_error x col) as [td |]; cbn [obind].
  - apply contents0_raise.
  - intros H; injection H as <-; reflexivity.
Qed.

(** The index that the column locator returns points at a header cell whose
    first text is the target: it is within the header row. *)
Theorem get_position_in_header (tbl : Table) (column_name : string)
  (i : nat) :
  get_position tbl column_name = Ok i ->
  exists ths rest,
    thead tbl = Some ths
    /\ nth_error ths i = Some (column_name :: rest)
    /\ (i < List.length ths)%nat.
Proof.
  unfold get_position.
  destruct (thead tbl) as [ths |]; [| discriminate]. cbn [find_all_of obind].
  destruct (map_outcome contents0 ths) as [names |] eqn:Hnames;
    [| discriminate]. cbn [obind].
  destruct (list_index column_name names) as [k |] eqn:Hk; [| discriminate].
  intros H; injection H as <-.
  destruct (list_index_some _ _ Hk) as [Hnth _].
  destruct (map_outcome_nth _ _ _ Hnames Hnth) as (cell & Hcell & Hfirst).
  destruct cell as [| c rest]; [discriminate |].
  injection Hfirst as ->.
  exists ths, rest. repeat split; [exact Hcell |].
  apply nth_error_Some. rewrite Hcell. discriminate.
Qed.

(** One header cell without content makes the lookup of every column fail
    with [IndexError], also of the columns that are there, and with it the
    extraction of any column. *)
Theorem empty_header_cell_breaks_lookup (tbl : Table)
  (ths : list contents) (column_name : string) (is_numeric : bool) :
  thead tbl = Some ths ->
  In [] ths ->
  get_position tbl column_name = Raise index_error
  /\ get_measurements tbl column_name is_numeric = Raise index_error.
Proof.
  intros Hhead Hin.
  assert (Hpos : get_position tbl column_name = Raise index_error).
  { unfold get_position. rewrite Hhead. cbn [find_all_of obind].
    rewrite (@map_outcome_raise _ _ contents0 ths [] index_error
               contents0_raise Hin eq_refl).
    reflexivity. }
  split; [exact Hpos |].
  unfold get_measurements. rewrite Hpos. reflexivity.
Qed.

(** A body row that is too short for the column makes the extraction fail
    with [IndexError], wherever the row is, before any cell is parsed. *)
Theorem short_row_breaks_extraction (tbl : Table) (column_name : string)
  (col : nat) (trs : list (list contents)) (row : list contents)
  (is_numeric : bool) :
  get_position tbl column_name = Ok col ->
  tbody tbl = Some trs ->
  In row trs ->
  (List.length row <= col)%nat ->
  get_measurements tbl column_name is_numeric = Raise index_error.
Proof.
  intros Hpos Hbody Hin Hshort.
  unfold get_measurements. rewrite Hpos, Hbody. cbn [find_all_of obind].
  rewrite (@map_outcome_raise _ _
             (fun x => td <- py_nth x col ;; contents0 td)%outcome
             trs row index_error (@cell_of_row_raise col) Hin).
  - reflexivity.
  - unfold py_nth. apply nth_error_None in Hshort.
    rewrite Hshort. reflexivity.
Qed.

(** The extraction returns one value for each body row. *)
Theorem get_measurements_row_count (tbl : Table) (column_name : string)
  (is_numeric : bool) (values : list (measurement is_numeric))
  (unit : string) :
  get_measurements tbl column_name is_numeric = Ok (values, unit) ->
  exists trs,
    tbody tbl = Some trs /\ List.length values = List.length trs.
Proof.
  unfold get_measurements.
  destruct (get_position tbl column_name) as [col |]; [| discriminate].
  cbn [obind].
  destruct (tbody tbl) as [trs |]; [| discriminate].
  cbn [find_all_of obind].
  destruct (map_outcome _ trs) as [ms |] eqn:Hms; [| discriminate].
  cbn [obind]. apply map_outcome_length in Hms.
  destruct ms as [| first ms'].
  - intros H; injection H as <- _. exists trs. auto.
  - destruct (extract_start_stop first) as [[n k] |]; [| discriminate].
    cbn [obind].
    destruct (extract_value_units (Some first)) as [[v u] |];
      [| discriminate]. cbn [obind].
    destruct is_numeric.
    + destruct (map_outcome _ (first :: ms')) as [vs |] eqn:Hvs;
        [| discriminate].
      cbn [obind]. intros H; injection H as <- _. exists trs.
      split; [reflexivity |].
      apply map_outcome_length in Hvs. exact (eq_trans Hvs Hms).
    + cbn [obind]. intros H; injection H as <- _. exists trs.
      split; [reflexivity |].
      exact (eq_trans (length_map _ (first :: ms')) Hms).
Qed.

(** The numeric extraction is the text extraction followed by [float] on
    every text, in row order: when the texts of a column are extracted,
    its numbers are the floats of these texts, with the same unit, and the
    first text that is no float raises. *)
Theorem numeric_extraction_parses_texts (tbl : Table)
  (column_name : string) (texts : list string) (unit : string) :
  get_measurements tbl column_name false = Ok (texts, unit) ->
  get_measurements tbl column_name true
  = (values <- map_outcome py_float texts ;; Ok (values, unit))%outcome.
Proof.
  unfold get_measurements.
  destruct (get_position tbl column_name) as [col |]; [| discriminate].
  cbn [obind].
  destruct (tbody tbl) as [trs |]; [| discriminate].
  cbn [find_all_of obind].
  destruct (map_outcome _ trs) as [ms |]; [| discriminate].
  cbn [obind].
  destruct ms as [| first ms'].
  - intros H; injection H as <- <-. reflexivity.
  - destruct (extract_start_stop first) as [[n k] |]; [| discriminate].
    cbn [obind].
    destruct (extract_value_units (Some first)) as [[v u] |];
      [| discriminate]. cbn [obind].
    intros H; injection H as <- <-.
    pose proof (map_outcome_map py_float (fun s => py_slice_to s (- n))
                  (first :: ms')) as Hmap.
    cbn [map] in Hmap |- *. rewrite Hmap. reflexivity.
Qed.

(* ================================================================= *)
(** ** Further properties of the update *)

(** An invocation that runs the body and returns records the time of the
    return. *)
Lemma update_records_return (w : world) (self self1 : MobileAlertsData)
  (t : list event) :
  throttle_due MIN_TIME_BETWEEN_UPDATES (_throttle self) (utcnow_before w)
  = true ->
  update w self = (t, Ok self1) ->
  _throttle self1 = Some (utcnow_after w).
Proof.
  intros Hdue. unfold update, Throttle. rewrite Hdue.
  unfold update_body, io_bind.
  destruct (get_reading w self) as [t0 [[[obs |] u] | e]];
    cbn; intros H; inversion H; reflexivity.
Qed.

(** An invocation of [update] never changes the configuration of the
    fetcher, and the time that the throttle keeps changes only when the
    body has run and returned: to the time of that return. *)
Theorem update_frame (w : world) (self : MobileAlertsData) :
  let self' := after_update w self in
  _device_id self' = _device_id self
  /\ _device_class self' = _device_class self
  /\ _duration self' = _duration self
  /\ _method self' = _method self
  /\ _time_zone self' = _time_zone self
  /\ _throttle self'
     = match snd (update w self) with
       | Ok _ =>
           if throttle_due MIN_TIME_BETWEEN_UPDATES (_throttle self)
                (utcnow_before w)
           then Some (utcnow_after w)
           else _throttle self
       | Raise _ => _throttle self
       end.
Proof.
  unfold after_update, update, Throttle.
  destruct (throttle_due MIN_TIME_BETWEEN_UPDATES (_throttle self)
              (utcnow_before w)); [| cbn; auto 6].
  unfold update_body, io_bind.
  destruct (get_reading w self) as [t0 [[[obs |] u] | e]];
    cbn; auto 6.
Qed.

(** However many invocations follow a completed fetch within one hour of
    its return, none of them issues a request or logs a line (the trace of
    the whole run is empty), and the fetcher stays as it is. *)
Theorem throttled_run_is_silent (w0 : world) (ws : list world)
  (self self1 : MobileAlertsData) (t0 : list event) :
  throttle_due MIN_TIME_BETWEEN_UPDATES (_throttle self) (utcnow_before w0)
  = true ->
  update w0 self = (t0, Ok self1) ->
  Forall (fun w => utcnow_before w - utcnow_after w0
                   <= MIN_TIME_BETWEEN_UPDATES) ws ->
  run_updates ws self1 = ([], self1).
Proof.
  intros Hdue Hfirst Hall.
  pose proof (update_records_return w0 self Hdue Hfirst) as Hrec.
  induction Hall as [| w ws Hw _ IH]; [reflexivity |].
  assert (Hnot : update w self1 = ([], Ok self1)).
  { apply update_not_due. rewrite Hrec. cbn [throttle_due].
    apply Z.ltb_ge. exact Hw. }
  cbn [run_updates]. unfold after_update. rewrite Hnot. cbn [fst snd].
  rewrite IH. reflexivity.
Qed.

(** A sensor never changes its name, its attributes or its mode when it
    updates: a historic sensor keeps a fetcher and no weather entity, a
    current sensor keeps its weather entity and its key. *)
Theorem sensor_update_frame (w : world) (hass : HomeAssistant)
  (ent ent' : MobileAlertsWeather) (t : list event) :
  MobileAlertsWeather_update w hass ent = (t, Ok ent') ->
  _name ent' = _name ent
  /\ _attributes ent' = _attributes ent
  /\ _weather ent' = _weather ent
  /\ _sensor_class ent' = _sensor_class ent
  /\ (_mad ent' = None <-> _mad ent = None).
Proof.
  unfold MobileAlertsWeather_update.
  destruct (_weather ent) as [entity_id |] eqn:Hweather.
  - cbn [states_get]. unfold io_lift at 1. rewrite io_bind_ok.
    destruct (dict_get (states hass) (py_lower entity_id)) as [weather |];
      [| discriminate].
    unfold io_bind, io_lift. cbn [fst snd].
    destruct (extract_value_units _) as [[state unit] |]; [| discriminate].
    cbn. intros H; injection H as _ <-. cbn. rewrite Hweather.
    repeat split; auto.
  - destruct (_mad ent) as [mad |]; [| discriminate].
    unfold io_bind.
    destruct (snd (update w mad)) as [mad' |]; [| discriminate].
    cbn. intros H; injection H as _ <-. cbn. rewrite Hweather.
    repeat split; auto; discriminate.
Qed.

(** A current sensor updates from the state of the host alone: its update
    issues no request, logs nothing, and is the same whatever the clock
    and the network are. *)
Theorem current_update_is_local (w1 w2 : world) (hass : HomeAssistant)
  (ent : MobileAlertsWeather) :
  _weather ent <> None ->
  fst (MobileAlertsWeather_update w1 hass ent) = []
  /\ MobileAlertsWeather_update w1 hass ent
     = MobileAlertsWeather_update w2 hass ent.
Proof.
  intros Hweather. unfold MobileAlertsWeather_update.
  destruct (_weather ent) as [entity_id |]; [| contradiction].
  split; [| reflexivity].
  cbn [states_get]. unfold io_lift at 1. rewrite io_bind_ok.
  destruct (dict_get (states hass) (py_lower entity_id)) as [weather |];
    [| reflexivity].
  unfold io_bind, io_lift. cbn [fst snd].
  destruct (extract_value_units _) as [[state unit] |]; reflexivity.
Qed.

(** After every update of a historic sensor that returns, the sensor shows
    the cache of its fetcher: the state is the cached value and the unit is
    the cached unit. *)
Theorem historic_sensor_mirrors_cache (w : world) (hass : HomeAssistant)
  (ent ent' : MobileAlertsWeather) (t : list event) :
  _weather ent = None ->
  MobileAlertsWeather_update w hass ent = (t, Ok ent') ->
  exists mad mad',
    _mad ent = Some mad
    /\ update w mad = (t, Ok mad')
    /\ _mad ent' = Some mad'
    /\ _state ent' = option_map Num (data mad')
    /\ _unit_of_measurement ent' = unit' mad'.
Proof.
  intros Hweather. unfold MobileAlertsWeather_update. rewrite Hweather.
  destruct (_mad ent) as [mad |]; [| discriminate].
  destruct (update w mad) as [t1 [mad' | e]] eqn:Hupd; [| discriminate].
  rewrite io_bind_ok. cbn. rewrite app_nil_r.
  intros H; injection H as <- <-.
  exists mad, mad'. cbn. auto 6.
Qed.

(** The first update of a new historic sensor that gets no table leaves
    the state [None] and replaces the unit, the empty string until then,
    by [None]. *)
Theorem first_update_without_data (w : world) (hass : HomeAssistant)
  (name device_id : string) (device_class method : option string)
  (duration : Z) (t : list event) :
  let mad := MobileAlertsData_init hass device_id device_class method
               duration in
  let ent := historic name mad in
  get_results_table w mad device_id duration = (t, Ok None) ->
  _unit_of_measurement ent = Some ""
  /\ exists ent',
       MobileAlertsWeather_update w hass ent
       = ((t ++ [LogWarning "Failed to fetch data from OWM"])%list, Ok ent')
       /\ _state ent' = None
       /\ _unit_of_measurement ent' = None.
Proof.
  intros mad ent Hfetch. split; [reflexivity |].
  assert (Hupd : update w mad
                 = ((t ++ [LogWarning "Failed to fetch data from OWM"])%list,
                    Ok (set_throttle mad (utcnow_after w)))).
  { rewrite update_due by reflexivity.
    rewrite (update_body_no_table w mad Hfetch), io_bind_ok.
    cbn. rewrite app_nil_r. reflexivity. }
  eexists. unfold MobileAlertsWeather_update. cbn [ent historic
    MobileAlertsWeather_init _weather _mad].
  rewrite Hupd, io_bind_ok. cbn. rewrite app_nil_r.
  repeat split.
Qed.

End Fetching.

(* ================================================================= *)
(** ** Further properties of the URL builder *)

(** When the window starts at or after the epoch and its two ends are less
    than 2^34 seconds after it, the two parameters are apart by the duration
    minus the change of the UTC offset in the window (a whole number of
    seconds): 23 hours for the last 24 hours when the clocks went forward
    by one hour in between. *)
Theorem history_url_window_offsets (w : world) (tz device_id : string)
  (duration : Z) :
  let now := now_in w tz in
  let start := mk_datetime (wall now - duration * 3600 * 1000000) false in
  let shift := utcoffset w tz now - utcoffset w tz start in
  0 <= duration ->
  wall now <= datetime_max ->
  datetime_min <= wall start ->
  0 <= wall start - utcoffset w tz start < seconds_limit ->
  0 <= wall now - utcoffset w tz now < seconds_limit ->
  shift mod 1000000 = 0 ->
  exists from to : Z,
    get_device_history_url w tz device_id duration
    = Ok (history_url device_id from to)
    /\ to - from = duration * 3600 - shift / 1000000.
Proof.
  intros now start shift Hdur Hmax Hmin Hstart0 Hnow0 Hshift.
  assert (Hlim : 0 < seconds_limit) by reflexivity.
  assert (Hw : wall start = wall now - duration * 3600 * 1000000)
    by reflexivity.
  unfold datetime_max in Hmax. unfold datetime_min in Hmin.
  assert (Hdelta : timedelta_seconds (duration * 60 * 60)
                   = Ok (duration * 60 * 60 * 1000000)).
  { apply timedelta_seconds_ok. lia. }
  assert (Hsub : datetime_sub now (duration * 60 * 60 * 1000000)
                 = Ok start).
  { rewrite datetime_sub_ok.
    - unfold start. do 2 f_equal. lia.
    - unfold datetime_min, datetime_max. lia. }
  exists (Z.quot (wall start - utcoffset w tz start) 1000000),
    (Z.quot (wall now - utcoffset w tz now) 1000000).
  split.
  { apply get_device_history_url_eq
      with (delta := duration * 60 * 60 * 1000000) (start := start);
      try assumption; [| fold now]; apply int_timestamp_seconds; lia. }
  rewrite !Z.quot_div_nonneg by lia.
  apply Z.div_exact in Hshift; [| lia].
  replace (wall start - utcoffset w tz start)
    with ((wall now - utcoffset w tz now)
          + (- (duration * 3600 - shift / 1000000)) * 1000000)
    by (unfold shift in *; lia).
  rewrite Z.div_add by lia. lia.
Qed.

(** With the same UTC offset at both ends of the window and both ends less
    than 2^34 seconds away from the epoch, on whichever side, the two
    parameters are apart by the duration or by one second less. *)
Theorem history_url_window_bounds (w : world) (tz device_id : string)
  (duration : Z) :
  let now := now_in w tz in
  let start := mk_datetime (wall now - duration * 3600 * 1000000) false in
  0 <= duration ->
  wall now <= datetime_max ->
  datetime_min <= wall start ->
  utcoffset w tz start = utcoffset w tz now ->
  - seconds_limit < wall start - utcoffset w tz start ->
  wall now - utcoffset w tz now < seconds_limit ->
  exists from to : Z,
    get_device_history_url w tz device_id duration
    = Ok (history_url device_id from to)
    /\ duration * 3600 - 1 <= to - from <= duration * 3600.
Proof.
  intros now start Hdur Hmax Hmin Hsame Hlow Hhigh.
  assert (Hw : wall start = wall now - duration * 3600 * 1000000)
    by reflexivity.
  unfold datetime_max in Hmax. unfold datetime_min in Hmin.
  assert (Hdelta : timedelta_seconds (duration * 60 * 60)
                   = Ok (duration * 60 * 60 * 1000000)).
  { apply timedelta_seconds_ok. lia. }
  assert (Hsub : datetime_sub now (duration * 60 * 60 * 1000000)
                 = Ok start).
  { rewrite datetime_sub_ok.
    - unfold start. do 2 f_equal. lia.
    - unfold datetime_min, datetime_max. lia. }
  exists (Z.quot (wall start - utcoffset w tz start) 1000000),
    (Z.quot (wall now - utcoffset w tz now) 1000000).
  split.
  { apply get_device_history_url_eq
      with (delta := duration * 60 * 60 * 1000000) (start := start);
      try assumption; [| fold now]; apply int_timestamp_seconds;
      rewrite ?Hsame in *; lia. }
  rewrite Hsame, Hw.
  set (a := wall now - utcoffset w tz now).
  replace (wall now - duration * 3600 * 1000000 - utcoffset w tz now)
    with (a - duration * 3600 * 1000000) by (unfold a; lia).
  pose proof (Z.quot_rem' a 1000000) as Ha.
  pose proof (Z.quot_rem' (a - duration * 3600 * 1000000) 1000000) as Hb.
  destruct (Z.le_ge_cases 0 a) as [Hpa | Hna];
    destruct (Z.le_ge_cases 0 (a - duration * 3600 * 1000000))
      as [Hpb | Hnb].
  - pose proof (Z.rem_bound_pos a 1000000 Hpa ltac:(lia)).
    pose proof (Z.rem_bound_pos _ 1000000 Hpb ltac:(lia)). lia.
  - pose proof (Z.rem_bound_pos a 1000000 Hpa ltac:(lia)).
    pose proof (Z.rem_bound_pos_neg _ 1000000 ltac:(lia) Hnb). lia.
  - pose proof (Z.rem_bound_pos a 1000000 ltac:(lia) ltac:(lia)).
    pose proof (Z.rem_bound_pos _ 1000000 Hpb ltac:(lia)). lia.
  - pose proof (Z.rem_bound_pos_neg a 1000000 ltac:(lia) Hna).
    pose proof (Z.rem_bound_pos_neg _ 1000000 ltac:(lia) Hnb). lia.
Qed.

(* ================================================================= *)
(** ** Further properties of the platform setup *)

(** With a device id, the setup reads the name, the device class, the
    method and the duration of the configuration and the time zone of the
    host, and nothing else: it does not depend on the states of the host,
    on the device list or on the weather entity, and it never raises. *)
Theorem historic_setup_reads (hass1 hass2 : HomeAssistant)
  (c1 c2 : config) :
  conf_device_id c1 <> "" ->
  conf_device_id c1 = conf_device_id c2 ->
  conf_name c1 = conf_name c2 ->
  conf_device_class c1 = conf_device_class c2 ->
  conf_method c1 = conf_method c2 ->
  conf_duration c1 = conf_duration c2 ->
  time_zone hass1 = time_zone hass2 ->
  async_setup_platform hass1 c1 = async_setup_platform hass2 c2
  /\ exists ent, async_setup_platform hass1 c1 = Ok [([ent], true)].
Proof.
  intros Hne Hid Hname Hclass Hmeth Hdur Htz.
  unfold async_setup_platform. rewrite <- Hid.
  destruct (String.eqb (conf_device_id c1) "") eqn:He.
  - apply String.eqb_eq in He. contradiction.
  - cbn [negb]. unfold MobileAlertsData_init.
    rewrite Hname, Hclass, Hmeth, Hdur, Htz, Hid.
    split; [reflexivity | eexists; reflexivity].
Qed.

(** Without a device id, the setup reads the name, the device list and the
    weather entity of the configuration, and of the host only whether that
    entity has a state: the device class, the method and the duration
    have no effect. *)
Theorem current_setup_reads (hass1 hass2 : HomeAssistant) (c1 c2 : config) :
  conf_device_id c1 = "" ->
  conf_device_id c2 = "" ->
  conf_name c1 = conf_name c2 ->
  conf_devices c1 = conf_devices c2 ->
  conf_weather c1 = conf_weather c2 ->
  (states_get hass1 (conf_weather c1) = Ok None
   <-> states_get hass2 (conf_weather c2) = Ok None) ->
  async_setup_platform hass1 c1 = async_setup_platform hass2 c2.
Proof.
  intros H1 H2 Hname Hdevs Hwthr Hstate.
  unfold async_setup_platform. rewrite H1, H2, Hname, Hdevs. cbn.
  rewrite <- Hwthr in *.
  destruct (conf_weather c1) as [id |]; [| reflexivity].
  cbn [states_get obind] in *.
  destruct (dict_get (states hass1) (py_lower id)) as [s1 |];
    destruct (dict_get (states hass2) (py_lower id)) as [s2 |];
    try reflexivity.
  - destruct Hstate as [_ Hstate]. discriminate (Hstate eq_refl).
  - destruct Hstate as [Hstate _]. discriminate (Hstate eq_refl).
Qed.

Lemma string_append_cancel (s a b : string) : s ++ a = s ++ b -> a = b.
Proof.
  induction s as [| c s IH]; simpl; [auto |].
  intros H; injection H as H. auto.
Qed.

(** Without a device id and with the weather entity there, the setup adds
    one sensor for each listed device class, in order, named by the
    lower-cased name, an underscore and the device class; distinct device
    classes give distinct names. *)
Theorem current_setup_names (hass : HomeAssistant) (cfg : config)
  (calls : list add_entities_call) :
  conf_device_id cfg = "" ->
  async_setup_platform hass cfg = Ok calls ->
  added_names calls
  = map (fun device_class =>
           py_lower (conf_name cfg) ++ "_" ++ device_class)
      (conf_devices cfg)
  /\ (NoDup (conf_devices cfg) -> NoDup (added_names calls)).
Proof.
  intros Hid. unfold async_setup_platform. rewrite Hid.
  change (negb ("" =? "")%string) with false. cbv iota zeta.
  destruct (states_get hass (conf_weather cfg)) as [[st |] | e];
    cbn [obind]; [| discriminate | discriminate].
  intros H; injection H as <-.
  assert (Hnames : added_names
                     (map (fun device_class =>
                             ([current
                                 (py_lower (conf_name cfg) ++ "_"
                                  ++ device_class)
                                 device_class (conf_weather cfg)], false))
                        (conf_devices cfg))
                   = map (fun device_class =>
                            py_lower (conf_name cfg) ++ "_" ++ device_class)
                       (conf_devices cfg)).
  { unfold added_names.
    induction (conf_devices cfg) as [| dc dcs IH]; [reflexivity |].
    cbn in *. rewrite IH. reflexivity. }
  split; [exact Hnames |].
  intros Hnodup. refine (eq_ind_r (@NoDup string) _ Hnames).
  clear Hnames.
  induction Hnodup as [| dc dcs Hnotin _ IH]; cbn [map]; [constructor |].
  constructor; [| exact IH].
  intros Hin. apply in_map_iff in Hin. destruct Hin as (dc' & Heq & Hin).
  apply string_append_cancel in Heq.
  apply (string_append_cancel "_") in Heq. subst dc'. contradiction.
Qed.

(* ================================================================= *)
(** ** Witnesses of the further properties *)

(** A page without a table is the no-data result, with its warning. *)
Lemma fetch_no_data_iff_witness :
  let w := berlin_world noon (HttpResponse 200 "") in
  let self := ex_fetcher "temperature" CONF_MAXIMUM in
  let r := @get_results_table station w self "0123456789AB" 24 in
  (snd r = Ok None
   <-> (exists e,
          requests_get w noon_url request_headers = HttpRaise e
          /\ (issubclass (exn_class e) ConnectionError = true
              \/ issubclass (exn_class e) TimeoutError = true))
       \/ (exists text,
             requests_get w noon_url request_headers
             = HttpResponse 200 text
             /\ @soup_tables station text = []))
  /\ (snd r = Ok None <-> warnings_of (fst r) <> []).
Proof.
  intros w self r.
  refine (@fetch_no_data_iff station w self "0123456789AB" 24 noon_url _).
  vm_compute. reflexivity.
Defined.

(** The grid is the table of the vendor page. *)
Lemma fetch_table_iff_witness :
  let self := ex_fetcher "temperature" CONF_MAXIMUM in
  snd (@get_results_table station noon_world self "0123456789AB" 24)
  = Ok (Some station_table)
  <-> exists text rest,
        requests_get noon_world noon_url request_headers
        = HttpResponse 200 text
        /\ @soup_tables station text = station_table :: rest.
Proof.
  intros self.
  refine (@fetch_table_iff station noon_world self "0123456789AB" 24
            noon_url station_table _).
  vm_compute. reflexivity.
Defined.

(** The status 204 raises. *)
Lemma fetch_raises_iff_witness :
  let w := berlin_world noon (HttpResponse 204 "") in
  let self := ex_fetcher "temperature" CONF_MAXIMUM in
  let e := mk_exn Exception
             ("requests getting data: 204, " ++ noon_url) in
  snd (@get_results_table station w self "0123456789AB" 24) = Raise e.
Proof.
  intros w self e.
  apply (proj2 (@fetch_raises_iff station w self "0123456789AB" 24
                  noon_url e ltac:(vm_compute; reflexivity))).
  right. exists 204, "". repeat split. discriminate.
Defined.

(** An update over the grid stores the maximum and its unit. *)
Lemma update_never_clears_cache_witness :
  (data fetched_at_noon = data cached_fetcher
   /\ unit' fetched_at_noon = unit' cached_fetcher)
  \/ (exists obs u,
        snd (@get_reading station noon_world cached_fetcher)
        = Ok (Some obs, u)
        /\ data fetched_at_noon = Some obs
        /\ unit' fetched_at_noon = Some u).
Proof.
  refine (@update_never_clears_cache station noon_world cached_fetcher
            fetched_at_noon [HttpGet noon_url request_headers] _).
  vm_compute. reflexivity.
Defined.

(** The maximum of a column with an infinite reading makes [int] raise. *)
Lemma reading_raises_only_on_infinity_witness :
  let self := ex_fetcher "pressure" CONF_MAXIMUM in
  let e := mk_exn OverflowError "cannot convert float infinity to integer" in
  @get_reading inf_collaborators noon_world self
  = ([HttpGet noon_url request_headers], Raise e)
  /\ @aggregate inf_collaborators (_method self)
       [infinity; float_of_ratio 10128 10]
     = Ok (PyFloat infinity)
  /\ e = mk_exn OverflowError "cannot convert float infinity to integer".
Proof.
  intros self e.
  assert (Hread : @get_reading inf_collaborators noon_world self
                  = ([HttpGet noon_url request_headers], Raise e))
    by (vm_compute; reflexivity).
  split; [exact Hread |].
  refine (@reading_raises_only_on_infinity inf_collaborators noon_world
            self [HttpGet noon_url request_headers] inf_table "Pressure"
            [infinity; float_of_ratio 10128 10] "hPa" e _ _ _ Hread);
    vm_compute; reflexivity.
Defined.

(** A historic sensor set up without a device class. *)
Lemma reading_unknown_device_class_witness :
  let self := MobileAlertsData_init ex_hass "0123456789AB" None
                (Some CONF_MAXIMUM) 24 in
  exists e,
    exn_class e = KeyError
    /\ @get_reading station noon_world self
       = ([HttpGet noon_url request_headers], Raise e)
    /\ (throttle_due MIN_TIME_BETWEEN_UPDATES (_throttle self)
          (utcnow_before noon_world) = true ->
        @update station noon_world self
        = ([HttpGet noon_url request_headers], Raise e)).
Proof.
  intros self.
  refine (@reading_unknown_device_class station noon_world self
            [HttpGet noon_url request_headers] station_table _ _).
  - vm_compute. reflexivity.
  - exact I.
Defined.

(** A historic sensor set up without a method reads 0 C. *)
Lemma reading_without_method_witness :
  let self := MobileAlertsData_init ex_hass "0123456789AB"
                (Some "temperature") None 24 in
  @get_reading station noon_world self
  = ([HttpGet noon_url request_headers], Ok (Some (PyInt 0), "C")).
Proof.
  intros self.
  refine (@reading_without_method station noon_world self
            [HttpGet noon_url request_headers] station_table "Temperature"
            [21.5%float; 19%float; float_of_ratio 182 10] "C" _ _ _ _).
  - vm_compute. reflexivity.
  - reflexivity.
  - vm_compute. reflexivity.
  - exact I.
Defined.

(** The maximum pressure, 1013.2, is read as 1013. *)
Lemma integer_reading_range_witness :
  @get_reading station noon_world (ex_fetcher "pressure" CONF_MAXIMUM)
  = ([HttpGet noon_url request_headers], Ok (Some (PyInt 1013), "hPa"))
  /\ (1013 = 0 \/ 100 <= 1013).
Proof.
  assert (Hread : @get_reading station noon_world
                    (ex_fetcher "pressure" CONF_MAXIMUM)
                  = ([HttpGet noon_url request_headers],
                     Ok (Some (PyInt 1013), "hPa")))
    by (vm_compute; reflexivity).
  split; [exact Hread |].
  exact (@integer_reading_range station _ _ _ _ _ Hread).
Defined.

(** "Humidity" in the header of the grid. *)
Lemma get_position_in_header_witness :
  exists ths rest,
    thead station_table = Some ths
    /\ nth_error ths 2 = Some ("Humidity" :: rest)
    /\ (2 < List.length ths)%nat.
Proof.
  refine (@get_position_in_header station_table "Humidity" 2 _).
  reflexivity.
Defined.

(** "Humidity" is there and cannot be found. *)
Lemma empty_header_cell_breaks_lookup_witness :
  get_position broken_header_table "Humidity" = Raise index_error
  /\ @get_measurements station broken_header_table "Humidity" true
     = Raise index_error.
Proof.
  refine (@empty_header_cell_breaks_lookup station broken_header_table
            [["Time"]; []; ["Humidity"]] "Humidity" true _ _).
  - reflexivity.
  - simpl. auto.
Defined.

(** The second row has no temperature cell. *)
Lemma short_row_breaks_extraction_witness :
  @get_measurements station short_row_table "Temperature" true
  = Raise index_error.
Proof.
  refine (@short_row_breaks_extraction station short_row_table
            "Temperature" 1
            [ [["01/01/2021 12:00"]; ["21.5 C"]]; [["01/01/2021 11:00"]] ]
            [["01/01/2021 11:00"]] true _ _ _ _).
  - reflexivity.
  - reflexivity.
  - simpl. auto.
  - simpl. lia.
Defined.

(** Three rows, three temperatures. *)
Lemma get_measurements_row_count_witness :
  exists trs,
    tbody station_table = Some trs
    /\ List.length [21.5%float; 19%float; float_of_ratio 182 10]
       = List.length trs.
Proof.
  refine (@get_measurements_row_count station station_table "Temperature"
            true [21.5%float; 19%float; float_of_ratio 182 10] "C" _).
  vm_compute. reflexivity.
Defined.

(** The humidity column, as texts and as numbers. *)
Lemma numeric_extraction_parses_texts_witness :
  @get_measurements station station_table "Humidity" true
  = (values <- map_outcome float_of_decimal_string ["40"; "45"; "47"] ;;
     Ok (values, "%"))%outcome.
Proof.
  refine (@numeric_extraction_parses_texts station station_table "Humidity"
            ["40"; "45"; "47"] "%" _).
  vm_compute. reflexivity.
Defined.

(** Three invocations in the hour after the fetch at [noon]. *)
Lemma throttled_run_is_silent_witness :
  @run_updates station
    [ berlin_world (noon + 10 * 60 * 1000000) vendor_page;
      berlin_world (noon + 30 * 60 * 1000000) (HttpResponse 500 "");
      berlin_world (noon + 3600 * 1000000) vendor_page ]
    fetched_at_noon
  = ([], fetched_at_noon).
Proof.
  refine (@throttled_run_is_silent station noon_world _
            (ex_fetcher "temperature" CONF_MAXIMUM) fetched_at_noon
            [HttpGet noon_url request_headers] _ _ _).
  - reflexivity.
  - vm_compute. reflexivity.
  - repeat constructor; vm_compute; intro H; discriminate H.
Defined.

(** The historic sensor over the grid. *)
Lemma sensor_update_frame_witness :
  exists t ent',
    @MobileAlertsWeather_update station noon_world ex_hass cached_sensor
    = (t, Ok ent')
    /\ _name ent' = _name cached_sensor
    /\ _attributes ent' = _attributes cached_sensor
    /\ _weather ent' = _weather cached_sensor
    /\ _sensor_class ent' = _sensor_class cached_sensor
    /\ (_mad ent' = None <-> _mad cached_sensor = None).
Proof.
  do 2 eexists. split; [vm_compute; reflexivity |].
  refine (@sensor_update_frame station noon_world ex_hass cached_sensor
            _ _ _).
  vm_compute. reflexivity.
Defined.

(** The current sensor, at [noon] and in another world. *)
Lemma current_update_is_local_witness :
  fst (@MobileAlertsWeather_update station noon_world ex_hass
         current_sensor) = []
  /\ @MobileAlertsWeather_update station noon_world ex_hass current_sensor
     = @MobileAlertsWeather_update station utc_world ex_hass
         current_sensor.
Proof.
  refine (@current_update_is_local station noon_world utc_world ex_hass
            current_sensor _).
  discriminate.
Defined.

(** The historic sensor shows the maximum of the grid. *)
Lemma historic_sensor_mirrors_cache_witness :
  exists t ent' mad mad',
    @MobileAlertsWeather_update station noon_world ex_hass cached_sensor
    = (t, Ok ent')
    /\ _mad cached_sensor = Some mad
    /\ @update station noon_world mad = (t, Ok mad')
    /\ _mad ent' = Some mad'
    /\ _state ent' = option_map Num (data mad')
    /\ _unit_of_measurement ent' = unit' mad'.
Proof.
  do 2 eexists.
  assert (Hupd : @MobileAlertsWeather_update station noon_world ex_hass
                   cached_sensor
                 = ([HttpGet noon_url request_headers],
                    Ok (set_state cached_sensor (Some fetched_cached)
                          (Some (Num (PyFloat 21.5))) (Some "C"))))
    by (vm_compute; reflexivity).
  destruct (@historic_sensor_mirrors_cache station noon_world ex_hass
              cached_sensor _ _ eq_refl Hupd) as (mad & mad' & H).
  exists mad, mad'. split; [exact Hupd | exact H].
Defined.

(** The first update of a historic sensor over a page without a table. *)
Lemma first_update_without_data_witness :
  let w := berlin_world noon (HttpResponse 200 "") in
  let mad := MobileAlertsData_init ex_hass "0123456789AB"
               (Some "temperature") (Some CONF_MAXIMUM) 24 in
  let ent := historic "MA" mad in
  let t := [HttpGet noon_url request_headers;
            LogWarning ("No data returned : " ++ noon_url)] in
  _unit_of_measurement ent = Some ""
  /\ exists ent',
       @MobileAlertsWeather_update station w ex_hass ent
       = ((t ++ [LogWarning "Failed to fetch data from OWM"])%list, Ok ent')
       /\ _state ent' = None
       /\ _unit_of_measurement ent' = None.
Proof.
  intros w mad ent t.
  refine (@first_update_without_data station w ex_hass "MA" "0123456789AB"
            (Some "temperature") (Some CONF_MAXIMUM) 24 t _).
  vm_compute. reflexivity.
Defined.

(** A day that holds the change to summer time is 23 hours long. *)
Lemma history_url_window_offsets_witness :
  exists from to : Z,
    get_device_history_url dst_world "Europe/Berlin" "0123456789AB" 24
    = Ok (history_url "0123456789AB" from to)
    /\ to - from = 82800.
Proof.
  destruct (@history_url_window_offsets dst_world "Europe/Berlin"
              "0123456789AB" 24)
    as (from & to & Hurl & Hdiff);
    try (vm_compute; repeat split;
         first [reflexivity | intro H; discriminate H]).
  exists from, to. split; [exact Hurl |].
  rewrite Hdiff. vm_compute. reflexivity.
Defined.

(** A window that starts before 1970, half a second past the second. *)
Lemma history_url_window_bounds_witness :
  exists from to : Z,
    get_device_history_url utc_world "UTC" "0123456789AB" 500000
    = Ok (history_url "0123456789AB" from to)
    /\ 500000 * 3600 - 1 <= to - from <= 500000 * 3600.
Proof.
  refine (@history_url_window_bounds utc_world "UTC" "0123456789AB" 500000
            _ _ _ _ _ _);
    vm_compute; first [reflexivity | intro H; discriminate H].
Defined.

(** Two historic set-ups that differ in the options of the current mode
    and in the entities of the host. *)
Lemma historic_setup_reads_witness :
  async_setup_platform ex_hass historic_config
  = async_setup_platform bare_hass historic_config'
  /\ exists ent,
       async_setup_platform ex_hass historic_config = Ok [([ent], true)].
Proof.
  refine (@historic_setup_reads ex_hass bare_hass historic_config
            historic_config' _ _ _ _ _ _ _);
    first [reflexivity | discriminate].
Defined.

(** Two current set-ups that differ in the options of the historic mode,
    in the time zone and in the attributes of the weather entity. *)
Lemma current_setup_reads_witness :
  async_setup_platform ex_hass current_config
  = async_setup_platform other_hass current_config'.
Proof.
  refine (@current_setup_reads ex_hass other_hass current_config
            current_config' _ _ _ _ _ _);
    try reflexivity.
  split; intro H; discriminate H.
Defined.

(** The two sensors of [current_config]. *)
Lemma current_setup_names_witness :
  added_names [([current "ma_temperature" "temperature"
                   (Some "weather.station")], false);
               ([current "ma_humidity" "humidity"
                   (Some "weather.station")], false)]
  = ["ma_temperature"; "ma_humidity"]
  /\ (NoDup ["temperature"; "humidity"]
      -> NoDup (added_names
                  [([current "ma_temperature" "temperature"
                       (Some "weather.station")], false);
                   ([current "ma_humidity" "humidity"
                       (Some "weather.station")], false)])).
Proof.
  refine (@current_setup_names ex_hass current_config _ _ _);
    reflexivity.
Defined.
